(** * ForgeLSP VS Code extension: binary provisioning and supervision

    A shallow embedding of [src/extension.ts].  The editor, the file
    system, the network and the user are an explicit [World]; every
    [async function] of the source is a computation of the [JS] monad,
    which threads the world and ends in a returned value, a thrown error
    or a promise that never settles. *)

From Stdlib Require Import ZArith Ascii String.
From stdpp Require Import base option list gmap strings.

Local Open Scope Z_scope.

(** ** Characters used by the JSON text format *)

Definition DQUOTE : ascii := "034"%char.
Definition BSLASH : ascii := "092"%char.
Definition LF : ascii := "010"%char.

(** ** JSON: the values [JSON.parse] produces and [JSON.stringify] prints

    A JavaScript string is represented by its UTF-8 bytes, which is also
    how [fs] stores it with the 'utf-8' encoding. *)
Module JSON.

#[local] Unset Elimination Schemes.
Inductive JsValue : Type :=
| JNull
| JBool (b : bool)
| JNum (mantissa exponent : Z)          (* mantissa * 10 ^ exponent *)
| JStr (s : string)
| JArr (items : list JsValue)
| JObj (members : list (string * JsValue)).
#[local] Set Elimination Schemes.

(** Boolean coercion, as in [if (!v)].  [null], [false], [""] and a number
    that is zero as a double are falsy; a decimal of magnitude at most
    2^-1075 rounds to zero. *)
Definition number_is_zero (m e : Z) : bool :=
  (m =? 0) || ((e <? 0) && (Z.abs m * 2 ^ 1075 <=? 10 ^ (- e))).

Definition truthy (v : JsValue) : bool :=
  match v with
  | JNull => false
  | JBool b => b
  | JNum m e => negb (number_is_zero m e)
  | JStr s => negb (String.eqb s "")
  | JArr _ | JObj _ => true
  end.

(** Property read [v.key]; [None] is [undefined].  Of duplicate keys in
    a parsed object the last one wins. *)
Fixpoint assoc_last (key : string) (ms : list (string * JsValue))
    (found : option JsValue) : option JsValue :=
  match ms with
  | [] => found
  | (k, v) :: ms' =>
      assoc_last key ms' (if String.eqb k key then Some v else found)
  end.

Definition get_prop (v : JsValue) (key : string) : option JsValue :=
  match v with
  | JObj ms => assoc_last key ms None
  | _ => None
  end.

(** Whether the conversion of [v] to a primitive throws a TypeError.
    An object built by [JSON.parse] inherits [valueOf], which returns
    the object itself, and [toString] from [Object.prototype]; an own
    property [toString] hides the inherited one and is never callable,
    which leaves no method that gives a primitive.  An array is
    converted by [join], which converts every element other than [null]
    to a string. *)
Fixpoint ToPrimitive_throws (v : JsValue) : bool :=
  match v with
  | JObj ms => existsb (λ m, String.eqb m.1 "toString") ms
  | JArr items => existsb ToPrimitive_throws items
  | JNull | JBool _ | JNum _ _ | JStr _ => false
  end.

(** *** Printing *)

Definition hex_digit (n : N) : ascii :=
  ascii_of_N (if (n <? 10)%N then 48 + n else 87 + n)%N.

Definition escape_char (c : ascii) : string :=
  let n := N_of_ascii c in
  if Ascii.eqb c DQUOTE then String BSLASH (String DQUOTE "")
  else if Ascii.eqb c BSLASH then String BSLASH (String BSLASH "")
  else if (n =? 8)%N then String BSLASH "b"
  else if (n =? 12)%N then String BSLASH "f"
  else if (n =? 10)%N then String BSLASH "n"
  else if (n =? 13)%N then String BSLASH "r"
  else if (n =? 9)%N then String BSLASH "t"
  else if (n <? 32)%N then
    String BSLASH
      (String "u" (String "0" (String "0"
        (String (hex_digit (n / 16)) (String (hex_digit (n mod 16)) "")))))
  else String c "".

Fixpoint escape (s : string) : string :=
  match s with
  | EmptyString => ""
  | String c r => escape_char c +:+ escape r
  end.

Definition quote (s : string) : string :=
  String DQUOTE (escape s +:+ String DQUOTE "").

(** *** Parsing *)

Definition is_ws (c : ascii) : bool :=
  match c with
  | " "%char | "009"%char | "010"%char | "013"%char => true
  | _ => false
  end.

Fixpoint skip_ws (s : string) : string :=
  match s with
  | String c r => if is_ws c then skip_ws r else s
  | EmptyString => s
  end.

Definition hex_value (c : ascii) : option N :=
  let n := N_of_ascii c in
  if (48 <=? n)%N && (n <=? 57)%N then Some (n - 48)%N
  else if (97 <=? n)%N && (n <=? 102)%N then Some (n - 87)%N
  else if (65 <=? n)%N && (n <=? 70)%N then Some (n - 55)%N
  else None.

Definition hex4 (a b c d : ascii) : option N :=
  x ← hex_value a; y ← hex_value b; z ← hex_value c; w ← hex_value d;
  Some (((x * 16 + y) * 16 + z) * 16 + w)%N.

(** The content of a string literal: raw bytes and the UTF-16 code units
    written as [\uXXXX]. *)
Inductive piece : Type :=
| Raw (c : ascii)
| Unit16 (n : N).

Definition simple_escape (e : ascii) : option ascii :=
  match e with
  | "034"%char => Some DQUOTE
  | "092"%char => Some BSLASH
  | "/"%char => Some "/"%char
  | "b"%char => Some "008"%char
  | "f"%char => Some "012"%char
  | "n"%char => Some "010"%char
  | "r"%char => Some "013"%char
  | "t"%char => Some "009"%char
  | _ => None
  end.

(** Reads up to and including the closing quote. *)
Fixpoint parse_chars (s : string) : option (list piece * string) :=
  match s with
  | EmptyString => None
  | String c r =>
      if Ascii.eqb c DQUOTE then Some ([], r)
      else if Ascii.eqb c BSLASH then
        match r with
        | String "u" (String h1 (String h2 (String h3 (String h4 r')))) =>
            n ← hex4 h1 h2 h3 h4;
            '(ps, rest) ← parse_chars r';
            Some (Unit16 n :: ps, rest)
        | String e r' =>
            ch ← simple_escape e;
            '(ps, rest) ← parse_chars r';
            Some (Raw ch :: ps, rest)
        | EmptyString => None
        end
      else if (N_of_ascii c <? 32)%N then None
      else '(ps, rest) ← parse_chars r; Some (Raw c :: ps, rest)
  end.

(** UTF-8 encoding of a code point. *)
Definition utf8 (n : N) : string :=
  let b (k : N) := ascii_of_N k in
  (if n <? 128 then String (b n) ""
   else if n <? 2048 then
     String (b (192 + n / 64)) (String (b (128 + n mod 64)) "")
   else if n <? 65536 then
     String (b (224 + n / 4096))
       (String (b (128 + (n / 64) mod 64)) (String (b (128 + n mod 64)) ""))
   else
     String (b (240 + n / 262144))
       (String (b (128 + (n / 4096) mod 64))
         (String (b (128 + (n / 64) mod 64)) (String (b (128 + n mod 64)) ""))))%N.

Definition is_high (n : N) : bool := (55296 <=? n)%N && (n <? 56320)%N.
Definition is_low (n : N) : bool := (56320 <=? n)%N && (n <? 57344)%N.

(** A surrogate pair is one code point; a lone surrogate has no UTF-8
    form and becomes U+FFFD. *)
Fixpoint render (ps : list piece) : string :=
  match ps with
  | [] => ""
  | Raw c :: ps' => String c (render ps')
  | Unit16 n :: ps' =>
      if is_high n then
        match ps' with
        | Unit16 m :: ps'' =>
            if is_low m
            then utf8 (65536 + (n - 55296) * 1024 + (m - 56320))%N +:+ render ps''
            else utf8 65533 +:+ render ps'
        | _ => utf8 65533 +:+ render ps'
        end
      else if is_low n then utf8 65533 +:+ render ps'
      else utf8 n +:+ render ps'
  end.

Definition parse_string (s : string) : option (string * string) :=
  '(ps, rest) ← parse_chars s; Some (render ps, rest).

Definition is_digit (c : ascii) : bool :=
  let n := N_of_ascii c in (48 <=? n)%N && (n <=? 57)%N.

(** Reads a run of digits onto the accumulator; also counts them. *)
Fixpoint read_digits (s : string) (acc : Z) (count : Z) : Z * Z * string :=
  match s with
  | String c r =>
      if is_digit c
      then read_digits r (acc * 10 + Z.of_N (N_of_ascii c - 48)) (count + 1)
      else (acc, count, s)
  | EmptyString => (acc, count, s)
  end.

(** [-? int frac? exp?] with [int] either [0] or a run without a leading
    zero. *)
Definition parse_number (s : string) : option (Z * Z * string) :=
  let '(neg, s1) :=
    match s with
    | String "-" r => (true, r)
    | _ => (false, s)
    end in
  '(ip, s2) ← match s1 with
              | String "0" r => Some (0, r)
              | String c r =>
                  if is_digit c
                  then let '(v, _, r') := read_digits s1 0 0 in Some (v, r')
                  else None
              | EmptyString => None
              end;
  '(m, fd, s3) ← match s2 with
                 | String "." r =>
                     let '(v, k, r') := read_digits r ip 0 in
                     if k =? 0 then None else Some (v, k, r')
                 | _ => Some (ip, 0, s2)
                 end;
  '(ex, s4) ← match s3 with
              | String c r =>
                  if Ascii.eqb c "e" || Ascii.eqb c "E" then
                    let '(sgn, r1) :=
                      match r with
                      | String "+" r0 => (1, r0)
                      | String "-" r0 => (-1, r0)
                      | _ => (1, r)
                      end in
                    let '(v, k, r') := read_digits r1 0 0 in
                    if k =? 0 then None else Some (sgn * v, r')
                  else Some (0, s3)
              | EmptyString => Some (0, s3)
              end;
  Some ((if neg : bool then - m else m), ex - fd, s4).

Definition strip_prefix (p s : string) : option string :=
  if String.prefix p s
  then Some (String.substring (String.length p) (String.length s - String.length p) s)
  else None.

Fixpoint parse_value (fuel : nat) (s : string) : option (JsValue * string) :=
  match fuel with
  | O => None
  | S f =>
      match skip_ws s with
      | EmptyString => None
      | String c r as s0 =>
          if Ascii.eqb c "{" then
            match skip_ws r with
            | String "}" r' => Some (JObj [], r')
            | _ => '(ms, r') ← parse_members f r; Some (JObj ms, r')
            end
          else if Ascii.eqb c "[" then
            match skip_ws r with
            | String "]" r' => Some (JArr [], r')
            | _ => '(xs, r') ← parse_items f r; Some (JArr xs, r')
            end
          else if Ascii.eqb c DQUOTE then
            '(str, r') ← parse_string r; Some (JStr str, r')
          else if Ascii.eqb c "t" then r' ← strip_prefix "true" s0; Some (JBool true, r')
          else if Ascii.eqb c "f" then r' ← strip_prefix "false" s0; Some (JBool false, r')
          else if Ascii.eqb c "n" then r' ← strip_prefix "null" s0; Some (JNull, r')
          else '(m, e, r') ← parse_number s0; Some (JNum m e, r')
      end
  end
with parse_members (fuel : nat) (s : string) : option (list (string * JsValue) * string) :=
  match fuel with
  | O => None
  | S f =>
      match skip_ws s with
      | String c r =>
          if Ascii.eqb c DQUOTE then
            '(k, r1) ← parse_string r;
            match skip_ws r1 with
            | String ":" r2 =>
                '(v, r3) ← parse_value f r2;
                match skip_ws r3 with
                | String "," r4 => '(ms, r5) ← parse_members f r4; Some ((k, v) :: ms, r5)
                | String "}" r4 => Some ([(k, v)], r4)
                | _ => None
                end
            | _ => None
            end
          else None
      | EmptyString => None
      end
  end
with parse_items (fuel : nat) (s : string) : option (list JsValue * string) :=
  match fuel with
  | O => None
  | S f =>
      '(v, r1) ← parse_value f s;
      match skip_ws r1 with
      | String "," r2 => '(xs, r3) ← parse_items f r2; Some (v :: xs, r3)
      | String "]" r2 => Some ([v], r2)
      | _ => None
      end
  end.

(** [JSON.parse]; [None] is a thrown SyntaxError.  Every recursive call
    has consumed a character, so the length of the text is fuel enough. *)
Definition parse (s : string) : option JsValue :=
  '(v, rest) ← parse_value (S (String.length s)) s;
  match skip_ws rest with
  | EmptyString => Some v
  | _ => None
  end.

End JSON.

Import JSON.

(** ** Data of the source *)

(** [interface GitHubAsset] *)
Record GitHubAsset : Type := {
  asset_name : string;
  asset_updated_at : string;
  browser_download_url : string
}.

(** [interface GitHubRelease] *)
Record GitHubRelease : Type := {
  release_tag_name : string;
  assets : list GitHubAsset
}.

(** [interface BinaryMetadata]; also the shape of what
    [getLatestReleaseInfo] returns. *)
Record BinaryMetadata : Type := {
  updated_at : string;
  tag_name : string
}.

(** [JSON.stringify(metadata, null, 2)] *)
Definition JSON_stringify (m : BinaryMetadata) : string :=
  String "{" (String LF ("  " +:+ quote "updated_at" +:+ ": " +:+ quote (updated_at m)
    +:+ String "," (String LF ("  " +:+ quote "tag_name" +:+ ": " +:+ quote (tag_name m)
    +:+ String LF "}")))).

(** The value [JSON.parse] gives back for such a text. *)
Definition metadata_value (m : BinaryMetadata) : JsValue :=
  JObj [("updated_at", JStr (updated_at m)); ("tag_name", JStr (tag_name m))].

(** ** The world the extension runs in *)

(** State of a [LanguageClient] of vscode-languageclient; [isRunning()]
    is true in [Running] only. *)
Inductive ClientState : Type :=
| Initial | Starting | StartFailed | Running | Stopping | Stopped.

Record LanguageClient : Type := {
  client_id : nat;
  command : string;            (* serverOptions.run.command *)
  state : ClientState
}.

Definition isRunning (c : LanguageClient) : bool :=
  match state c with Running => true | _ => false end.

(** The file store.  Paths are keys.  [unwritable] are the paths that
    the user may not modify, a file of another owner or a path on a
    read-only file system: opening one for writing fails (EACCES,
    EROFS) and so does changing its mode (EPERM, EROFS).  The directory
    of a file that is opened for writing is taken to exist. *)
Record Disk : Type := {
  files : gmap string string;
  dirs : gset string;
  modes : gmap string string;
  unwritable : gset string
}.

(** [os.platform()], [os.arch()], [context.globalStorageUri.fsPath] and
    [context.globalState.get('customBinaryPath')]. *)
Record Host : Type := {
  os_platform : string;
  os_arch : string;
  globalStoragePath : string;
  customBinaryPath : option string
}.

(** What the release index answers to a GET. *)
Inductive AxiosReply : Type :=
| NetworkError (e : string)
| Reply (status : Z) (data : option GitHubRelease).
   (* [data = None]: a body without an [assets] array *)

(** How the body of a download goes once the response has arrived. *)
Inductive Stream : Type :=
| Complete (body : string)                     (* all bytes written, writer closes *)
| WriterFailed (written : string) (e : string) (* writer emits 'error' *)
| SourceAborted (written : string).            (* response stream dies, writer stays open *)

(** The fate of one artifact download. *)
Inductive Transfer : Type :=
| RequestFailed (e : string)                   (* axios rejects: no stream *)
| Response (body : Stream).

(** The network: scripted replies still to come and the requests made.
    When a script is exhausted the network is down. *)
Record Net : Type := {
  api_replies : list AxiosReply;
  api_requests : list string;
  transfers : list Transfer;
  download_requests : list string
}.

Inductive Message : Type :=
| ErrorMessage (text : string)
| InformationMessage (text : string)
| Question (text : string) (items : list string)
| Progress (title : string).

(** The editor surface: the output channel, the notifications shown, the
    answers the user will give to the next questions ([None] and an
    exhausted script: the question is dismissed), the console. *)
Record Editor : Type := {
  outputChannel : list string;
  messages : list Message;
  answers : list (option string);
  console : list string
}.

(** What the connection to a server process reports to the
    [errorHandler] of the client. *)
Inductive ConnectionEvent : Type :=
| ConnectionError (error message : string)
| ConnectionClosed.

(** How a launch goes once [client.start()] has spawned the server, up
    to the settling of its promise; what becomes of the process later
    is not followed. *)
Inductive Launch : Type :=
| Ready                                   (* the server answers: start() resolves *)
| Failed (events : list ConnectionEvent)  (* start() rejects, after these events *)
| Unanswered.                             (* the server never answers: start() stays pending *)

(** The module-level [client] with the server processes spawned so far
    and the scripted launches still to come (an exhausted script: the
    server starts). *)
Record Supervisor : Type := {
  client : option LanguageClient;
  next_id : nat;
  spawned : list (nat * string);
  launches : list Launch;
  watchers : list string
}.

Record World : Type := {
  disk : Disk;
  host : Host;
  net : Net;
  editor : Editor;
  sup : Supervisor
}.

Definition with_disk (d : Disk) (w : World) : World :=
  {| disk := d; host := host w; net := net w; editor := editor w; sup := sup w |}.
Definition with_net (n : Net) (w : World) : World :=
  {| disk := disk w; host := host w; net := n; editor := editor w; sup := sup w |}.
Definition with_editor (e : Editor) (w : World) : World :=
  {| disk := disk w; host := host w; net := net w; editor := e; sup := sup w |}.
Definition with_sup (s : Supervisor) (w : World) : World :=
  {| disk := disk w; host := host w; net := net w; editor := editor w; sup := s |}.

(** The built-ins of the JavaScript runtime that the source calls and
    whose results depend on the platform: the time value of
    [new Date(v)] where the conversion of [v] to a primitive succeeds
    ([None] is an Invalid Date), [path.join] and the ancestors that
    [mkdirSync] with [recursive] creates. *)
Record Runtime : Type := {
  Date_new : option JsValue → option Z;
  path_join : string → string → string;
  path_ancestors : string → list string
}.

(** ** The monad of the asynchronous functions *)

Inductive Outcome (A : Type) : Type :=
| Returned (a : A)
| Thrown (e : string)
| Pending.
Arguments Returned {A} a.
Arguments Thrown {A} e.
Arguments Pending {A}.

Definition JS (A : Type) : Type := World → Outcome A * World.

Definition js_ret {A} (a : A) : JS A := λ w, (Returned a, w).

Definition js_bind {A B} (k : A → JS B) (m : JS A) : JS B :=
  λ w, match m w with
       | (Returned a, w') => k a w'
       | (Thrown e, w') => (Thrown e, w')
       | (Pending, w') => (Pending, w')
       end.

#[export] Instance JS_ret : MRet JS := @js_ret.
#[export] Instance JS_bind : MBind JS := @js_bind.

Definition throw {A} (e : string) : JS A := λ w, (Thrown e, w).
Definition pending {A} : JS A := λ w, (Pending, w).

(** [try { m } catch (error) { h error }] *)
Definition try_catch {A} (m : JS A) (h : string → JS A) : JS A :=
  λ w, match m w with
       | (Thrown e, w') => h e w'
       | r => r
       end.

Definition gets {A} (f : World → A) : JS A := λ w, (Returned (f w), w).
Definition modify (f : World → World) : JS unit := λ w, (Returned tt, f w).

(** ** The host surface: editor, file system, network, language client *)

Definition appendLine (line : string) : JS unit :=
  modify (λ w, with_editor
    {| outputChannel := outputChannel (editor w) ++ [line];
       messages := messages (editor w);
       answers := answers (editor w);
       console := console (editor w) |} w).

Definition console_log (line : string) : JS unit :=
  modify (λ w, with_editor
    {| outputChannel := outputChannel (editor w);
       messages := messages (editor w);
       answers := answers (editor w);
       console := console (editor w) ++ [line] |} w).

Definition post (m : Message) (w : World) : World :=
  with_editor
    {| outputChannel := outputChannel (editor w);
       messages := messages (editor w) ++ [m];
       answers := answers (editor w);
       console := console (editor w) |} w.

Definition showErrorMessage (text : string) : JS unit :=
  modify (post (ErrorMessage text)).

Definition showInformationMessage (text : string) : JS unit :=
  modify (post (InformationMessage text)).

(** [await showInformationMessage(text, ...items)]: the item the user
    picks, [None] when the notification is dismissed. *)
Definition askInformationMessage (text : string) (items : list string)
    : JS (option string) :=
  λ w, let w1 := post (Question text items) w in
       (Returned (mjoin (head (answers (editor w1)))),
        with_editor
          {| outputChannel := outputChannel (editor w1);
             messages := messages (editor w1);
             answers := tail (answers (editor w1));
             console := console (editor w1) |} w1).

(** [vscode.window.withProgress({title}, task)] *)
Definition withProgress {A} (title : string) (task : JS A) : JS A :=
  modify (post (Progress title)) ;; task.

Definition exists_path (d : Disk) (p : string) : bool :=
  match files d !! p with
  | Some _ => true
  | None => bool_decide (p ∈ dirs d)
  end.

Definition existsSync (p : string) : JS bool :=
  gets (λ w, exists_path (disk w) p).

Definition mkdirSync_recursive (ancestors : list string) (p : string) : JS unit :=
  modify (λ w, with_disk
    {| files := files (disk w);
       dirs := dirs (disk w) ∪ {[p]} ∪ list_to_set ancestors;
       modes := modes (disk w);
       unwritable := unwritable (disk w) |} w).

Definition readFileSync (p : string) : JS string :=
  λ w, match files (disk w) !! p with
       | Some content => (Returned content, w)
       | None =>
           (Thrown (if bool_decide (p ∈ dirs (disk w))
                    then "Error: EISDIR: illegal operation on a directory, read"
                    else "Error: ENOENT: no such file or directory, open '" +:+ p +:+ "'"), w)
       end.

Definition can_open_for_writing (d : Disk) (p : string) : bool :=
  negb (bool_decide (p ∈ dirs d)) && negb (bool_decide (p ∈ unwritable d)).

Definition open_error (d : Disk) (p : string) : string :=
  if bool_decide (p ∈ dirs d)
  then "Error: EISDIR: illegal operation on a directory, open '" +:+ p +:+ "'"
  else "Error: EACCES: permission denied, open '" +:+ p +:+ "'".

Definition store (p content : string) (w : World) : World :=
  with_disk
    {| files := <[p := content]> (files (disk w));
       dirs := dirs (disk w);
       modes := modes (disk w);
       unwritable := unwritable (disk w) |} w.

(** [fs.writeFileSync(p, content)]: it throws when the file cannot be
    opened; a file that is opened is taken to be written in full. *)
Definition writeFileSync (p content : string) : JS unit :=
  λ w, if can_open_for_writing (disk w) p
       then (Returned tt, store p content w)
       else (Thrown (open_error (disk w) p), w).

(** [fs.chmodSync(p, mode)]: it throws for a path that does not exist
    and for one that the user may not modify. *)
Definition chmodSync (p mode : string) : JS unit :=
  λ w, if negb (exists_path (disk w) p)
       then (Thrown ("Error: ENOENT: no such file or directory, chmod '" +:+ p +:+ "'"), w)
       else if bool_decide (p ∈ unwritable (disk w))
       then (Thrown ("Error: EPERM: operation not permitted, chmod '" +:+ p +:+ "'"), w)
       else (Returned tt, with_disk
               {| files := files (disk w);
                  dirs := dirs (disk w);
                  modes := <[p := mode]> (modes (disk w));
                  unwritable := unwritable (disk w) |} w).

(** [axios.get(url)]: rejects on a network failure and on a status
    outside 2xx. *)
Definition axios_get (url : string) : JS (option GitHubRelease) :=
  λ w, let w' := with_net
         {| api_replies := tail (api_replies (net w));
            api_requests := api_requests (net w) ++ [url];
            transfers := transfers (net w);
            download_requests := download_requests (net w) |} w in
       match head (api_replies (net w)) with
       | Some (Reply status data) =>
           if (200 <=? status) && (status <? 300)
           then (Returned data, w')
           else (Thrown "AxiosError: Request failed", w')
       | Some (NetworkError e) => (Thrown e, w')
       | None => (Thrown "AxiosError: Network Error", w')
       end.

(** [axios({method: 'get', url, responseType: 'stream'})]: the response
    stream, known here by what will become of it. *)
Definition axios_stream (url : string) : JS Stream :=
  λ w, let w' := with_net
         {| api_replies := api_replies (net w);
            api_requests := api_requests (net w);
            transfers := tail (transfers (net w));
            download_requests := download_requests (net w) ++ [url] |} w in
       match head (transfers (net w)) with
       | Some (Response body) => (Returned body, w')
       | Some (RequestFailed e) => (Thrown e, w')
       | None => (Thrown "AxiosError: Network Error", w')
       end.

(** What the write stream of [fs.createWriteStream(destPath)] emits once
    the response is piped into it.  Opening truncates the file. *)
Inductive WriterEvents : Type :=
| CloseOnly
| ErrorThenClose (err : string)
| NoEvent.

Definition pipe_to_file (response : Stream) (destPath : string) : JS WriterEvents :=
  λ w, if can_open_for_writing (disk w) destPath then
         match response with
         | Complete body => (Returned CloseOnly, store destPath body w)
         | WriterFailed written e => (Returned (ErrorThenClose e), store destPath written w)
         | SourceAborted written => (Returned NoEvent, store destPath written w)
         end
       else (Returned (ErrorThenClose (open_error (disk w) destPath)), w).

Definition client_running (c : option LanguageClient) : bool :=
  match c with
  | Some c => isRunning c
  | None => false
  end.

Definition set_client_state (st : ClientState) (s : Supervisor) : Supervisor :=
  {| client := (λ c, {| client_id := client_id c; command := command c; state := st |})
                 <$> client s;
     next_id := next_id s;
     spawned := spawned s;
     launches := launches s;
     watchers := watchers s |}.

(** [client = new LanguageClient(..., serverOptions, clientOptions)].
    The client runs [serverOptions.run.command]; the [errorHandler] of
    [clientOptions] is [errorHandler] below, to which the library
    reports the events of the connection. *)
Definition new_LanguageClient (serverPath : string) : JS unit :=
  modify (λ w, with_sup
    {| client := Some {| client_id := next_id (sup w); command := serverPath; state := Initial |};
       next_id := S (next_id (sup w));
       spawned := spawned (sup w);
       launches := launches (sup w);
       watchers := watchers (sup w) |} w).

(** [client.start()] up to its suspension: the server process is
    spawned and the client is [Starting]. *)
Definition client_start_begin : JS unit :=
  modify (λ w, with_sup
    (set_client_state Starting
      {| client := client (sup w);
         next_id := next_id (sup w);
         spawned := spawned (sup w) ++
                    match client (sup w) with
                    | Some c => [(client_id c, command c)]
                    | None => []
                    end;
         launches := launches (sup w);
         watchers := watchers (sup w) |}) w).

(** The library spawns the server of the current client once more. *)
Definition respawn : JS unit :=
  modify (λ w, with_sup
    {| client := client (sup w);
       next_id := next_id (sup w);
       spawned := spawned (sup w) ++
                  match client (sup w) with
                  | Some c => [(client_id c, command c)]
                  | None => []
                  end;
       launches := launches (sup w);
       watchers := watchers (sup w) |} w).

(** [clientOptions.errorHandler] as [startClient] sets it: [error]
    logs and answers [ErrorAction.Continue]; [closed] logs and answers
    [CloseAction.Restart], on which the library spawns the server
    again. *)
Definition errorHandler (event : ConnectionEvent) : JS unit :=
  match event with
  | ConnectionError error message =>
      appendLine ("LSP Error: " +:+ error +:+ " " +:+ message)
  | ConnectionClosed =>
      appendLine "LSP Connection Closed." ;;
      respawn
  end.

Fixpoint handle_events (events : list ConnectionEvent) : JS unit :=
  match events with
  | [] => mret tt
  | event :: events => errorHandler event ;; handle_events events
  end.

Definition next_launch : JS (option Launch) :=
  λ w, (Returned (head (launches (sup w))),
        with_sup {| client := client (sup w);
                    next_id := next_id (sup w);
                    spawned := spawned (sup w);
                    launches := tail (launches (sup w));
                    watchers := watchers (sup w) |} w).

(** [await client.start()] from its suspension on: the promise
    resolves, rejects or stays pending. *)
Definition client_start_settle : JS unit :=
  launch ← next_launch;
  match launch with
  | Some Ready | None => modify (λ w, with_sup (set_client_state Running (sup w)) w)
  | Some (Failed events) =>
      handle_events events ;;
      modify (λ w, with_sup (set_client_state StartFailed (sup w)) w) ;;
      throw "Error: Launching server failed"
  | Some Unanswered => pending
  end.

(** [await client.stop()] *)
Definition client_stop : JS unit :=
  modify (λ w, with_sup (set_client_state Stopped (sup w)) w).

Definition createFileSystemWatcher (glob : string) : JS unit :=
  modify (λ w, with_sup
    {| client := client (sup w);
       next_id := next_id (sup w);
       spawned := spawned (sup w);
       launches := launches (sup w);
       watchers := watchers (sup w) ++ [glob] |} w).

(** ** The functions of [extension.ts] *)

(** [getServerBinaryName] *)
Definition getServerBinaryName (h : Host) : option string :=
  let platform := os_platform h in
  let arch := os_arch h in
  if String.eqb platform "linux" then
    if String.eqb arch "x64" then Some "forgevsc-linux-x86_64"
    else if String.eqb arch "arm64" then Some "forgevsc-linux-aarch64"
    else None
  else if String.eqb platform "darwin" then
    if String.eqb arch "x64" then Some "forgevsc-macos-x86_64"
    else if String.eqb arch "arm64" then Some "forgevsc-macos-aarch64"
    else None
  else if String.eqb platform "win32" then
    if String.eqb arch "x64" then Some "forgevsc-windows-x86_64.exe"
    else None
  else None.

Definition releaseUrl : string :=
  "https://api.github.com/repos/zack-911/forgelsp/releases/tags/master".

Definition downloadUrl (filename : string) : string :=
  "https://github.com/zack-911/forgelsp/releases/download/master/" +:+ filename.

(** [getLatestReleaseInfo] *)
Definition getLatestReleaseInfo (binaryName : string) : JS (option BinaryMetadata) :=
  try_catch
    (response ← axios_get releaseUrl;
     data ← match response with
            | Some data => mret data
            | None => throw "TypeError: Cannot read properties of undefined (reading 'find')"
            end;
     match List.find (λ a, String.eqb (asset_name a) binaryName) (assets data) with
     | Some asset =>
         mret (Some {| updated_at := asset_updated_at asset;
                       tag_name := release_tag_name data |})
     | None => mret None
     end)
    (λ error,
       appendLine ("Failed to check for updates: " +:+ error) ;;
       mret None).

(** [getMetadataPath] *)
Definition getMetadataPath (binaryPath : string) : string :=
  binaryPath +:+ ".meta.json".

Definition JSON_parse (content : string) : JS JsValue :=
  match JSON.parse content with
  | Some v => mret v
  | None => throw "SyntaxError: Unexpected token in JSON"
  end.

(** [readMetadata]; the [null] it returns is [JNull]. *)
Definition readMetadata (binaryPath : string) : JS JsValue :=
  let metadataPath := getMetadataPath binaryPath in
  present ← existsSync metadataPath;
  if negb present then mret JNull
  else
    try_catch
      (content ← readFileSync metadataPath;
       JSON_parse content)
      (λ error,
         appendLine ("Failed to read metadata: " +:+ error) ;;
         mret JNull).

(** [writeMetadata] *)
Definition writeMetadata (binaryPath : string) (metadata : BinaryMetadata) : JS unit :=
  let metadataPath := getMetadataPath binaryPath in
  try_catch
    (writeFileSync metadataPath (JSON_stringify metadata))
    (λ error, appendLine ("Failed to write metadata: " +:+ error)).

(** Whether [new Date(v)] throws; [None] is [undefined]. *)
Definition Date_throws (v : option JsValue) : bool :=
  from_option ToPrimitive_throws false v.

(** [remoteDate > localDate]: both dates become their time values and
    an Invalid Date compares false. *)
Definition date_gt (a b : option Z) : bool :=
  match a, b with
  | Some x, Some y => y <? x
  | _, _ => false
  end.

(** [downloadBinary] *)
Definition downloadBinary (filename destPath : string) : JS unit :=
  let url := downloadUrl filename in
  console_log ("Downloading Binary File To " +:+ destPath +:+ "/" +:+ filename) ;;
  withProgress ("Downloading " +:+ filename +:+ "...")
    (appendLine ("Downloading binary from " +:+ url) ;;
     response ← axios_stream url;
     events ← pipe_to_file response destPath;
     match events with
     | ErrorThenClose err => throw err
     | CloseOnly =>
         appendLine "Download complete." ;;
         releaseInfo ← getLatestReleaseInfo filename;
         match releaseInfo with
         | Some info =>
             writeMetadata destPath info ;;
             appendLine "Metadata saved."
         | None => mret tt
         end
     | NoEvent => pending
     end).

Section Extension.

Variable rt : Runtime.

(** [new Date(v)]: the time value of the date, or the TypeError of
    the conversion of [v] to a primitive. *)
Definition new_Date (v : option JsValue) : JS (option Z) :=
  if Date_throws v
  then throw "TypeError: Cannot convert object to primitive value"
  else mret (Date_new rt v).

(** [shouldUpdate] *)
Definition shouldUpdate (binaryPath binaryName : string) : JS bool :=
  localMetadata ← readMetadata binaryPath;
  if negb (truthy localMetadata) then mret false
  else
    remoteInfo ← getLatestReleaseInfo binaryName;
    match remoteInfo with
    | None => mret false
    | Some remoteInfo =>
        localDate ← new_Date (get_prop localMetadata "updated_at");
        remoteDate ← new_Date (Some (JStr (updated_at remoteInfo)));
        mret (date_gt remoteDate localDate)
    end.

(** The storage directory is created when missing ([startClient] and
    the update command, same text). *)
Definition ensureStorage : JS string :=
  storagePath ← gets (λ w, globalStoragePath (host w));
  present ← existsSync storagePath;
  (if negb present
   then mkdirSync_recursive (path_ancestors rt storagePath) storagePath
   else mret tt) ;;
  mret storagePath.

(** [customPath && fs.existsSync(customPath)] *)
Definition custom_usable (w : World) : bool :=
  match customBinaryPath (host w) with
  | Some customPath => negb (String.eqb customPath "") && exists_path (disk w) customPath
  | None => false
  end.

(** The binary path: the custom binary if set, otherwise the default
    storage location ([startClient] and the update command, same text). *)
Definition resolveServerPath (storagePath serverBinaryName : string) : JS string :=
  customPath ← gets (λ w, customBinaryPath (host w));
  usable ← gets custom_usable;
  match customPath with
  | Some customPath =>
      if usable : bool
      then appendLine ("Using custom LSP binary at " +:+ customPath) ;; mret customPath
      else mret (path_join rt storagePath serverBinaryName)
  | None => mret (path_join rt storagePath serverBinaryName)
  end.

Definition chmod_unless_windows (serverPath : string) : JS unit :=
  platform ← gets (λ w, os_platform (host w));
  if negb (String.eqb platform "win32") then chmodSync serverPath "755" else mret tt.

(** The install and update block of [startClient]: the first download
    when the binary is missing, the update check when it is there.
    [Some serverPath] when [startClient] goes on to launch the server,
    [None] when it has returned. *)
Definition install_or_update (serverBinaryName serverPath : string) : JS (option string) :=
  present ← existsSync serverPath;
  if negb present then
    userChoice ← askInformationMessage
      ("ForgeLSP binary not found. Download " +:+ serverBinaryName +:+ "?")
      ["Download"; "Cancel"];
    if bool_decide (userChoice = Some "Download") then
      try_catch
        (downloadBinary serverBinaryName serverPath ;;
         showInformationMessage "ForgeLSP binary downloaded successfully." ;;
         mret (Some serverPath))
        (λ error,
           let msg := "ForgeLSP: Failed to download binary. " +:+ error in
           showErrorMessage msg ;;
           appendLine msg ;;
           mret None)
    else mret None
  else
    updateAvailable ← shouldUpdate serverPath serverBinaryName;
    (if updateAvailable : bool then
       userChoice ← askInformationMessage
         "A new version of ForgeLSP is available. Update now?"
         ["Update"; "Skip"];
       if bool_decide (userChoice = Some "Update") then
         try_catch
           (appendLine "Updating ForgeLSP binary..." ;;
            downloadBinary serverBinaryName serverPath ;;
            showInformationMessage "ForgeLSP binary updated successfully.")
           (λ error,
              let msg := "ForgeLSP: Failed to update binary. " +:+ error in
              showErrorMessage msg ;;
              appendLine msg)
       else mret tt
     else mret tt) ;;
    mret (Some serverPath).

(** [startClient] from its first line to the end of the install and
    update block. *)
Definition startClient_provision : JS (option string) :=
  current ← gets (λ w, client (sup w));
  if client_running current then mret None
  else
    name ← gets (λ w, getServerBinaryName (host w));
    match name with
    | None =>
        let msg := "ForgeLSP: Unsupported platform or architecture." in
        showErrorMessage msg ;;
        appendLine msg ;;
        mret None
    | Some serverBinaryName =>
        storagePath ← ensureStorage;
        serverPath ← resolveServerPath storagePath serverBinaryName;
        install_or_update serverBinaryName serverPath
    end.

(** [startClient] from the [chmodSync] to the call of [client.start()],
    where it is suspended with the new client [Starting]; the client
    is created with [clientOptions], their [errorHandler] included. *)
Definition launch_begin (serverPath : string) : JS unit :=
  chmod_unless_windows serverPath ;;
  createFileSystemWatcher "**/.clientrc" ;;
  new_LanguageClient serverPath ;;
  appendLine "Starting Forge Language Server..." ;;
  client_start_begin.

(** The rest of [startClient], once [client.start()] settles. *)
Definition launch_end : JS unit :=
  client_start_settle ;;
  appendLine "Forge Language Server started." ;;
  createFileSystemWatcher "**/forgeconfig.json".

(** [startClient] *)
Definition startClient : JS unit :=
  serverPath ← startClient_provision;
  match serverPath with
  | Some serverPath => launch_begin serverPath ;; launch_end
  | None => mret tt
  end.

(** A call of [startClient] that is left suspended at
    [await client.start()]. *)
Definition startClient_suspended : JS unit :=
  serverPath ← startClient_provision;
  match serverPath with
  | Some serverPath => launch_begin serverPath
  | None => mret tt
  end.

(** The [catch] block of the update command. *)
Definition updateLSP_catch (error : string) : JS unit :=
  let msg := "ForgeLSP: Failed to update binary. " +:+ error in
  showErrorMessage msg ;;
  appendLine msg ;;
  current ← gets (λ w, client (sup w));
  if negb (client_running current) then
    try_catch startClient
      (λ restartError, appendLine ("Failed to restart LSP: " +:+ restartError))
  else mret tt.

(** The handler of the command [forgevsc.updateLSP] *)
Definition updateLSP : JS unit :=
  name ← gets (λ w, getServerBinaryName (host w));
  match name with
  | None => showErrorMessage "ForgeLSP: Unsupported platform or architecture."
  | Some serverBinaryName =>
      storagePath ← ensureStorage;
      serverPath ← resolveServerPath storagePath serverBinaryName;
      try_catch
        (current ← gets (λ w, client (sup w));
         (if client_running current then
            appendLine "Stopping LSP for update..." ;;
            client_stop ;;
            appendLine "LSP stopped."
          else mret tt) ;;
         usable ← gets custom_usable;
         (if usable : bool then
            showInformationMessage "ForgeLSP: Using custom binary; update skipped."
          else
            appendLine "Manual LSP update triggered..." ;;
            downloadBinary serverBinaryName serverPath ;;
            chmod_unless_windows serverPath) ;;
         showInformationMessage "ForgeLSP binary updated successfully. Restarting LSP..." ;;
         startClient)
        updateLSP_catch
  end.

End Extension.

(** ** A concrete runtime: Node on a POSIX host

    Enough of [Date], [path.join] and directory ancestry to run the
    functions on concrete worlds. *)

Definition digit_value (c : ascii) : option Z :=
  if is_digit c then Some (Z.of_N (N_of_ascii c - 48)) else None.

Definition number2 (a b : ascii) : option Z :=
  x ← digit_value a; y ← digit_value b; Some (x * 10 + y).

(** Days from 1970-01-01 to a date of the proleptic Gregorian calendar. *)
Definition days_from_civil (y m d : Z) : Z :=
  let y' := if m <=? 2 then y - 1 else y in
  let era := y' / 400 in
  let yoe := y' - era * 400 in
  let doy := (153 * (if 2 <? m then m - 3 else m + 9) + 2) / 5 + d - 1 in
  let doe := yoe * 365 + yoe / 4 - yoe / 100 + doy in
  era * 146097 + doe - 719468.

(** The time value of a timestamp [YYYY-MM-DDTHH:MM:SSZ], the form the
    release index prints, in milliseconds. *)
Definition iso8601_time (s : string) : option Z :=
  match s with
  | String y1 (String y2 (String y3 (String y4 (String "-"
      (String m1 (String m2 (String "-" (String d1 (String d2 (String "T"
        (String h1 (String h2 (String ":" (String i1 (String i2 (String ":"
          (String s1 (String s2 (String "Z" EmptyString))))))))))))))))))) =>
      yh ← number2 y1 y2; yl ← number2 y3 y4;
      mo ← number2 m1 m2; dd ← number2 d1 d2;
      hh ← number2 h1 h2; mi ← number2 i1 i2; ss ← number2 s1 s2;
      if (1 <=? mo) && (mo <=? 12) && (1 <=? dd) && (dd <=? 31)
         && (hh <? 24) && (mi <? 60) && (ss <? 60)
      then Some ((((days_from_civil (yh * 100 + yl) mo dd * 24 + hh) * 60 + mi) * 60 + ss) * 1000)
      else None
  | _ => None
  end.

Definition Date_iso8601 (v : option JsValue) : option Z :=
  match v with
  | Some (JStr s) => iso8601_time s
  | _ => None
  end.

Definition posix_join (a b : string) : string := a +:+ "/" +:+ b.

(** The directories above a path, the root included. *)
Fixpoint posix_ancestors_from (seen rest : string) : list string :=
  match rest with
  | EmptyString => []
  | String c r =>
      (if Ascii.eqb c "/"
       then [if String.eqb seen "" then "/" else seen]
       else []) ++ posix_ancestors_from (seen +:+ String c "") r
  end.

Definition posix_ancestors (p : string) : list string := posix_ancestors_from "" p.

Definition node_posix : Runtime :=
  {| Date_new := Date_iso8601;
     path_join := posix_join;
     path_ancestors := posix_ancestors |}.

(** ** Vocabulary of the specification *)

(** The support matrix, in the names Node gives to the operating systems
    and architectures: linux and macOS ([darwin]) on x86_64 ([x64]) and
    arm64, windows ([win32]) on x86_64 only. *)
Definition support_matrix : list (string * string * string) :=
  [ ("linux", "x64", "forgevsc-linux-x86_64");
    ("linux", "arm64", "forgevsc-linux-aarch64");
    ("darwin", "x64", "forgevsc-macos-x86_64");
    ("darwin", "arm64", "forgevsc-macos-aarch64");
    ("win32", "x64", "forgevsc-windows-x86_64.exe") ].

Definition in_matrix (platform arch : string) : bool :=
  existsb (λ row, String.eqb platform row.1.1 && String.eqb arch row.1.2) support_matrix.

Definition matrix_identifier (platform arch : string) : option string :=
  snd <$> List.find (λ row, String.eqb platform row.1.1 && String.eqb arch row.1.2)
            support_matrix.

(** The states of the supervisor slot, read off the [client] variable. *)
Inductive SlotState : Type :=
| SlotNotRunning | SlotStarting | SlotRunning | SlotStopping.

Definition slot (s : Supervisor) : SlotState :=
  match client s with
  | None => SlotNotRunning
  | Some c =>
      match state c with
      | Starting => SlotStarting
      | Running => SlotRunning
      | Stopping => SlotStopping
      | Initial | StartFailed | Stopped => SlotNotRunning
      end
  end.

(** The metadata a sidecar holds: what [readMetadata] returns. *)
Definition stored_metadata (d : Disk) (binaryPath : string) : JsValue :=
  match files d !! getMetadataPath binaryPath with
  | Some content => default JNull (JSON.parse content)
  | None => JNull
  end.

(** What the release index says about a binary, given its reply. *)
Definition latest_release (reply : option AxiosReply) (binaryName : string)
    : option BinaryMetadata :=
  match reply with
  | Some (Reply status (Some release)) =>
      if (200 <=? status) && (status <? 300) then
        asset ← List.find (λ a, String.eqb (asset_name a) binaryName) (assets release);
        Some {| updated_at := asset_updated_at asset; tag_name := release_tag_name release |}
      else None
  | _ => None
  end.

(** Steps that leave the disk, the host, the supervisor, the pending
    answers and the downloads alone: they log, notify and query the
    release index at most. *)
Definition quiet (w w' : World) : Prop :=
  disk w' = disk w ∧ host w' = host w ∧ sup w' = sup w ∧
  answers (editor w') = answers (editor w) ∧
  transfers (net w') = transfers (net w) ∧
  download_requests (net w') = download_requests (net w).

(** Quiet steps that do not use the network either. *)
Definition silent (w w' : World) : Prop :=
  disk w' = disk w ∧ host w' = host w ∧ sup w' = sup w ∧ net w' = net w ∧
  answers (editor w') = answers (editor w).

(** The piece that the escape of a character parses back to. *)
Definition piece_of (c : ascii) : piece :=
  let n := N_of_ascii c in
  if ((n <? 32) && negb ((n =? 8) || (n =? 9) || (n =? 10) || (n =? 12) || (n =? 13)))%N
  then Unit16 n
  else Raw c.

(** A quoted string followed by more text. *)
Definition quoted_then (s rest : string) : string :=
  String DQUOTE (escape s +:+ String DQUOTE rest).

(** ** The commands and the activation of the extension *)

Definition with_host (h : Host) (w : World) : World :=
  {| disk := disk w; host := h; net := net w; editor := editor w; sup := sup w |}.

(** [context.globalState.update('customBinaryPath', value)] *)
Definition globalState_update_customBinaryPath (value : option string) : JS unit :=
  modify (λ w, with_host
    {| os_platform := os_platform (host w);
       os_arch := os_arch (host w);
       globalStoragePath := globalStoragePath (host w);
       customBinaryPath := value |} w).

(** [vscode.window.createOutputChannel('ForgeLSP')]: a new, empty channel. *)
Definition createOutputChannel : JS unit :=
  modify (λ w, with_editor
    {| outputChannel := [];
       messages := messages (editor w);
       answers := answers (editor w);
       console := console (editor w) |} w).

(** The value of [defaultConfig] and the text
    [JSON.stringify(defaultConfig, null, 2)]. *)
Definition defaultConfig : JsValue :=
  JObj [("multiple_function_colors", JBool true);
        ("urls", JArr [JStr "github:tryforge/forgescript#dev";
                       JStr "github:tryforge/forgedb"])].

Definition defaultConfig_text : string :=
  String "{" (String LF ("  " +:+ quote "multiple_function_colors" +:+ ": true,"
    +:+ String LF ("  " +:+ quote "urls" +:+ ": ["
    +:+ String LF ("    " +:+ quote "github:tryforge/forgescript#dev" +:+ ","
    +:+ String LF ("    " +:+ quote "github:tryforge/forgedb"
    +:+ String LF ("  ]" +:+ String LF "}")))))).

(** [workspaceFolders[0].uri.fsPath]: reading [uri] of [undefined]
    throws when the array is empty. *)
Definition first_folder (workspaceFolders : list string) : JS string :=
  match workspaceFolders with
  | rootPath :: _ => mret rootPath
  | [] => throw "TypeError: Cannot read properties of undefined (reading 'uri')"
  end.

Section Commands.

Variable rt : Runtime.

(** The handler of [forgevsc.createConfig]; [workspaceFolders] is
    [vscode.workspace.workspaceFolders], [None] when no workspace is
    open. *)
Definition createConfig (workspaceFolders : option (list string)) : JS unit :=
  match workspaceFolders with
  | None => showErrorMessage "ForgeLSP: No workspace open."
  | Some workspaceFolders =>
      rootPath ← first_folder workspaceFolders;
      let configPath := path_join rt rootPath "forgeconfig.json" in
      present ← existsSync configPath;
      if present : bool then
        showInformationMessage "ForgeLSP: forgeconfig.json already exists."
      else
        writeFileSync configPath defaultConfig_text ;;
        showInformationMessage
          "ForgeLSP: forgeconfig.json created. Please reload window to activate the extension fully if it hasn't already." ;;
        current ← gets (λ w, client (sup w));
        match current with
        | None => startClient rt
        | Some _ => mret tt
        end
  end.

(** The restart that follows a change of the binary path. *)
Definition restart_if_running : JS unit :=
  current ← gets (λ w, client (sup w));
  if client_running current then client_stop ;; startClient rt else mret tt.

(** The handler of [forgevsc.useCustomBinary]; [fileUri] is what the
    open dialog returns, [None] when it is cancelled. *)
Definition useCustomBinary (fileUri : option (list string)) : JS unit :=
  match fileUri with
  | None | Some [] => showInformationMessage "ForgeLSP: No binary selected."
  | Some (selectedPath :: _) =>
      globalState_update_customBinaryPath (Some selectedPath) ;;
      showInformationMessage ("ForgeLSP: Custom binary set to " +:+ selectedPath) ;;
      restart_if_running
  end.

(** The handler of [forgevsc.resetLspPath] *)
Definition resetLspPath : JS unit :=
  globalState_update_customBinaryPath None ;;
  showInformationMessage "ForgeLSP: Reset to default binary path." ;;
  restart_if_running.

(** [activate], the registration of the four commands apart: it changes
    nothing until a command is invoked. *)
Definition activate (workspaceFolders : option (list string)) : JS unit :=
  createOutputChannel ;;
  appendLine "ForgeLSP extension activating..." ;;
  match workspaceFolders with
  | None => appendLine "No workspace open, skipping auto-start."
  | Some workspaceFolders =>
      rootPath ← first_folder workspaceFolders;
      let configPath := path_join rt rootPath "forgeconfig.json" in
      present ← existsSync configPath;
      if present : bool then startClient rt
      else appendLine "forgeconfig.json not found. Waiting for command or file creation."
  end.

End Commands.

(** ** Vocabulary of the proofs *)

(** Whether [shouldUpdate] answers true, from the sidecar value and the
    reply of the release index. *)
Definition update_available (rt : Runtime) (localMetadata : JsValue)
    (remoteInfo : option BinaryMetadata) : bool :=
  truthy localMetadata &&
  match remoteInfo with
  | Some remoteInfo =>
      negb (Date_throws (get_prop localMetadata "updated_at")) &&
      date_gt (Date_new rt (Some (JStr (updated_at remoteInfo))))
              (Date_new rt (get_prop localMetadata "updated_at"))
  | None => false
  end.

(** Whether [shouldUpdate] throws: the sidecar value is truthy, the
    release index answers and the date of the sidecar cannot be built. *)
Definition update_check_throws (localMetadata : JsValue)
    (remoteInfo : option BinaryMetadata) : bool :=
  truthy localMetadata && bool_decide (is_Some remoteInfo)
  && Date_throws (get_prop localMetadata "updated_at").

(** The world once the storage directory is ensured. *)
Definition storage_ensured (rt : Runtime) (w : World) : World :=
  let storagePath := globalStoragePath (host w) in
  if exists_path (disk w) storagePath then w
  else with_disk
         {| files := files (disk w);
            dirs := dirs (disk w) ∪ {[storagePath]}
                    ∪ list_to_set (path_ancestors rt storagePath);
            modes := modes (disk w);
            unwritable := unwritable (disk w) |} w.

(** The path [startClient] and the update command settle on. *)
Definition resolved_path (rt : Runtime) (storagePath serverBinaryName : string)
    (w : World) : string :=
  match customBinaryPath (host w) with
  | Some customPath =>
      if negb (String.eqb customPath "") && exists_path (disk w) customPath
      then customPath
      else path_join rt storagePath serverBinaryName
  | None => path_join rt storagePath serverBinaryName
  end.

(** The world when [downloadBinary] has announced the download and is
    about to send the request. *)
Definition download_announced (filename destPath : string) (w : World) : World :=
  (appendLine ("Downloading binary from " +:+ downloadUrl filename)
     (post (Progress ("Downloading " +:+ filename +:+ "..."))
        (console_log ("Downloading Binary File To " +:+ destPath +:+ "/" +:+ filename) w).2)).2.

(** The world when the request for the artifact has been sent. *)
Definition download_requested (filename destPath : string) (w : World) : World :=
  (axios_stream (downloadUrl filename) (download_announced filename destPath w)).2.

(** What a step keeps while the override [p] is in use and no update is
    accepted: the files and their contents, the downloads, the host;
    directories, notifications and processes are only added, every new
    process runs [p], and the pending answers are only consumed. *)
Definition kept (p : string) (w w' : World) : Prop :=
  files (disk w') = files (disk w)
  ∧ dirs (disk w) ⊆ dirs (disk w')
  ∧ host w' = host w
  ∧ transfers (net w') = transfers (net w)
  ∧ download_requests (net w') = download_requests (net w)
  ∧ (∃ k, answers (editor w') = drop k (answers (editor w)))
  ∧ (∃ l, messages (editor w') = messages (editor w) ++ l)
  ∧ (∃ l, spawned (sup w') = spawned (sup w) ++ l ∧ Forall (λ x, x.2 = p) l).

Definition unsupported_message : string :=
  "ForgeLSP: Unsupported platform or architecture.".


(** A relation between the world before and the world after that holds
    of every run of a computation, whatever its outcome. *)
Definition always {A} (R : World → World → Prop) (m : JS A) : Prop :=
  ∀ w, R w (m w).2.

(** What every step of an install keeps, [serverPath] being the binary:
    the host, the supervisor, the directories, the modes; every file
    other than the binary and its sidecar; and the existence of every
    file. *)
Definition provision_frame (serverPath : string) (w w' : World) : Prop :=
  host w' = host w ∧ sup w' = sup w
  ∧ dirs (disk w') = dirs (disk w)
  ∧ modes (disk w') = modes (disk w)
  ∧ unwritable (disk w') = unwritable (disk w)
  ∧ (∀ p, p ≠ serverPath → p ≠ getMetadataPath serverPath →
          files (disk w') !! p = files (disk w) !! p)
  ∧ (∀ p, is_Some (files (disk w) !! p) → is_Some (files (disk w') !! p)).

(** What the launch keeps: the files, the directories, the host, the
    network, the notifications and the pending answers. *)
Definition launch_frame (w w' : World) : Prop :=
  files (disk w') = files (disk w) ∧ dirs (disk w') = dirs (disk w)
  ∧ unwritable (disk w') = unwritable (disk w)
  ∧ host w' = host w ∧ net w' = net w
  ∧ messages (editor w') = messages (editor w)
  ∧ answers (editor w') = answers (editor w).

(** Whether the next launch succeeds. *)
Definition launch_succeeds (w : World) : bool :=
  match head (launches (sup w)) with
  | Some Ready | None => true
  | Some (Failed _) | Some Unanswered => false
  end.


Definition on_windows (w : World) : bool := String.eqb (os_platform (host w)) "win32".

(** Whether the mode of [serverPath] can be set where [startClient]
    sets it: on Windows it does not try. *)
Definition mode_settable (w : World) (serverPath : string) : bool :=
  on_windows w || negb (bool_decide (serverPath ∈ unwritable (disk w))).

(** What becomes of an install, read off the world before it. *)
Inductive Fate : Type :=
| Installs (body : string)
| Rejects
| Hangs.

Definition download_fate (w : World) (destPath : string) : Fate :=
  match head (transfers (net w)) with
  | Some (Response body) =>
      if can_open_for_writing (disk w) destPath then
        match body with
        | Complete body => Installs body
        | WriterFailed _ _ => Rejects
        | SourceAborted _ => Hangs
        end
      else Rejects
  | Some (RequestFailed _) | None => Rejects
  end.

(** The path a start request settles on, from the world in which it
    arrives. *)
Definition start_path (rt : Runtime) (serverBinaryName : string) (w : World) : string :=
  resolved_path rt (globalStoragePath (host w)) serverBinaryName (storage_ensured rt w).

(** The files after a complete install of [body] at [destPath] with
    [info] the release information fetched after the download. *)
Definition installed_files (d : Disk) (destPath body : string)
    (info : option BinaryMetadata) : gmap string string :=
  match info with
  | Some info =>
      if can_open_for_writing d (getMetadataPath destPath)
      then <[getMetadataPath destPath := JSON_stringify info]> (<[destPath := body]> (files d))
      else <[destPath := body]> (files d)
  | None => <[destPath := body]> (files d)
  end.

(** Steps that leave the record of the downloads alone. *)
Definition same_downloads (w w' : World) : Prop :=
  download_requests (net w') = download_requests (net w)
  ∧ transfers (net w') = transfers (net w).

(** Steps that leave the pending answers alone. *)
Definition same_answers (w w' : World) : Prop :=
  answers (editor w') = answers (editor w).

(** What becomes of [client.start()], read off the launch to come: how
    the promise settles, the state the client is left in, and how many
    times the server has been spawned again by then. *)
Definition settled_outcome (l : option Launch) : Outcome unit :=
  match l with
  | Some Ready | None => Returned tt
  | Some (Failed _) => Thrown "Error: Launching server failed"
  | Some Unanswered => Pending
  end.

Definition settled_state (l : option Launch) : ClientState :=
  match l with
  | Some Ready | None => Running
  | Some (Failed _) => StartFailed
  | Some Unanswered => Starting
  end.

Fixpoint closes (events : list ConnectionEvent) : nat :=
  match events with
  | [] => 0
  | ConnectionClosed :: events => S (closes events)
  | ConnectionError _ _ :: events => closes events
  end.

Definition respawns (l : option Launch) : nat :=
  match l with
  | Some (Failed events) => closes events
  | _ => 0
  end.

(** ** Scenarios: concrete worlds on a Linux x86_64 host *)

Definition storage_dir : string := "/home/dev/globalStorage/forgevsc".
Definition default_binary : string := "/home/dev/globalStorage/forgevsc/forgevsc-linux-x86_64".
Definition custom_binary : string := "/opt/forge/forgelsp".

Definition linux_host (custom : option string) : Host :=
  {| os_platform := "linux"; os_arch := "x64";
     globalStoragePath := storage_dir; customBinaryPath := custom |}.

Definition offline : Net :=
  {| api_replies := []; api_requests := []; transfers := []; download_requests := [] |}.

Definition blank_editor (replies : list (option string)) : Editor :=
  {| outputChannel := []; messages := []; answers := replies; console := [] |}.

Definition idle : Supervisor :=
  {| client := None; next_id := 0; spawned := []; launches := []; watchers := [] |}.

Definition release_of (tag stamp : string) : GitHubRelease :=
  {| release_tag_name := tag;
     assets := [ {| asset_name := "forgevsc-linux-x86_64";
                    asset_updated_at := stamp;
                    browser_download_url := downloadUrl "forgevsc-linux-x86_64" |} ] |}.

Definition old_metadata : BinaryMetadata :=
  {| updated_at := "2024-01-01T00:00:00Z"; tag_name := "v1" |}.

(** Nothing on disk, no override, the user will answer Cancel. *)
Definition fresh_world : World :=
  {| disk := {| files := ∅; dirs := ∅; modes := ∅; unwritable := ∅ |};
     host := linux_host None;
     net := offline;
     editor := blank_editor [Some "Cancel"];
     sup := idle |}.

(** A binary installed at the default location with its sidecar. *)
Definition installed_disk : Disk :=
  {| files := {[ default_binary := "OLD BINARY";
                 getMetadataPath default_binary := JSON_stringify old_metadata ]};
     dirs := {[ storage_dir ]};
     modes := ∅;
     unwritable := ∅ |}.

Definition installed_world (n : Net) (replies : list (option string)) : World :=
  {| disk := installed_disk;
     host := linux_host None;
     net := n;
     editor := blank_editor replies;
     sup := idle |}.

Definition online (replies : list AxiosReply) (downloads : list Transfer) : Net :=
  {| api_replies := replies; api_requests := []; transfers := downloads;
     download_requests := [] |}.

(** A Windows host on arm64, outside the matrix. *)
Definition windows_arm_world : World :=
  {| disk := {| files := ∅; dirs := ∅; modes := ∅; unwritable := ∅ |};
     host := {| os_platform := "win32"; os_arch := "arm64";
                globalStoragePath := "C:\Users\dev\globalStorage\forgevsc";
                customBinaryPath := None |};
     net := offline;
     editor := blank_editor [];
     sup := idle |}.

(** A binary without a sidecar while the index has a release. *)
Definition untracked_world : World :=
  {| disk := {| files := {[ default_binary := "OLD BINARY" ]};
                dirs := {[ storage_dir ]}; modes := ∅; unwritable := ∅ |};
     host := linux_host None;
     net := online [Reply 200 (Some (release_of "master" "2024-01-01T00:00:00Z"))] [];
     editor := blank_editor [];
     sup := idle |}.

(** An override that exists next to an installed default binary. *)
Definition override_world : World :=
  {| disk := {| files := {[ default_binary := "DEFAULT BINARY";
                            custom_binary := "CUSTOM BINARY" ]};
                dirs := {[ storage_dir ]}; modes := ∅; unwritable := ∅ |};
     host := linux_host (Some custom_binary);
     net := offline;
     editor := blank_editor [];
     sup := idle |}.

(** An override that names a directory, next to an installed default
    binary. *)
Definition directory_override_world : World :=
  {| disk := {| files := {[ default_binary := "DEFAULT BINARY" ]};
                dirs := {[ storage_dir; "/opt/forge" ]}; modes := ∅; unwritable := ∅ |};
     host := linux_host (Some "/opt/forge");
     net := offline;
     editor := blank_editor [];
     sup := idle |}.

Definition disk_full : string := "Error: ENOSPC: no space left on device, write".

(** The installed binary while the download of an update breaks off:
    the writer fails after five bytes. *)
Definition interrupted_update_world : World :=
  installed_world (online [] [Response (WriterFailed "NEW B" disk_full)]) [].

(** The installed binary with a sidecar that cannot be written, a
    complete download and a release index that answers. *)
Definition readonly_sidecar_world : World :=
  {| disk := {| files := files installed_disk;
                dirs := dirs installed_disk;
                modes := ∅;
                unwritable := {[ getMetadataPath default_binary ]} |};
     host := linux_host None;
     net := online [Reply 200 (Some (release_of "v2" "2024-01-02T00:00:00Z"))]
                   [Response (Complete "NEW BINARY")];
     editor := blank_editor [];
     sup := idle |}.

(** The same with a sidecar that can be written. *)
Definition update_ready_world : World :=
  installed_world
    (online [Reply 200 (Some (release_of "v2" "2024-01-02T00:00:00Z"))]
            [Response (Complete "NEW BINARY")]) [].



(** An installed binary, up to date, with no client yet. *)
Definition up_to_date_world : World :=
  installed_world (online [Reply 200 (Some (release_of "v1" "2024-01-01T00:00:00Z"));
                           Reply 200 (Some (release_of "v1" "2024-01-01T00:00:00Z"))] []) [].

(** The world in which a first start request is suspended at
    [await client.start()]. *)
Definition first_start_suspended : World :=
  (startClient_suspended node_posix up_to_date_world).2.

(** The installed binary while the release server refuses the download. *)
Definition refused_download_world : World :=
  installed_world (online [] [RequestFailed "AxiosError: Request failed with status code 404"]) [].

(** No binary yet; the user agrees to the download, which completes,
    and the release index answers. *)
Definition first_install_world : World :=
  {| disk := {| files := ∅; dirs := ∅; modes := ∅; unwritable := ∅ |};
     host := linux_host None;
     net := online [Reply 200 (Some (release_of "v1" "2024-01-01T00:00:00Z"))]
                   [Response (Complete "FIRST BINARY")];
     editor := blank_editor [Some "Download"];
     sup := idle |}.

(** The same while the release server refuses the download. *)
Definition first_install_refused_world : World :=
  with_net (online [] [RequestFailed "AxiosError: Request failed with status code 404"])
    first_install_world.

(** An installed binary older than the release; the user accepts the
    update. *)
Definition update_accepted_world : World :=
  installed_world
    (online [Reply 200 (Some (release_of "v2" "2024-01-02T00:00:00Z"));
             Reply 200 (Some (release_of "v2" "2024-01-02T00:00:00Z"))]
            [Response (Complete "NEW BINARY")])
    [Some "Update"].

(** The same while the release server refuses the download. *)
Definition update_refused_world : World :=
  installed_world
    (online [Reply 200 (Some (release_of "v2" "2024-01-02T00:00:00Z"))]
            [RequestFailed "AxiosError: Request failed with status code 404"])
    [Some "Update"].

(** Both binaries on disk and a client that runs one of them; the
    override, if any, is the one that runs. *)
Definition running_world (custom : option string) : World :=
  {| disk := disk override_world;
     host := linux_host custom;
     net := offline;
     editor := blank_editor [];
     sup := {| client := Some {| client_id := 0;
                                 command := default default_binary custom;
                                 state := Running |};
               next_id := 1;
               spawned := [(0%nat, default default_binary custom)];
               launches := []; watchers := [] |} |}.

(** A workspace folder, and the installed binary next to a workspace
    that has its configuration file. *)
Definition workspace_root : string := "/home/dev/project".
Definition workspace_config : string := "/home/dev/project/forgeconfig.json".

Definition configured_world : World :=
  with_disk
    {| files := <[workspace_config := defaultConfig_text]> (files installed_disk);
       dirs := dirs installed_disk; modes := ∅; unwritable := ∅ |}
    (installed_world offline []).

(** A sidecar that is JSON and of whose [updated_at], an object with a
    property [toString], no date can be built. *)
Definition unconvertible_sidecar : string :=
  "{" +:+ quote "updated_at" +:+ ":{" +:+ quote "toString" +:+ ":null},"
      +:+ quote "tag_name" +:+ ":" +:+ quote "v1" +:+ "}".

Definition unconvertible_sidecar_world (n : Net) : World :=
  with_disk
    {| files := <[getMetadataPath default_binary := unconvertible_sidecar]>
                  (files installed_disk);
       dirs := dirs installed_disk; modes := ∅; unwritable := ∅ |}
    (installed_world n []).

(** The installed binary as a file that the user may not modify. *)
Definition foreign_binary_world : World :=
  with_disk
    {| files := files installed_disk; dirs := dirs installed_disk; modes := ∅;
       unwritable := {[ default_binary ]} |}
    (installed_world offline []).

(** The installed binary with a server that behaves as [launch]. *)
Definition launch_world (launch : Launch) : World :=
  with_sup
    {| client := None; next_id := 0; spawned := []; launches := [launch];
       watchers := [] |}
    (installed_world offline []).

(** ** The JSON text of the sidecar reads back *)

Lemma append_assoc (a b c : string) : (a +:+ b) +:+ c = a +:+ (b +:+ c).
Proof.
  induction a as [|x a IH]; [done|].
  change (String x ((a +:+ b) +:+ c) = String x (a +:+ b +:+ c)). by f_equal.
Qed.

Lemma parse_chars_escape_char c s :
  parse_chars (escape_char c +:+ s) =
  '(ps, rest) ← parse_chars s; Some (piece_of c :: ps, rest).
Proof. destruct c as [[] [] [] [] [] [] [] []]; reflexivity. Qed.

Lemma render_piece_of c qs : render (piece_of c :: qs) = String c (render qs).
Proof. destruct c as [[] [] [] [] [] [] [] []]; reflexivity. Qed.

Lemma parse_chars_escape s rest :
  ∃ ps, parse_chars (escape s +:+ String DQUOTE rest) = Some (ps, rest) ∧ render ps = s.
Proof.
  induction s as [|c s (ps & E & R)].
  - exists []. split; reflexivity.
  - exists (piece_of c :: ps). simpl escape.
    rewrite append_assoc, parse_chars_escape_char, E. split; [reflexivity|].
    rewrite render_piece_of. by rewrite R.
Qed.

Lemma parse_string_quoted s rest :
  parse_string (escape s +:+ String DQUOTE rest) = Some (s, rest).
Proof.
  unfold parse_string. destruct (parse_chars_escape s rest) as (ps & -> & R).
  simpl. by rewrite R.
Qed.

Lemma quote_append s rest : quote s +:+ rest = quoted_then s rest.
Proof.
  change (String DQUOTE ((escape s +:+ String DQUOTE "") +:+ rest) = quoted_then s rest).
  by rewrite append_assoc.
Qed.

Lemma JSON_stringify_text m :
  JSON_stringify m =
  String "{" $ String LF $ String " " $ String " " $ quoted_then "updated_at" $
  String ":" $ String " " $ quoted_then (updated_at m) $
  String "," $ String LF $ String " " $ String " " $ quoted_then "tag_name" $
  String ":" $ String " " $ quoted_then (tag_name m) $ String LF "}".
Proof. unfold JSON_stringify. rewrite !quote_append. reflexivity. Qed.

(** [JSON.parse(JSON.stringify(metadata, null, 2))] is the metadata. *)
Lemma parse_stringify m : JSON.parse (JSON_stringify m) = Some (metadata_value m).
Proof.
  assert (H : ∀ f, parse_value (S (S (S (S f)))) (JSON_stringify m)
                   = Some (metadata_value m, "")).
  { intros f. rewrite JSON_stringify_text. unfold quoted_then.
    cbn -[escape parse_string]. rewrite (parse_string_quoted "updated_at").
    cbn -[escape parse_string]. rewrite (parse_string_quoted (updated_at m)).
    cbn -[escape parse_string]. rewrite (parse_string_quoted "tag_name").
    cbn -[escape parse_string]. rewrite (parse_string_quoted (tag_name m)).
    reflexivity. }
  unfold parse.
  destruct (String.length (JSON_stringify m)) as [|[|[|n]]] eqn:E;
    [rewrite JSON_stringify_text in E; discriminate ..|].
  rewrite H. reflexivity.
Qed.

Lemma truthy_metadata_value m : truthy (metadata_value m) = true.
Proof. reflexivity. Qed.

Lemma get_prop_updated_at m :
  get_prop (metadata_value m) "updated_at" = Some (JStr (updated_at m)).
Proof. reflexivity. Qed.

Lemma get_prop_tag_name m :
  get_prop (metadata_value m) "tag_name" = Some (JStr (tag_name m)).
Proof. reflexivity. Qed.

(** ** Running the monad *)

Lemma bind_run {A B} (m : JS A) (k : A → JS B) w :
  (m ≫= k) w =
  match m w with
  | (Returned a, w') => k a w'
  | (Thrown e, w') => (Thrown e, w')
  | (Pending, w') => (Pending, w')
  end.
Proof. reflexivity. Qed.

Lemma bind_returned {A B} (m : JS A) (k : A → JS B) w a w' :
  m w = (Returned a, w') → (m ≫= k) w = k a w'.
Proof. intros E. by rewrite bind_run, E. Qed.

Lemma bind_thrown {A B} (m : JS A) (k : A → JS B) w e w' :
  m w = (Thrown e, w') → (m ≫= k) w = (Thrown e, w').
Proof. intros E. by rewrite bind_run, E. Qed.

Lemma bind_pending {A B} (m : JS A) (k : A → JS B) w w' :
  m w = (Pending, w') → (m ≫= k) w = (Pending, w').
Proof. intros E. by rewrite bind_run, E. Qed.

Lemma try_returned {A} (m : JS A) h w a w' :
  m w = (Returned a, w') → try_catch m h w = (Returned a, w').
Proof. intros E. unfold try_catch. by rewrite E. Qed.

Lemma try_thrown {A} (m : JS A) h w e w' :
  m w = (Thrown e, w') → try_catch m h w = h e w'.
Proof. intros E. unfold try_catch. by rewrite E. Qed.

Lemma try_pending {A} (m : JS A) h w w' :
  m w = (Pending, w') → try_catch m h w = (Pending, w').
Proof. intros E. unfold try_catch. by rewrite E. Qed.

Lemma try_catch_ext {A} (m m' : JS A) h w w' :
  m w = m' w' → try_catch m h w = try_catch m' h w'.
Proof. unfold try_catch. by intros ->. Qed.

Lemma exists_path_file d p content : files d !! p = Some content → exists_path d p = true.
Proof. intros H. unfold exists_path. by rewrite H. Qed.

(** One step of a computation applied to a world. *)
Ltac js_step :=
  rewrite bind_run;
  cbn [gets modify existsSync throw pending mret JS_ret js_ret negb].

Ltac js_run := repeat js_step.

(** ** Quiet and silent steps *)

Lemma silent_refl w : silent w w.
Proof. by repeat split. Qed.

Lemma silent_trans w1 w2 w3 : silent w1 w2 → silent w2 w3 → silent w1 w3.
Proof. unfold silent. intros (?&?&?&?&?) (?&?&?&?&?). repeat split; congruence. Qed.

Lemma quiet_refl w : quiet w w.
Proof. by repeat split. Qed.

Lemma quiet_trans w1 w2 w3 : quiet w1 w2 → quiet w2 w3 → quiet w1 w3.
Proof. unfold quiet. intros (?&?&?&?&?&?) (?&?&?&?&?&?). repeat split; congruence. Qed.

Lemma silent_quiet w w' : silent w w' → quiet w w'.
Proof. unfold silent, quiet. intros (?&?&?&E&?). rewrite E. by repeat split. Qed.

Lemma appendLine_run line w :
  ∃ w', appendLine line w = (Returned tt, w') ∧ silent w w'
        ∧ messages (editor w') = messages (editor w).
Proof. eexists. split; [reflexivity|]. by repeat split. Qed.

Lemma showErrorMessage_run text w :
  ∃ w', showErrorMessage text w = (Returned tt, w') ∧ silent w w'
        ∧ messages (editor w') = messages (editor w) ++ [ErrorMessage text].
Proof. eexists. split; [reflexivity|]. by repeat split. Qed.

Lemma showInformationMessage_run text w :
  ∃ w', showInformationMessage text w = (Returned tt, w') ∧ silent w w'
        ∧ messages (editor w') = messages (editor w) ++ [InformationMessage text].
Proof. eexists. split; [reflexivity|]. by repeat split. Qed.

(** ** [readMetadata] *)

Lemma readMetadata_run binaryPath w :
  ∃ w', readMetadata binaryPath w = (Returned (stored_metadata (disk w) binaryPath), w')
        ∧ silent w w' ∧ messages (editor w') = messages (editor w).
Proof.
  unfold readMetadata, stored_metadata.
  rewrite bind_run. cbn [existsSync gets]. unfold exists_path.
  destruct (files (disk w) !! getMetadataPath binaryPath) as [content|] eqn:F.
  - cbn [negb]. unfold try_catch. rewrite bind_run. unfold readFileSync. rewrite F.
    unfold JSON_parse. destruct (JSON.parse content) as [v|]; cbn.
    + eexists. split; [reflexivity|]. by repeat split.
    + eexists. split; [reflexivity|]. by repeat split.
  - destruct (bool_decide (getMetadataPath binaryPath ∈ dirs (disk w))) eqn:D; cbn [negb].
    + unfold try_catch. rewrite bind_run. unfold readFileSync. rewrite F.
      eexists. split; [reflexivity|]. by repeat split.
    + eexists. split; [reflexivity|]. by repeat split.
Qed.

(** ** [getLatestReleaseInfo] *)

Lemma getLatestReleaseInfo_run binaryName w :
  ∃ w', getLatestReleaseInfo binaryName w
          = (Returned (latest_release (head (api_replies (net w))) binaryName), w')
        ∧ quiet w w'
        ∧ api_replies (net w') = tail (api_replies (net w))
        ∧ api_requests (net w') = api_requests (net w) ++ [releaseUrl]
        ∧ messages (editor w') = messages (editor w).
Proof.
  unfold getLatestReleaseInfo, latest_release, try_catch.
  rewrite bind_run. unfold axios_get.
  destruct (head (api_replies (net w))) as [[e|status [release|]]|].
  - eexists. split; [reflexivity|]. by repeat split.
  - destruct ((200 <=? status) && (status <? 300)).
    + rewrite bind_run. cbn [mret JS_ret js_ret].
      destruct (List.find _ (assets release)) as [asset|]; cbn;
        (eexists; split; [reflexivity|]; by repeat split).
    + eexists. split; [reflexivity|]. by repeat split.
  - destruct ((200 <=? status) && (status <? 300));
      (eexists; split; [reflexivity|]; by repeat split).
  - eexists. split; [reflexivity|]. by repeat split.
Qed.

Lemma getLatestReleaseInfo_result binaryName w :
  (getLatestReleaseInfo binaryName w).1
  = Returned (latest_release (head (api_replies (net w))) binaryName).
Proof. destruct (getLatestReleaseInfo_run binaryName w) as (w' & -> & _). done. Qed.

Lemma find_no_match {A} (f : A → bool) (l : list A) :
  (∀ x, x ∈ l → f x = false) → List.find f l = None.
Proof.
  induction l as [|x l IH]; intros H; [done|]. simpl.
  rewrite (H x) by left. apply IH. intros y Hy. apply H. by right.
Qed.

Lemma find_first_match {A} (f : A → bool) (before after : list A) (x : A) :
  (∀ y, y ∈ before → f y = false) → f x = true →
  List.find f (before ++ x :: after) = Some x.
Proof.
  induction before as [|y before IH]; intros H Hx; simpl.
  - by rewrite Hx.
  - rewrite (H y) by left. apply IH; [|done]. intros z Hz. apply H. by right.
Qed.

Lemma eqb_name_false (a b : string) : a ≠ b → String.eqb a b = false.
Proof. intros H. by apply String.eqb_neq. Qed.

(** C8. For every binary identifier [getLatestReleaseInfo] returns and
    never throws or hangs; it returns [None] (absent) on a network
    failure, on a reply whose status is outside 2xx and when no asset of
    the release has exactly that name; when an asset has that name it
    returns the [updated_at] of the first such asset together with the
    [tag_name] of the release. *)
Theorem getLatestReleaseInfo_absent_or_match (binaryName : string) (w : World) :
  ∃ result w',
    getLatestReleaseInfo binaryName w = (Returned result, w')
    ∧ (head (api_replies (net w)) = None → result = None)
    ∧ (∀ e, head (api_replies (net w)) = Some (NetworkError e) → result = None)
    ∧ (∀ status data,
         head (api_replies (net w)) = Some (Reply status data) →
         ¬ (200 ≤ status < 300) → result = None)
    ∧ (∀ status release,
         head (api_replies (net w)) = Some (Reply status (Some release)) →
         (∀ a, a ∈ assets release → asset_name a ≠ binaryName) → result = None)
    ∧ (∀ status release before asset after,
         head (api_replies (net w)) = Some (Reply status (Some release)) →
         200 ≤ status < 300 →
         assets release = before ++ asset :: after →
         (∀ a, a ∈ before → asset_name a ≠ binaryName) →
         asset_name asset = binaryName →
         result = Some {| updated_at := asset_updated_at asset;
                          tag_name := release_tag_name release |}).
Proof.
  destruct (getLatestReleaseInfo_run binaryName w) as (w' & E & _).
  eexists _, w'. split; [exact E|]. unfold latest_release.
  repeat split.
  - by intros ->.
  - by intros e ->.
  - intros status data -> Hs.
    destruct ((200 <=? status) && (status <? 300)) eqn:B; [|by destruct data].
    apply andb_prop in B as [?%Z.leb_le ?%Z.ltb_lt]. lia.
  - intros status release -> Hno.
    destruct ((200 <=? status) && (status <? 300)); [|done].
    rewrite find_no_match; [done|].
    intros a Ha. by apply eqb_name_false, Hno.
  - intros status release before asset after -> [Hlo Hhi] -> Hno Hname.
    apply Z.leb_le in Hlo. apply Z.ltb_lt in Hhi. rewrite Hlo, Hhi. cbn [andb].
    rewrite find_first_match; [done| |by apply String.eqb_eq].
    intros a Ha. by apply eqb_name_false, Hno.
Qed.

Lemma getLatestReleaseInfo_absent_or_match_witness :
  (getLatestReleaseInfo "forgevsc-linux-x86_64"
     (installed_world (online [Reply 200 (Some (release_of "master" "2024-01-02T00:00:00Z"))] []) [])).1
  = Returned (Some {| updated_at := "2024-01-02T00:00:00Z"; tag_name := "master" |}).
Proof.
  destruct (getLatestReleaseInfo_absent_or_match "forgevsc-linux-x86_64"
              (installed_world (online [Reply 200 (Some (release_of "master" "2024-01-02T00:00:00Z"))] []) []))
    as (result & w' & E & _ & _ & _ & _ & H).
  rewrite E. cbn [fst]. f_equal.
  apply (H 200 (release_of "master" "2024-01-02T00:00:00Z") []
           {| asset_name := "forgevsc-linux-x86_64";
              asset_updated_at := "2024-01-02T00:00:00Z";
              browser_download_url := downloadUrl "forgevsc-linux-x86_64" |} []).
  - reflexivity.
  - lia.
  - reflexivity.
  - intros a Ha. inversion Ha.
  - reflexivity.
Defined.

(** ** [shouldUpdate] *)

Section ShouldUpdate.

Variable rt : Runtime.

Lemma shouldUpdate_run binaryPath binaryName w :
  ∃ w', shouldUpdate rt binaryPath binaryName w
          = (if update_check_throws (stored_metadata (disk w) binaryPath)
                  (latest_release (head (api_replies (net w))) binaryName)
             then Thrown "TypeError: Cannot convert object to primitive value"
             else Returned (update_available rt (stored_metadata (disk w) binaryPath)
                              (latest_release (head (api_replies (net w))) binaryName)), w')
        ∧ quiet w w'
        ∧ messages (editor w') = messages (editor w)
        ∧ (truthy (stored_metadata (disk w) binaryPath) = false → net w' = net w).
Proof.
  unfold shouldUpdate, update_available, update_check_throws.
  destruct (readMetadata_run binaryPath w) as (w1 & E1 & S1 & M1).
  rewrite (bind_returned _ _ _ _ _ E1).
  destruct (truthy (stored_metadata (disk w) binaryPath)) eqn:T; cbn [negb andb].
  - destruct (getLatestReleaseInfo_run binaryName w1) as (w2 & E2 & Q2 & _ & _ & M2).
    rewrite (bind_returned _ _ _ _ _ E2).
    pose proof S1 as (_ & _ & _ & N1 & _). rewrite N1.
    exists w2. split.
    + destruct (latest_release (head (api_replies (net w))) binaryName) as [info|];
        [|reflexivity].
      rewrite bool_decide_eq_true_2 by by eexists. cbn [andb].
      unfold new_Date.
      destruct (Date_throws (get_prop (stored_metadata (disk w) binaryPath) "updated_at"));
        reflexivity.
    + split; [|split; [congruence | done]].
      eapply quiet_trans; [apply silent_quiet|]; eauto.
  - exists w1. split; [done|]. split; [by apply silent_quiet|].
    split; [done|]. intros _. apply S1.
Qed.

(** C3. Whenever [readMetadata] yields [null] for the binary (its sidecar
    is missing or cannot be parsed), [shouldUpdate] returns false
    whatever the release index would answer, and it makes no request: the
    network is left as it was. *)
Theorem shouldUpdate_false_without_metadata (binaryPath binaryName : string) (w : World) :
  (readMetadata binaryPath w).1 = Returned JNull →
  ∃ w', shouldUpdate rt binaryPath binaryName w = (Returned false, w')
        ∧ net w' = net w ∧ disk w' = disk w ∧ sup w' = sup w.
Proof.
  intros H.
  destruct (readMetadata_run binaryPath w) as (w1 & E1 & _). rewrite E1 in H.
  injection H as H.
  destruct (shouldUpdate_run binaryPath binaryName w) as (w' & E & Q & _ & N).
  rewrite H in E, N. exists w'. split; [exact E|].
  split; [by apply N|]. split; apply Q.
Qed.

(** C2. With local metadata present and release information present,
    [shouldUpdate] returns true exactly when a date can be built of the
    local [updated_at], both timestamps are dates and the remote one is
    strictly later.  Whenever a date can be built of the local
    [updated_at], which is so of every string, [shouldUpdate] returns,
    and it returns false when the two dates are equal; it throws only
    when [new Date] throws on the local [updated_at]. *)
Theorem shouldUpdate_iff_remote_strictly_newer
    (binaryPath binaryName : string) (w : World)
    (localMetadata : JsValue) (remoteInfo : BinaryMetadata) :
  (readMetadata binaryPath w).1 = Returned localMetadata →
  truthy localMetadata = true →
  (getLatestReleaseInfo binaryName w).1 = Returned (Some remoteInfo) →
  let localDate := Date_new rt (get_prop localMetadata "updated_at") in
  let remoteDate := Date_new rt (Some (JStr (updated_at remoteInfo))) in
  ((shouldUpdate rt binaryPath binaryName w).1 = Returned true ↔
     Date_throws (get_prop localMetadata "updated_at") = false
     ∧ ∃ tl tr, localDate = Some tl ∧ remoteDate = Some tr ∧ tl < tr)
  ∧ (Date_throws (get_prop localMetadata "updated_at") = false →
     ∃ answer w',
       shouldUpdate rt binaryPath binaryName w = (Returned answer, w')
       ∧ (answer = true ↔
            ∃ tl tr, localDate = Some tl ∧ remoteDate = Some tr ∧ tl < tr)
       ∧ (remoteDate = localDate → answer = false))
  ∧ (Date_throws (get_prop localMetadata "updated_at") = true →
     ∃ e w', shouldUpdate rt binaryPath binaryName w = (Thrown e, w')).
Proof.
  intros Hl Ht Hr localDate remoteDate.
  destruct (readMetadata_run binaryPath w) as (w1 & E1 & _). rewrite E1 in Hl.
  injection Hl as Hl.
  rewrite getLatestReleaseInfo_result in Hr. injection Hr as Hr.
  destruct (shouldUpdate_run binaryPath binaryName w) as (w' & E & _).
  rewrite Hl, Hr in E. unfold update_available, update_check_throws in E.
  rewrite Ht in E. rewrite bool_decide_eq_true_2 in E by by eexists.
  cbn [andb] in E. fold localDate remoteDate in E.
  assert (Hgt : date_gt remoteDate localDate = true
                ↔ ∃ tl tr, localDate = Some tl ∧ remoteDate = Some tr ∧ tl < tr).
  { unfold date_gt.
    destruct remoteDate as [tr|], localDate as [tl|]; split;
      try (intros H; discriminate H);
      try (intros (x & y & Hx & Hy & _); discriminate).
    - intros H%Z.ltb_lt. by exists tl, tr.
    - intros (x & y & [= ->] & [= ->] & H). by apply Z.ltb_lt. }
  destruct (Date_throws (get_prop localMetadata "updated_at")); cbn [negb andb] in E.
  - split; [|split; [done|]].
    + rewrite E. cbn [fst]. split; [done | by intros [? _]].
    + intros _. by eexists _, w'.
  - split; [|split; [|done]].
    + rewrite E. cbn [fst]. split.
      * intros [= H]. split; [done|]. by apply Hgt.
      * intros [_ H]. f_equal. by apply Hgt.
    + intros _. eexists _, w'. split; [exact E|]. split; [exact Hgt|].
      intros ->. unfold date_gt. destruct localDate; [apply Z.ltb_irrefl | done].
Qed.

End ShouldUpdate.

Lemma readMetadata_result binaryPath w :
  (readMetadata binaryPath w).1 = Returned (stored_metadata (disk w) binaryPath).
Proof. destruct (readMetadata_run binaryPath w) as (w' & -> & _). done. Qed.

(** A missing sidecar and a sidecar that is not JSON both read as [null]. *)
Lemma readMetadata_missing binaryPath w :
  files (disk w) !! getMetadataPath binaryPath = None →
  (readMetadata binaryPath w).1 = Returned JNull.
Proof. intros H. rewrite readMetadata_result. unfold stored_metadata. by rewrite H. Qed.

Lemma readMetadata_malformed binaryPath content w :
  files (disk w) !! getMetadataPath binaryPath = Some content →
  JSON.parse content = None →
  (readMetadata binaryPath w).1 = Returned JNull.
Proof.
  intros H P. rewrite readMetadata_result. unfold stored_metadata. by rewrite H, P.
Qed.

Lemma shouldUpdate_false_without_metadata_witness :
  ∃ w', shouldUpdate node_posix default_binary "forgevsc-linux-x86_64" untracked_world
          = (Returned false, w')
        ∧ net w' = net untracked_world ∧ disk w' = disk untracked_world
        ∧ sup w' = sup untracked_world.
Proof.
  apply shouldUpdate_false_without_metadata.
  apply readMetadata_missing. vm_compute. reflexivity.
Defined.

Lemma shouldUpdate_iff_remote_strictly_newer_witness :
  let w := installed_world
             (online [Reply 200 (Some (release_of "v2" "2024-01-02T00:00:00Z"))] []) [] in
  let local := Some (JStr "2024-01-01T00:00:00Z") in
  ((shouldUpdate node_posix default_binary "forgevsc-linux-x86_64" w).1 = Returned true ↔
     Date_throws local = false
     ∧ ∃ tl tr, Some 1704067200000 = Some tl ∧ Some 1704153600000 = Some tr ∧ tl < tr)
  ∧ (Date_throws local = false →
     ∃ answer w',
       shouldUpdate node_posix default_binary "forgevsc-linux-x86_64" w = (Returned answer, w')
       ∧ (answer = true ↔
            ∃ tl tr, Some 1704067200000 = Some tl ∧ Some 1704153600000 = Some tr ∧ tl < tr)
       ∧ (Some 1704153600000 = Some 1704067200000 → answer = false))
  ∧ (Date_throws local = true →
     ∃ e w', shouldUpdate node_posix default_binary "forgevsc-linux-x86_64" w = (Thrown e, w')).
Proof.
  apply (shouldUpdate_iff_remote_strictly_newer node_posix default_binary
           "forgevsc-linux-x86_64"
           (installed_world (online [Reply 200 (Some (release_of "v2" "2024-01-02T00:00:00Z"))] []) [])
           (metadata_value old_metadata)
           {| updated_at := "2024-01-02T00:00:00Z"; tag_name := "v2" |}).
  - vm_compute. reflexivity.
  - reflexivity.
  - vm_compute. reflexivity.
Defined.

(** The examples of the specification: the same timestamp on both sides
    is no update, a day later is one. *)
Example shouldUpdate_equal_timestamps :
  (shouldUpdate node_posix default_binary "forgevsc-linux-x86_64"
     (installed_world (online [Reply 200 (Some (release_of "v2" "2024-01-01T00:00:00Z"))] []) [])).1
  = Returned false.
Proof. vm_compute. reflexivity. Qed.

Example shouldUpdate_next_day :
  (shouldUpdate node_posix default_binary "forgevsc-linux-x86_64"
     (installed_world (online [Reply 200 (Some (release_of "v2" "2024-01-02T00:00:00Z"))] []) [])).1
  = Returned true.
Proof. vm_compute. reflexivity. Qed.

(** ** The platform matrix and [startClient] *)

Lemma getServerBinaryName_matrix h :
  getServerBinaryName h = matrix_identifier (os_platform h) (os_arch h).
Proof.
  unfold getServerBinaryName, matrix_identifier, support_matrix.
  destruct h as [platform arch storage custom]. cbn [os_platform os_arch List.find fst snd].
  destruct (String.eqb_spec platform "linux") as [->|_];
    [destruct (String.eqb_spec arch "x64") as [->|_]; [reflexivity|];
     destruct (String.eqb_spec arch "arm64") as [->|_]; reflexivity |].
  destruct (String.eqb_spec platform "darwin") as [->|_];
    [destruct (String.eqb_spec arch "x64") as [->|_]; [reflexivity|];
     destruct (String.eqb_spec arch "arm64") as [->|_]; reflexivity |].
  destruct (String.eqb_spec platform "win32") as [->|_]; [|reflexivity].
  destruct (String.eqb_spec arch "x64") as [->|_]; reflexivity.
Qed.

Lemma matrix_identifier_in_matrix platform arch :
  is_Some (matrix_identifier platform arch) ↔ in_matrix platform arch = true.
Proof.
  unfold matrix_identifier, in_matrix.
  induction support_matrix as [|row rows IH]; cbn [List.find existsb].
  - split; [intros [? [=]] | done].
  - destruct (String.eqb platform row.1.1 && String.eqb arch row.1.2); cbn [orb].
    + split; [done | by eexists].
    + exact IH.
Qed.

Section StartClient.

Variable rt : Runtime.

Lemma ensureStorage_run w :
  ensureStorage rt w = (Returned (globalStoragePath (host w)), storage_ensured rt w).
Proof.
  unfold ensureStorage, storage_ensured. js_run.
  destruct (exists_path (disk w) (globalStoragePath (host w))); js_run; unfold mkdirSync_recursive; js_run; reflexivity.
Qed.

Lemma startClient_provision_running w :
  client_running (client (sup w)) = true →
  startClient_provision rt w = (Returned None, w).
Proof. intros H. unfold startClient_provision. rewrite bind_run. cbn [gets]. by rewrite H. Qed.

Lemma startClient_provision_unsupported w :
  client_running (client (sup w)) = false →
  getServerBinaryName (host w) = None →
  startClient_provision rt w
  = (Returned None,
     (appendLine unsupported_message (post (ErrorMessage unsupported_message) w)).2).
Proof.
  intros H N. unfold startClient_provision. rewrite bind_run. cbn [gets]. rewrite H.
  rewrite bind_run. cbn [gets]. by rewrite N.
Qed.

(** C4. The binary name is given exactly for the pairs of the matrix
    (linux and macOS on x86_64 and arm64, windows on x86_64) with the
    identifier of the matrix, and is [None] for every other pair; on
    [None] a start request returns before the launch: client, processes,
    disk and network are as before, and unless a client was already
    running the condition is shown and logged. *)
Theorem unsupported_platform_never_starts :
  (∀ h, getServerBinaryName h = matrix_identifier (os_platform h) (os_arch h))
  ∧ (∀ h, is_Some (getServerBinaryName h) ↔ in_matrix (os_platform h) (os_arch h) = true)
  ∧ (∀ w, getServerBinaryName (host w) = None →
       ∃ w', startClient rt w = (Returned tt, w')
             ∧ (startClient_provision rt w).1 = Returned None
             ∧ sup w' = sup w ∧ disk w' = disk w ∧ net w' = net w
             ∧ (client_running (client (sup w)) = false →
                  messages (editor w') = messages (editor w) ++ [ErrorMessage unsupported_message]
                  ∧ outputChannel (editor w')
                    = outputChannel (editor w) ++ [unsupported_message])).
Proof.
  split; [exact getServerBinaryName_matrix|]. split.
  - intros h. rewrite getServerBinaryName_matrix. apply matrix_identifier_in_matrix.
  - intros w N. unfold startClient.
    destruct (client_running (client (sup w))) eqn:R.
    + rewrite (bind_returned _ _ _ _ _ (startClient_provision_running w R)).
      rewrite (startClient_provision_running w R).
      exists w. by repeat split.
    + rewrite (bind_returned _ _ _ _ _ (startClient_provision_unsupported w R N)).
      rewrite (startClient_provision_unsupported w R N).
      eexists. split; [reflexivity|]. by repeat split.
Qed.

End StartClient.

Lemma unsupported_platform_never_starts_witness :
  getServerBinaryName (host windows_arm_world) = None
  ∧ ∃ w', startClient node_posix windows_arm_world = (Returned tt, w')
          ∧ sup w' = sup windows_arm_world
          ∧ messages (editor w') = [ErrorMessage unsupported_message].
Proof.
  split; [reflexivity|].
  destruct (unsupported_platform_never_starts node_posix) as (_ & _ & H).
  destruct (H windows_arm_world eq_refl) as (w' & E & _ & S & _ & _ & M).
  exists w'. split; [exact E|]. split; [exact S|]. by apply M.
Defined.

Section Provision.

Variable rt : Runtime.

Lemma resolveServerPath_run storagePath serverBinaryName w :
  ∃ w', resolveServerPath rt storagePath serverBinaryName w
          = (Returned (resolved_path rt storagePath serverBinaryName w), w')
        ∧ silent w w' ∧ messages (editor w') = messages (editor w).
Proof.
  unfold resolveServerPath, resolved_path, custom_usable. js_run.
  destruct (customBinaryPath (host w)) as [customPath|].
  - destruct (negb (String.eqb customPath "") && exists_path (disk w) customPath).
    + js_run. unfold appendLine. js_run. eexists. split; [reflexivity|]. by repeat split.
    + exists w. by repeat split.
  - exists w. by repeat split.
Qed.

Lemma askInformationMessage_run text items w :
  ∃ w', askInformationMessage text items w
          = (Returned (mjoin (head (answers (editor w)))), w')
        ∧ disk w' = disk w ∧ host w' = host w ∧ net w' = net w ∧ sup w' = sup w
        ∧ answers (editor w') = tail (answers (editor w))
        ∧ messages (editor w') = messages (editor w) ++ [Question text items].
Proof. eexists. split; [reflexivity|]. by repeat split. Qed.

(** On a supported platform with no client running, [startClient]
    reaches the install and update block with the resolved path. *)
Lemma startClient_provision_supported w serverBinaryName :
  client_running (client (sup w)) = false →
  getServerBinaryName (host w) = Some serverBinaryName →
  ∃ w1, silent (storage_ensured rt w) w1
        ∧ messages (editor w1) = messages (editor w)
        ∧ startClient_provision rt w
          = install_or_update rt serverBinaryName
              (resolved_path rt (globalStoragePath (host w)) serverBinaryName
                 (storage_ensured rt w)) w1.
Proof.
  intros R N. unfold startClient_provision. js_step. rewrite R. js_step. rewrite N.
  rewrite (bind_returned _ _ _ _ _ (ensureStorage_run rt w)).
  destruct (resolveServerPath_run (globalStoragePath (host w)) serverBinaryName
              (storage_ensured rt w)) as (w1 & E & S & M).
  rewrite (bind_returned _ _ _ _ _ E).
  exists w1. split; [done|]. split; [|done].
  rewrite M. unfold storage_ensured. by destruct (exists_path _ _).
Qed.

Lemma storage_ensured_frame w :
  files (disk (storage_ensured rt w)) = files (disk w)
  ∧ modes (disk (storage_ensured rt w)) = modes (disk w)
  ∧ unwritable (disk (storage_ensured rt w)) = unwritable (disk w)
  ∧ host (storage_ensured rt w) = host w
  ∧ net (storage_ensured rt w) = net w
  ∧ editor (storage_ensured rt w) = editor w
  ∧ sup (storage_ensured rt w) = sup w
  ∧ dirs (disk w) ⊆ dirs (disk (storage_ensured rt w)).
Proof.
  unfold storage_ensured. destruct (exists_path _ _); cbn; repeat split; set_solver.
Qed.

(** C9.  On a supported platform with no client, no override and no
    binary at the default location, a start request that the user does
    not answer with Download returns with the slot not running: no
    client and no process, no network request, and the files on disk,
    their contents and their modes are as before.  The one change on
    disk is the storage directory, which is created with its missing
    ancestors before the question is asked. *)
Theorem declined_download_changes_nothing (w : World) (serverBinaryName : string) :
  getServerBinaryName (host w) = Some serverBinaryName →
  client (sup w) = None →
  customBinaryPath (host w) = None →
  exists_path (disk (storage_ensured rt w))
    (path_join rt (globalStoragePath (host w)) serverBinaryName) = false →
  mjoin (head (answers (editor w))) ≠ Some "Download" →
  ∃ w', startClient rt w = (Returned tt, w')
        ∧ slot (sup w') = SlotNotRunning
        ∧ sup w' = sup w
        ∧ files (disk w') = files (disk w)
        ∧ modes (disk w') = modes (disk w)
        ∧ net w' = net w
        ∧ disk w' = disk (storage_ensured rt w).
Proof.
  intros N C O Hmiss Hans.
  assert (R : client_running (client (sup w)) = false) by (by rewrite C).
  destruct (startClient_provision_supported w serverBinaryName R N)
    as (w1 & S1 & M1 & E).
  destruct (storage_ensured_frame w) as (Ff & Fm & _ & Fh & Fn & Fe & Fs & _).
  destruct S1 as (Sd & Sh & Ss & Sn & Sa).
  unfold resolved_path in E. rewrite Fh, O in E.
  unfold startClient. rewrite bind_run, E.
  unfold install_or_update. js_step. rewrite Sd, Hmiss. cbn [negb].
  destruct (askInformationMessage_run
              ("ForgeLSP binary not found. Download " +:+ serverBinaryName +:+ "?")
              ["Download"; "Cancel"] w1) as (w2 & E2 & Ad & Ah & An & As & Aa & Am).
  rewrite (bind_returned _ _ _ _ _ E2).
  rewrite Sa, Fe.
  rewrite bool_decide_eq_false_2 by done.
  exists w2. split; [reflexivity|].
  assert (sup w2 = sup w) as Hs by congruence.
  split; [by unfold slot; rewrite Hs, C|].
  repeat split; congruence.
Qed.

Lemma exists_path_storage_ensured w p :
  exists_path (disk w) p = true → exists_path (disk (storage_ensured rt w)) p = true.
Proof.
  destruct (storage_ensured_frame w) as (Ff & _ & _ & _ & _ & _ & _ & Fd).
  unfold exists_path. rewrite Ff. destruct (files (disk w) !! p); [done|].
  intros H%bool_decide_eq_true. apply bool_decide_eq_true. set_solver.
Qed.

(** C6, as the code has it.  On a start request that gets as far as
    choosing the binary, the path given to the install and update block
    is the one of the path-resolution step.  It is the override
    whenever the override is set, not empty, and names something that
    exists once the storage directory is there, a file or a directory,
    whatever is at the default location; it is the default location,
    the storage directory joined with the binary name, in every other
    case: no override, an empty one, or one that names neither a file
    nor a directory. *)
Theorem override_wins_over_default (w : World) (serverBinaryName : string) :
  client_running (client (sup w)) = false →
  getServerBinaryName (host w) = Some serverBinaryName →
  let d := disk (storage_ensured rt w) in
  ∃ serverPath w1,
    startClient_provision rt w = install_or_update rt serverBinaryName serverPath w1
    ∧ (resolveServerPath rt (globalStoragePath (host w)) serverBinaryName
         (storage_ensured rt w)).1 = Returned serverPath
    ∧ files d = files (disk w)
    ∧ (∀ customPath,
         customBinaryPath (host w) = Some customPath → customPath ≠ "" →
         is_Some (files d !! customPath) ∨ customPath ∈ dirs d →
         serverPath = customPath)
    ∧ (customBinaryPath (host w) = None
       ∨ customBinaryPath (host w) = Some ""
       ∨ (∃ customPath, customBinaryPath (host w) = Some customPath
                        ∧ files d !! customPath = None ∧ customPath ∉ dirs d) →
       serverPath = path_join rt (globalStoragePath (host w)) serverBinaryName).
Proof.
  intros R N d.
  destruct (startClient_provision_supported w serverBinaryName R N) as (w1 & _ & _ & E).
  eexists _, w1. split; [exact E|].
  destruct (resolveServerPath_run (globalStoragePath (host w)) serverBinaryName
              (storage_ensured rt w)) as (w2 & E2 & _).
  split; [by rewrite E2|].
  destruct (storage_ensured_frame w) as (Ff & _ & _ & Fh & _).
  split; [exact Ff|].
  unfold resolved_path. rewrite Fh. fold d. split.
  - intros customPath -> Hne Hex.
    rewrite (eqb_name_false _ _ Hne). cbn [negb andb].
    unfold exists_path. destruct Hex as [[content ->]|Hdir]; [done|].
    destruct (files d !! customPath); [done|].
    by rewrite bool_decide_eq_true_2.
  - intros [->|[->|(customPath & -> & Hfile & Hdir)]]; [done | done |].
    unfold exists_path. rewrite Hfile, bool_decide_eq_false_2 by done.
    by rewrite andb_false_r.
Qed.

End Provision.

Lemma declined_download_changes_nothing_witness :
  ∃ w', startClient node_posix fresh_world = (Returned tt, w')
        ∧ slot (sup w') = SlotNotRunning
        ∧ sup w' = sup fresh_world
        ∧ files (disk w') = files (disk fresh_world)
        ∧ modes (disk w') = modes (disk fresh_world)
        ∧ net w' = net fresh_world
        ∧ disk w' = disk (storage_ensured node_posix fresh_world).
Proof.
  apply (declined_download_changes_nothing node_posix fresh_world "forgevsc-linux-x86_64").
  - reflexivity.
  - reflexivity.
  - reflexivity.
  - vm_compute. reflexivity.
  - vm_compute. discriminate.
Defined.

(** On a disk without the storage directory the directory is there
    after the request, also when the user declines. *)
Lemma declined_download_creates_storage_directory :
  exists_path (disk fresh_world) storage_dir = false
  ∧ mjoin (head (answers (editor fresh_world))) = Some "Cancel"
  ∧ ∃ w', startClient node_posix fresh_world = (Returned tt, w')
          ∧ exists_path (disk w') storage_dir = true
          ∧ storage_dir ∈ dirs (disk w').
Proof.
  split; [vm_compute; reflexivity|]. split; [reflexivity|].
  exists (startClient node_posix fresh_world).2.
  split; [vm_compute; reflexivity|].
  split; [vm_compute; reflexivity|].
  apply (bool_decide_unpack _). vm_compute. exact I.
Qed.

Lemma override_wins_over_default_witness :
  exists_path (disk override_world) default_binary = true
  ∧ ∃ w1, startClient_provision node_posix override_world
          = install_or_update node_posix "forgevsc-linux-x86_64" custom_binary w1.
Proof.
  split; [vm_compute; reflexivity|].
  destruct (override_wins_over_default node_posix override_world "forgevsc-linux-x86_64")
    as (serverPath & w1 & E & _ & _ & H & _); [reflexivity | reflexivity |].
  exists w1. rewrite E. f_equal.
  apply H; [reflexivity | discriminate | left; by eexists].
Defined.

(** The claim C6 as stated fails for an override that names a
    directory: it names no existing file, a binary is installed at the
    default location, and yet the override is the path that is
    resolved. *)
Lemma directory_override_is_taken :
  customBinaryPath (host directory_override_world) = Some "/opt/forge"
  ∧ files (disk directory_override_world) !! "/opt/forge" = None
  ∧ files (disk directory_override_world) !! default_binary = Some "DEFAULT BINARY"
  ∧ (resolveServerPath node_posix storage_dir "forgevsc-linux-x86_64"
       (storage_ensured node_posix directory_override_world)).1 = Returned "/opt/forge"
  ∧ "/opt/forge" ≠ default_binary.
Proof.
  split; [reflexivity|]. split; [vm_compute; reflexivity|].
  split; [vm_compute; reflexivity|]. split; [vm_compute; reflexivity | discriminate].
Qed.

(** ** [downloadBinary] *)

Lemma length_append (a b : string) :
  String.length (a +:+ b) = (String.length a + String.length b)%nat.
Proof.
  induction a as [|c a IH]; [done|].
  change (S (String.length (a +:+ b)) = S (String.length a + String.length b)).
  by rewrite IH.
Qed.

Lemma getMetadataPath_ne binaryPath : getMetadataPath binaryPath ≠ binaryPath.
Proof.
  unfold getMetadataPath. intros H. apply (f_equal String.length) in H.
  rewrite length_append in H. cbn in H. lia.
Qed.

Lemma downloadBinary_unfold filename destPath w :
  downloadBinary filename destPath w =
  (response ← axios_stream (downloadUrl filename);
   events ← pipe_to_file response destPath;
   match events with
   | ErrorThenClose err => throw err
   | CloseOnly =>
       appendLine "Download complete." ;;
       releaseInfo ← getLatestReleaseInfo filename;
       match releaseInfo with
       | Some info => writeMetadata destPath info ;; appendLine "Metadata saved."
       | None => mret tt
       end
   | NoEvent => pending
   end) (download_announced filename destPath w).
Proof. reflexivity. Qed.

Lemma download_announced_frame filename destPath w :
  silent w (download_announced filename destPath w).
Proof. by repeat split. Qed.

Lemma download_requested_frame filename destPath w :
  disk (download_requested filename destPath w) = disk w
  ∧ host (download_requested filename destPath w) = host w
  ∧ sup (download_requested filename destPath w) = sup w
  ∧ api_replies (net (download_requested filename destPath w)) = api_replies (net w)
  ∧ api_requests (net (download_requested filename destPath w)) = api_requests (net w)
  ∧ answers (editor (download_requested filename destPath w)) = answers (editor w).
Proof.
  unfold download_requested, axios_stream.
  destruct (head (transfers (net (download_announced filename destPath w))))
    as [[e|body]|]; by repeat split.
Qed.

Lemma axios_stream_response filename destPath w body :
  head (transfers (net w)) = Some (Response body) →
  axios_stream (downloadUrl filename) (download_announced filename destPath w)
  = (Returned body, download_requested filename destPath w).
Proof.
  intros H. unfold download_requested, axios_stream.
  change (transfers (net (download_announced filename destPath w))) with (transfers (net w)).
  by rewrite H.
Qed.

Lemma axios_stream_no_response filename destPath w :
  (∀ body, head (transfers (net w)) ≠ Some (Response body)) →
  ∃ e, axios_stream (downloadUrl filename) (download_announced filename destPath w)
       = (Thrown e, download_requested filename destPath w).
Proof.
  intros H. unfold download_requested, axios_stream.
  change (transfers (net (download_announced filename destPath w))) with (transfers (net w)).
  destruct (head (transfers (net w))) as [[e|body]|]; [by eexists | | by eexists].
  by destruct (H body).
Qed.

(** The request fails, or the file cannot be opened: the promise is
    rejected and the disk is as before. *)
Lemma downloadBinary_no_response filename destPath w :
  (∀ body, head (transfers (net w)) ≠ Some (Response body)) →
  ∃ e w', downloadBinary filename destPath w = (Thrown e, w') ∧ disk w' = disk w.
Proof.
  intros H. rewrite downloadBinary_unfold.
  destruct (axios_stream_no_response filename destPath w H) as (e & E).
  rewrite (bind_thrown _ _ _ _ _ E). eexists _, _. split; [reflexivity|].
  apply download_requested_frame.
Qed.

Lemma downloadBinary_cannot_open filename destPath w body :
  head (transfers (net w)) = Some (Response body) →
  can_open_for_writing (disk w) destPath = false →
  ∃ e w', downloadBinary filename destPath w = (Thrown e, w') ∧ disk w' = disk w.
Proof.
  intros H C. rewrite downloadBinary_unfold.
  rewrite (bind_returned _ _ _ _ _ (axios_stream_response filename destPath w body H)).
  destruct (download_requested_frame filename destPath w) as (D & _).
  rewrite bind_run. unfold pipe_to_file. rewrite D, C.
  eexists _, _. split; [reflexivity|]. exact D.
Qed.

(** The writer fails in the middle of the transfer. *)
Lemma downloadBinary_writer_failed filename destPath w written e :
  head (transfers (net w)) = Some (Response (WriterFailed written e)) →
  can_open_for_writing (disk w) destPath = true →
  downloadBinary filename destPath w
  = (Thrown e, store destPath written (download_requested filename destPath w)).
Proof.
  intros H C. rewrite downloadBinary_unfold.
  rewrite (bind_returned _ _ _ _ _ (axios_stream_response filename destPath w _ H)).
  destruct (download_requested_frame filename destPath w) as (D & _).
  rewrite bind_run. unfold pipe_to_file. by rewrite D, C.
Qed.

(** The response stream dies: nothing settles the promise. *)
Lemma downloadBinary_source_aborted filename destPath w written :
  head (transfers (net w)) = Some (Response (SourceAborted written)) →
  can_open_for_writing (disk w) destPath = true →
  downloadBinary filename destPath w
  = (Pending, store destPath written (download_requested filename destPath w)).
Proof.
  intros H C. rewrite downloadBinary_unfold.
  rewrite (bind_returned _ _ _ _ _ (axios_stream_response filename destPath w _ H)).
  destruct (download_requested_frame filename destPath w) as (D & _).
  rewrite bind_run. unfold pipe_to_file. by rewrite D, C.
Qed.

Lemma writeMetadata_run binaryPath metadata w :
  ∃ w', writeMetadata binaryPath metadata w = (Returned tt, w')
        ∧ host w' = host w ∧ net w' = net w ∧ sup w' = sup w
        ∧ answers (editor w') = answers (editor w)
        ∧ messages (editor w') = messages (editor w)
        ∧ dirs (disk w') = dirs (disk w) ∧ modes (disk w') = modes (disk w)
        ∧ unwritable (disk w') = unwritable (disk w)
        ∧ files (disk w')
          = if can_open_for_writing (disk w) (getMetadataPath binaryPath)
            then <[getMetadataPath binaryPath := JSON_stringify metadata]> (files (disk w))
            else files (disk w).
Proof.
  unfold writeMetadata, try_catch, writeFileSync.
  destruct (can_open_for_writing (disk w) (getMetadataPath binaryPath));
    (eexists; split; [reflexivity|]; by repeat split).
Qed.

(** The download completes: the binary is the body, and the sidecar is
    rewritten when the release index answers and the sidecar can be
    written. *)
Lemma downloadBinary_complete filename destPath w body :
  head (transfers (net w)) = Some (Response (Complete body)) →
  can_open_for_writing (disk w) destPath = true →
  ∃ w', downloadBinary filename destPath w = (Returned tt, w')
        ∧ host w' = host w ∧ sup w' = sup w
        ∧ answers (editor w') = answers (editor w)
        ∧ dirs (disk w') = dirs (disk w) ∧ modes (disk w') = modes (disk w)
        ∧ unwritable (disk w') = unwritable (disk w)
        ∧ files (disk w')
          = match latest_release (head (api_replies (net w))) filename with
            | Some info =>
                if can_open_for_writing (disk w) (getMetadataPath destPath)
                then <[getMetadataPath destPath := JSON_stringify info]>
                       (<[destPath := body]> (files (disk w)))
                else <[destPath := body]> (files (disk w))
            | None => <[destPath := body]> (files (disk w))
            end.
Proof.
  intros H C. rewrite downloadBinary_unfold.
  rewrite (bind_returned _ _ _ _ _ (axios_stream_response filename destPath w _ H)).
  destruct (download_requested_frame filename destPath w) as (D & Hh & Hs & Hr & _ & Ha).
  set (w0 := download_requested filename destPath w) in *.
  rewrite bind_run. unfold pipe_to_file. rewrite D, C.
  destruct (appendLine_run "Download complete." (store destPath body w0))
    as (w1 & E1 & (S1d & S1h & S1s & S1n & S1a) & _).
  rewrite (bind_returned _ _ _ _ _ E1).
  destruct (getLatestReleaseInfo_run filename w1)
    as (w2 & E2 & (Q2d & Q2h & Q2s & Q2a & _) & _).
  rewrite (bind_returned _ _ _ _ _ E2).
  assert (N : api_replies (net w1) = api_replies (net w)).
  { rewrite S1n. exact Hr. }
  rewrite N.
  assert (Dk : disk w2 = disk (store destPath body w0)) by congruence.
  destruct (latest_release (head (api_replies (net w))) filename) as [info|].
  - destruct (writeMetadata_run destPath info w2)
      as (w3 & E3 & W3h & _ & W3s & W3a & _ & W3d & W3m & W3u & W3f).
    rewrite (bind_returned _ _ _ _ _ E3).
    destruct (appendLine_run "Metadata saved." w3)
      as (w4 & E4 & (S4d & S4h & S4s & _ & S4a) & _).
    rewrite E4. exists w4.
    split; [done|]. rewrite S4d, S4h, S4s, S4a, W3h, W3s, W3a, W3d, W3m, W3u, W3f.
    rewrite Q2h, Q2s, Q2a, S1h, S1s, S1a, Dk. cbn [store with_disk disk files dirs modes unwritable host sup editor].
    unfold can_open_for_writing. cbn [dirs unwritable]. rewrite D.
    by repeat split.
  - exists w2. split; [done|].
    rewrite Q2h, Q2s, Q2a, S1h, S1s, S1a, Dk. cbn [store with_disk disk files dirs modes unwritable host sup editor].
    rewrite D. by repeat split.
Qed.

(** C1. What [downloadBinary] does when the write stream fails in the
    middle of a transfer onto an existing binary: the failure is
    propagated and the sidecar is as before, but the binary file holds
    the bytes written so far instead of its former content. *)
Theorem failed_download_overwrites_binary
    (filename destPath : string) (w : World) (old written e : string) :
  files (disk w) !! destPath = Some old →
  head (transfers (net w)) = Some (Response (WriterFailed written e)) →
  can_open_for_writing (disk w) destPath = true →
  ∃ w', downloadBinary filename destPath w = (Thrown e, w')
        ∧ files (disk w') !! destPath = Some written
        ∧ files (disk w') !! getMetadataPath destPath
          = files (disk w) !! getMetadataPath destPath.
Proof.
  intros _ H C. rewrite (downloadBinary_writer_failed filename destPath w written e H C).
  eexists. split; [reflexivity|].
  destruct (download_requested_frame filename destPath w) as (D & _).
  cbn [store with_disk disk files]. rewrite D. split.
  - apply lookup_insert_eq.
  - apply lookup_insert_ne. intros E. by apply (getMetadataPath_ne destPath).
Qed.

Lemma failed_download_overwrites_binary_witness :
  files (disk interrupted_update_world) !! default_binary = Some "OLD BINARY"
  ∧ ∃ w', downloadBinary "forgevsc-linux-x86_64" default_binary interrupted_update_world
            = (Thrown disk_full, w')
          ∧ files (disk w') !! default_binary = Some "NEW B"
          ∧ files (disk w') !! getMetadataPath default_binary
            = files (disk interrupted_update_world) !! getMetadataPath default_binary.
Proof.
  split; [vm_compute; reflexivity|].
  apply (failed_download_overwrites_binary "forgevsc-linux-x86_64" default_binary
           interrupted_update_world "OLD BINARY" "NEW B" disk_full).
  - vm_compute. reflexivity.
  - reflexivity.
  - vm_compute. reflexivity.
Defined.

(** A response stream that dies in mid-transfer does not even reject the
    promise: the install never settles, with the binary overwritten. *)
Example aborted_download_never_settles :
  (downloadBinary "forgevsc-linux-x86_64" default_binary
     (installed_world (online [] [Response (SourceAborted "NEW B")]) [])).1 = Pending.
Proof. vm_compute. reflexivity. Qed.

(** ** The sidecar after an install *)

Lemma stored_metadata_written d binaryPath metadata :
  files d !! getMetadataPath binaryPath = Some (JSON_stringify metadata) →
  stored_metadata d binaryPath = metadata_value metadata.
Proof. intros H. unfold stored_metadata. by rewrite H, parse_stringify. Qed.

Lemma downloadBinary_returned filename destPath w w' :
  downloadBinary filename destPath w = (Returned tt, w') →
  ∃ body, head (transfers (net w)) = Some (Response (Complete body))
          ∧ can_open_for_writing (disk w) destPath = true.
Proof.
  intros E.
  destruct (head (transfers (net w))) as [[e|body]|] eqn:H.
  - destruct (downloadBinary_no_response filename destPath w) as (e' & w1 & E1 & _);
      [by rewrite H | congruence].
  - destruct (can_open_for_writing (disk w) destPath) eqn:C.
    + destruct body as [body|written e|written].
      * by exists body.
      * rewrite (downloadBinary_writer_failed _ _ _ _ _ H C) in E. discriminate.
      * rewrite (downloadBinary_source_aborted _ _ _ _ H C) in E. discriminate.
    + destruct (downloadBinary_cannot_open filename destPath w body H C)
        as (e' & w1 & E1 & _). congruence.
  - destruct (downloadBinary_no_response filename destPath w) as (e' & w1 & E1 & _);
      [by rewrite H | congruence].
Qed.

(** C7, as the code has it.  An install succeeds when the transfer
    completes into a destination that can be opened, whatever the fetch
    of the release information that follows gives, and the binary then
    holds the body received.  If that fetch is present and the sidecar
    can be written, [readMetadata] returns the metadata of that
    release, so its [tag_name] is the tag fetched; if the fetch is
    present and the sidecar cannot be opened for writing, or if the
    fetch is absent, the sidecar is as it was before, stale or
    missing. *)
Theorem install_records_fetched_release
    (filename destPath : string) (w : World) (body : string) :
  head (transfers (net w)) = Some (Response (Complete body)) →
  can_open_for_writing (disk w) destPath = true →
  ∃ w', downloadBinary filename destPath w = (Returned tt, w')
        ∧ files (disk w') !! destPath = Some body
        ∧ match latest_release (head (api_replies (net w))) filename with
          | Some info =>
              if can_open_for_writing (disk w) (getMetadataPath destPath) then
                (readMetadata destPath w').1 = Returned (metadata_value info)
                ∧ get_prop (metadata_value info) "tag_name" = Some (JStr (tag_name info))
              else
                files (disk w') !! getMetadataPath destPath
                = files (disk w) !! getMetadataPath destPath
          | None =>
              files (disk w') !! getMetadataPath destPath
              = files (disk w) !! getMetadataPath destPath
          end.
Proof.
  intros H C.
  destruct (downloadBinary_complete filename destPath w body H C)
    as (w' & E & _ & _ & _ & _ & _ & _ & F).
  exists w'. split; [exact E|].
  assert (Hne : getMetadataPath destPath ≠ destPath) by apply getMetadataPath_ne.
  destruct (latest_release (head (api_replies (net w))) filename) as [info|].
  - destruct (can_open_for_writing (disk w) (getMetadataPath destPath)).
    + split; [rewrite F, lookup_insert_ne by done; apply lookup_insert_eq|].
      split; [|reflexivity].
      rewrite readMetadata_result. f_equal. apply stored_metadata_written.
      rewrite F. apply lookup_insert_eq.
    + split; [rewrite F; apply lookup_insert_eq|].
      rewrite F. by apply lookup_insert_ne.
  - split; [rewrite F; apply lookup_insert_eq|].
    rewrite F. by apply lookup_insert_ne.
Qed.

Lemma install_records_fetched_release_witness :
  ∃ w', downloadBinary "forgevsc-linux-x86_64" default_binary update_ready_world
          = (Returned tt, w')
        ∧ files (disk w') !! default_binary = Some "NEW BINARY"
        ∧ (readMetadata default_binary w').1
          = Returned (metadata_value {| updated_at := "2024-01-02T00:00:00Z"; tag_name := "v2" |})
        ∧ get_prop (metadata_value {| updated_at := "2024-01-02T00:00:00Z"; tag_name := "v2" |})
            "tag_name" = Some (JStr "v2").
Proof.
  apply (install_records_fetched_release "forgevsc-linux-x86_64" default_binary
           update_ready_world "NEW BINARY").
  - reflexivity.
  - vm_compute. reflexivity.
Defined.

(** The claim C7 without the condition on the sidecar fails: with a
    sidecar that cannot be written the install succeeds, the fetch after
    the download gives the tag v2, and the sidecar still says v1. *)
Lemma install_with_readonly_sidecar_keeps_old_tag :
  ∃ w' info,
    downloadBinary "forgevsc-linux-x86_64" default_binary readonly_sidecar_world
      = (Returned tt, w')
    ∧ (getLatestReleaseInfo "forgevsc-linux-x86_64" readonly_sidecar_world).1
      = Returned (Some info)
    ∧ tag_name info = "v2"
    ∧ (readMetadata default_binary w').1 = Returned (metadata_value old_metadata)
    ∧ get_prop (metadata_value old_metadata) "tag_name" ≠ Some (JStr (tag_name info)).
Proof.
  eexists _, _. split; [vm_compute; reflexivity|].
  split; [vm_compute; reflexivity|].
  split; [reflexivity|]. split; [vm_compute; reflexivity|]. discriminate.
Qed.

(** ** Launching the server *)

Lemma kept_refl p w : kept p w w.
Proof.
  unfold kept. repeat split; try done.
  - by exists 0%nat.
  - exists []. by rewrite app_nil_r.
  - exists []. by rewrite app_nil_r.
Qed.

Lemma kept_trans p w1 w2 w3 : kept p w1 w2 → kept p w2 w3 → kept p w1 w3.
Proof.
  intros (F1 & D1 & H1 & T1 & R1 & (k1 & A1) & (m1 & M1) & (l1 & P1 & Q1))
         (F2 & D2 & H2 & T2 & R2 & (k2 & A2) & (m2 & M2) & (l2 & P2 & Q2)).
  unfold kept. repeat split; try congruence.
  - set_solver.
  - exists (k1 + k2)%nat. by rewrite A2, A1, drop_drop.
  - exists (m1 ++ m2). by rewrite M2, M1, app_assoc.
  - exists (l1 ++ l2). split; [by rewrite P2, P1, app_assoc | by apply Forall_app].
Qed.

Lemma silent_kept p w w' l :
  silent w w' → messages (editor w') = messages (editor w) ++ l → kept p w w'.
Proof.
  intros (D & H & S & N & A) M. unfold kept. rewrite D, H, S, N.
  repeat split; try done.
  - by exists 0%nat.
  - by exists l.
  - exists []. by rewrite app_nil_r.
Qed.

Lemma quiet_kept p w w' l :
  quiet w w' → messages (editor w') = messages (editor w) ++ l → kept p w w'.
Proof.
  intros (D & H & S & A & T & R) M. unfold kept. rewrite D, H, S.
  repeat split; try done.
  - by exists 0%nat.
  - by exists l.
  - exists []. by rewrite app_nil_r.
Qed.



Lemma kept_answers p w w' (P : option string → Prop) :
  kept p w w' → Forall P (answers (editor w)) → Forall P (answers (editor w')).
Proof. intros (_ & _ & _ & _ & _ & (k & ->) & _) H. by apply Forall_drop. Qed.

Section Launch.

Variable rt : Runtime.


End Launch.

(** The mode of the binary is set, except on Windows. *)
Lemma chmod_unless_windows_run sp w :
  on_windows w = true ∨ exists_path (disk w) sp = true →
  mode_settable w sp = true →
  ∃ w1, chmod_unless_windows sp w = (Returned tt, w1)
        ∧ files (disk w1) = files (disk w) ∧ dirs (disk w1) = dirs (disk w)
        ∧ unwritable (disk w1) = unwritable (disk w)
        ∧ modes (disk w1)
          = (if on_windows w then modes (disk w) else <[sp := "755"]> (modes (disk w)))
        ∧ host w1 = host w ∧ net w1 = net w ∧ editor w1 = editor w ∧ sup w1 = sup w.
Proof.
  unfold mode_settable, on_windows, chmod_unless_windows. intros Hex Hm. js_step.
  destruct (String.eqb (os_platform (host w)) "win32") eqn:W; cbn [negb orb] in *.
  - exists w. by repeat split.
  - destruct Hex as [?|Hex]; [done|]. unfold chmodSync. rewrite Hex. cbn [negb].
    apply negb_true_iff in Hm. rewrite Hm.
    eexists. split; [reflexivity|]. by repeat split.
Qed.

(** When it cannot be set, nothing has changed. *)
Lemma chmod_unless_windows_throws sp w :
  on_windows w = false →
  exists_path (disk w) sp = false ∨ mode_settable w sp = false →
  ∃ e, chmod_unless_windows sp w = (Thrown e, w).
Proof.
  unfold mode_settable, on_windows, chmod_unless_windows. intros W H. js_step.
  rewrite W in *. cbn [negb orb] in *. unfold chmodSync.
  destruct (exists_path (disk w) sp); cbn [negb]; [|by eexists].
  destruct H as [?|H]; [done|]. apply negb_false_iff in H. rewrite H. by eexists.
Qed.

Lemma chmod_unless_windows_cases sp w :
  (on_windows w = true ∨ exists_path (disk w) sp = true) ∧ mode_settable w sp = true
  ∨ on_windows w = false
    ∧ (exists_path (disk w) sp = false ∨ mode_settable w sp = false).
Proof.
  destruct (on_windows w) eqn:W.
  - left. split; [by left|]. unfold mode_settable. by rewrite W.
  - destruct (exists_path (disk w) sp), (mode_settable w sp); auto.
Qed.

(** [startClient] up to the call of [client.start()], once the mode is
    set. *)
Lemma launch_begin_run sp w w1 :
  chmod_unless_windows sp w = (Returned tt, w1) → sup w1 = sup w →
  ∃ w2, launch_begin sp w = (Returned tt, w2)
        ∧ disk w2 = disk w1 ∧ host w2 = host w1 ∧ net w2 = net w1
        ∧ messages (editor w2) = messages (editor w1)
        ∧ answers (editor w2) = answers (editor w1)
        ∧ client (sup w2)
          = Some {| client_id := next_id (sup w); command := sp; state := Starting |}
        ∧ next_id (sup w2) = S (next_id (sup w))
        ∧ spawned (sup w2) = spawned (sup w) ++ [(next_id (sup w), sp)]
        ∧ launches (sup w2) = launches (sup w).
Proof.
  intros E Hs. unfold launch_begin. rewrite (bind_returned _ _ _ _ _ E).
  unfold createFileSystemWatcher, new_LanguageClient, appendLine, client_start_begin.
  js_run. eexists. split; [reflexivity|]. cbn. rewrite Hs. by repeat split.
Qed.

(** The events of a failing launch reach the error handler one by one;
    each close of the connection spawns the server again. *)
Lemma handle_events_run events w c :
  client (sup w) = Some c →
  ∃ w', handle_events events w = (Returned tt, w')
        ∧ disk w' = disk w ∧ host w' = host w ∧ net w' = net w
        ∧ messages (editor w') = messages (editor w)
        ∧ answers (editor w') = answers (editor w)
        ∧ client (sup w') = client (sup w)
        ∧ next_id (sup w') = next_id (sup w)
        ∧ launches (sup w') = launches (sup w)
        ∧ spawned (sup w')
          = spawned (sup w) ++ replicate (closes events) (client_id c, command c).
Proof.
  revert w. induction events as [|event events IH]; intros w Hc.
  - exists w. cbn. rewrite app_nil_r. by repeat split.
  - cbn [handle_events]. rewrite bind_run.
    destruct event as [error message|]; cbn [errorHandler closes].
    + unfold appendLine. cbn [modify]. set (w1 := with_editor _ w).
      destruct (IH w1 Hc) as (w' & E & ? & ? & ? & ? & ? & ? & ? & ? & ?).
      exists w'. by repeat split.
    + unfold appendLine, respawn. rewrite bind_run. cbn [modify].
      set (w1 := with_sup _ _).
      assert (Hc1 : client (sup w1) = Some c) by done.
      destruct (IH w1 Hc1) as (w' & E & ? & ? & ? & ? & ? & Hcl & ? & ? & Hsp).
      exists w'. split; [exact E|]. repeat split; try done.
      rewrite Hsp. subst w1. cbn. rewrite Hc. cbn [replicate].
      by rewrite <- app_assoc.
Qed.

(** The rest of [startClient], from the settling of [client.start()]. *)
Lemma launch_end_run w c :
  client (sup w) = Some c →
  let l := head (launches (sup w)) in
  ∃ w', launch_end w = (settled_outcome l, w')
        ∧ disk w' = disk w ∧ host w' = host w ∧ net w' = net w
        ∧ messages (editor w') = messages (editor w)
        ∧ answers (editor w') = answers (editor w)
        ∧ client (sup w')
          = Some {| client_id := client_id c; command := command c;
                    state := match l with
                             | Some Unanswered => state c
                             | _ => settled_state l
                             end |}
        ∧ next_id (sup w') = next_id (sup w)
        ∧ launches (sup w') = tail (launches (sup w))
        ∧ spawned (sup w')
          = spawned (sup w) ++ replicate (respawns l) (client_id c, command c).
Proof.
  intros Hc l. unfold launch_end, client_start_settle, next_launch.
  rewrite !bind_run. subst l.
  set (w0 := with_sup _ w).
  assert (Hc0 : client (sup w0) = Some c) by done.
  destruct (head (launches (sup w))) as [[|events|]|].
  - unfold appendLine, createFileSystemWatcher. js_run.
    eexists. split; [reflexivity|]. cbn. rewrite Hc, app_nil_r. by repeat split.
  - destruct (handle_events_run events w0 c Hc0)
      as (w1 & E1 & ? & ? & ? & ? & ? & Hc1 & ? & ? & Hsp).
    rewrite (bind_returned _ _ _ _ _ E1). js_run.
    eexists. split; [reflexivity|]. cbn. rewrite Hc1, Hc0. by repeat split.
  - cbn [pending]. exists w0. split; [reflexivity|]. cbn.
    rewrite Hc, app_nil_r. repeat split; try done. by destruct c.
  - unfold appendLine, createFileSystemWatcher. js_run.
    eexists. split; [reflexivity|]. cbn. rewrite Hc, app_nil_r. by repeat split.
Qed.

(** The launch of a binary whose mode can be set: the client it leaves
    runs that binary, in the state in which [client.start()] leaves
    it, and every process spawned is of that client. *)
Lemma launch_run sp w :
  on_windows w = true ∨ exists_path (disk w) sp = true →
  mode_settable w sp = true →
  let l := head (launches (sup w)) in
  ∃ w', (launch_begin sp ;; launch_end) w = (settled_outcome l, w')
        ∧ launch_frame w w'
        ∧ modes (disk w')
          = (if on_windows w then modes (disk w) else <[sp := "755"]> (modes (disk w)))
        ∧ client (sup w')
          = Some {| client_id := next_id (sup w); command := sp;
                    state := settled_state l |}
        ∧ spawned (sup w')
          = spawned (sup w) ++ replicate (S (respawns l)) (next_id (sup w), sp)
        ∧ next_id (sup w') = S (next_id (sup w))
        ∧ launches (sup w') = tail (launches (sup w)).
Proof.
  intros Hex Hm l.
  destruct (chmod_unless_windows_run sp w Hex Hm)
    as (w1 & E1 & Cf & Cd & Cu & Cm & Ch & Cn & Ce & Cs).
  destruct (launch_begin_run sp w w1 E1 Cs)
    as (w2 & E2 & Bd & Bh & Bn & Bm & Ba & Bc & Bi & Bs & Bl).
  destruct (launch_end_run w2 _ Bc) as (w3 & E3 & Ld & Lh & Ln & Lm & La & Lc & Li & Ll & Ls).
  rewrite Bl in E3, Lc, Ll, Ls. fold l in E3, Lc, Ls.
  exists w3. split; [by rewrite (bind_returned _ _ _ _ _ E2)|].
  split; [unfold launch_frame; rewrite Ld, Bd, Lh, Bh, Ln, Bn, Lm, Bm, La, Ba, Ce;
          by repeat split|].
  split; [by rewrite Ld, Bd|].
  split; [rewrite Lc; cbn; by destruct l as [[]|]|].
  split; [rewrite Ls, Bs; cbn; by rewrite <- app_assoc|].
  split; [by rewrite Li | done].
Qed.

(** The launch that succeeds. *)
Lemma launch_spec sp w :
  on_windows w = true ∨ exists_path (disk w) sp = true →
  mode_settable w sp = true →
  launch_succeeds w = true →
  ∃ w', (launch_begin sp ;; launch_end) w = (Returned tt, w')
        ∧ launch_frame w w'
        ∧ modes (disk w')
          = (if on_windows w then modes (disk w) else <[sp := "755"]> (modes (disk w)))
        ∧ client (sup w')
          = Some {| client_id := next_id (sup w); command := sp; state := Running |}
        ∧ spawned (sup w') = spawned (sup w) ++ [(next_id (sup w), sp)]
        ∧ next_id (sup w') = S (next_id (sup w))
        ∧ launches (sup w') = tail (launches (sup w)).
Proof.
  intros Hex Hm Hl. destruct (launch_run sp w Hex Hm) as (w' & E & H).
  exists w'. unfold launch_succeeds in Hl.
  by destruct (head (launches (sup w))) as [[]|].
Qed.

(** The launch whose [chmodSync] throws changes nothing. *)
Lemma launch_throws sp w :
  on_windows w = false →
  exists_path (disk w) sp = false ∨ mode_settable w sp = false →
  ∃ e, (launch_begin sp ;; launch_end) w = (Thrown e, w).
Proof.
  intros W H. destruct (chmod_unless_windows_throws sp w W H) as (e & E).
  exists e. unfold launch_begin.
  by rewrite (bind_thrown _ _ _ _ _ (bind_thrown _ _ _ _ _ E)).
Qed.

Lemma launch_always_frame sp : always launch_frame (launch_begin sp ;; launch_end).
Proof.
  intros w. destruct (chmod_unless_windows_cases sp w) as [[Hex Hm]|[W H]].
  - destruct (launch_run sp w Hex Hm) as (w' & E & F & _). by rewrite E.
  - destruct (launch_throws sp w W H) as (e & E). rewrite E. by repeat split.
Qed.

(** Whatever becomes of the launch of [p], nothing is downloaded, no
    file changes and every process spawned runs [p]. *)
Lemma launch_kept p w : kept p w ((launch_begin p ;; launch_end) w).2.
Proof.
  destruct (chmod_unless_windows_cases p w) as [[Hex Hm]|[W H]].
  - destruct (launch_run p w Hex Hm)
      as (w' & E & (Lf & Ld & _ & Lh & Ln & Lm & La) & _ & _ & Ls & _).
    rewrite E. cbn [snd]. unfold kept. rewrite Lf, Ld, Lh, Ln, Lm, La.
    repeat split; try done.
    + by exists 0%nat.
    + exists []. by rewrite app_nil_r.
    + eexists. split; [exact Ls|]. apply Forall_forall.
      by intros x ->%elem_of_replicate_inv.
  - destruct (launch_throws p w W H) as (e & E). rewrite E. apply kept_refl.
Qed.
(** ** Start requests that find their binary *)

Lemma update_available_no_throw rt localMetadata remoteInfo :
  update_available rt localMetadata remoteInfo = true →
  update_check_throws localMetadata remoteInfo = false.
Proof.
  unfold update_available, update_check_throws.
  destruct (truthy localMetadata); [|done]. destruct remoteInfo as [info|]; [|done].
  cbn [andb]. intros [H _]%andb_prop. apply negb_true_iff in H. rewrite H.
  by rewrite andb_false_r.
Qed.

Lemma stored_metadata_ext d d' binaryPath :
  files d' = files d → stored_metadata d' binaryPath = stored_metadata d binaryPath.
Proof. intros H. unfold stored_metadata. by rewrite H. Qed.

Lemma storage_ensured_exists rt w :
  exists_path (disk (storage_ensured rt w)) (globalStoragePath (host w)) = true.
Proof.
  unfold storage_ensured.
  destruct (exists_path (disk w) (globalStoragePath (host w))) eqn:H; [done|].
  unfold exists_path. cbn.
  destruct (files (disk w) !! globalStoragePath (host w)); [done|].
  apply bool_decide_eq_true. set_solver.
Qed.

Lemma storage_ensured_idle rt w :
  exists_path (disk w) (globalStoragePath (host w)) = true → storage_ensured rt w = w.
Proof. intros H. unfold storage_ensured. by rewrite H. Qed.

Lemma start_path_default rt serverBinaryName w :
  customBinaryPath (host w) = None →
  start_path rt serverBinaryName w
  = path_join rt (globalStoragePath (host w)) serverBinaryName.
Proof.
  intros C. unfold start_path, resolved_path.
  destruct (storage_ensured_frame rt w) as (_ & _ & _ & -> & _). by rewrite C.
Qed.


Lemma start_path_ext rt serverBinaryName w w' :
  disk w' = disk w → host w' = host w →
  start_path rt serverBinaryName w' = start_path rt serverBinaryName w
  ∧ disk (storage_ensured rt w') = disk (storage_ensured rt w).
Proof.
  intros D H. unfold start_path, resolved_path, storage_ensured. rewrite D, H.
  destruct (exists_path (disk w) (globalStoragePath (host w))); cbn; by rewrite ?D, ?H.
Qed.

Lemma mode_settable_ext w w' p :
  host w' = host w → unwritable (disk w') = unwritable (disk w) →
  mode_settable w' p = mode_settable w p.
Proof. intros H U. unfold mode_settable, on_windows. by rewrite H, U. Qed.


Lemma kept_message p w w' m :
  kept p w w' → m ∈ messages (editor w) → m ∈ messages (editor w').
Proof.
  intros (_ & _ & _ & _ & _ & _ & (l & ->) & _) H. apply elem_of_app. by left.
Qed.

Section Override.

Variable rt : Runtime.

(** With the binary in place and no update accepted, the install and
    update block downloads nothing; unless the update check throws, it
    goes on to the launch. *)
Lemma install_or_update_no_update p serverBinaryName w :
  exists_path (disk w) p = true →
  Forall (λ a, a ≠ Some "Update") (answers (editor w)) →
  ∃ w', install_or_update rt serverBinaryName p w
          = (if update_check_throws (stored_metadata (disk w) p)
                  (latest_release (head (api_replies (net w))) serverBinaryName)
             then Thrown "TypeError: Cannot convert object to primitive value"
             else Returned (Some p), w')
        ∧ kept p w w' ∧ sup w' = sup w ∧ disk w' = disk w.
Proof.
  intros Hex Hans. unfold install_or_update. js_step. rewrite Hex. cbn [negb].
  destruct (shouldUpdate_run rt p serverBinaryName w) as (w1 & E1 & Q1 & M1 & _).
  assert (K1 : kept p w w1).
  { apply (quiet_kept p w w1 []); [done|]. by rewrite app_nil_r. }
  destruct (update_check_throws _ _).
  { rewrite (bind_thrown _ _ _ _ _ E1). exists w1. split; [done|]. split; [done|].
    split; apply Q1. }
  rewrite (bind_returned _ _ _ _ _ E1).
  destruct (update_available _ _ _).
  - destruct (askInformationMessage_run
                "A new version of ForgeLSP is available. Update now?"
                ["Update"; "Skip"] w1) as (w2 & E2 & Ad & Ah & An & As & Aa & Am).
    js_step. rewrite (bind_returned _ _ _ _ _ E2).
    assert (Hd : mjoin (head (answers (editor w1))) ≠ Some "Update").
    { destruct Q1 as (_ & _ & _ & -> & _).
      destruct (answers (editor w)) as [|a l]; [done|].
      cbn. inversion Hans; subst. by destruct a. }
    rewrite bool_decide_eq_false_2 by done. js_run.
    exists w2. split; [done|].
    destruct Q1 as (Qd & Qh & Qs & Qa & Qt & Qr).
    split; [|split; congruence].
    apply (kept_trans p w w1 w2 K1).
    unfold kept. rewrite Ad, Ah, An, As, Aa, Am. repeat split; try done.
    + exists 1%nat. by destruct (answers (editor w1)).
    + by eexists.
    + exists []. by rewrite app_nil_r.
  - js_run. exists w1. split; [done|]. split; [done|]. split; apply Q1.
Qed.

(** A start request on a supported platform with no client running is
    the install and update block followed by the launch. *)
Lemma startClient_via_install w serverBinaryName :
  client_running (client (sup w)) = false →
  getServerBinaryName (host w) = Some serverBinaryName →
  ∃ w1, startClient rt w
        = (install_or_update rt serverBinaryName (start_path rt serverBinaryName w)
             ≫= λ serverPath,
                  match serverPath with
                  | Some serverPath => launch_begin serverPath ;; launch_end
                  | None => mret tt
                  end) w1
        ∧ disk w1 = disk (storage_ensured rt w)
        ∧ host w1 = host w ∧ net w1 = net w ∧ sup w1 = sup w
        ∧ answers (editor w1) = answers (editor w)
        ∧ messages (editor w1) = messages (editor w).
Proof.
  intros R N.
  destruct (startClient_provision_supported rt w serverBinaryName R N)
    as (w1 & (Sd & Sh & Ss & Sn & Sa) & M & E).
  destruct (storage_ensured_frame rt w) as (_ & _ & _ & Fh & Fn & Fe & Fs & _).
  exists w1. unfold startClient, start_path. rewrite !bind_run, E.
  repeat split; congruence.
Qed.

(** A start request that finds its binary and is offered no update that
    the user accepts downloads nothing and changes no file.  It throws
    when the update check throws and when the mode of the binary cannot
    be set, with no client created; otherwise it launches the binary,
    and ends as [client.start()] does. *)
Lemma startClient_existing w serverBinaryName :
  client_running (client (sup w)) = false →
  getServerBinaryName (host w) = Some serverBinaryName →
  let p := start_path rt serverBinaryName w in
  let l := head (launches (sup w)) in
  exists_path (disk (storage_ensured rt w)) p = true →
  Forall (λ a, a ≠ Some "Update") (answers (editor w)) →
  ∃ o w', startClient rt w = (o, w')
          ∧ kept p w w'
          ∧ dirs (disk w') = dirs (disk (storage_ensured rt w))
          ∧ (update_check_throws (stored_metadata (disk w) p)
               (latest_release (head (api_replies (net w))) serverBinaryName) = true
             ∨ mode_settable w p = false →
             (∃ e, o = Thrown e) ∧ sup w' = sup w)
          ∧ (update_check_throws (stored_metadata (disk w) p)
               (latest_release (head (api_replies (net w))) serverBinaryName) = false →
             mode_settable w p = true →
             o = settled_outcome l
             ∧ client (sup w')
               = Some {| client_id := next_id (sup w); command := p;
                         state := settled_state l |}
             ∧ spawned (sup w')
               = spawned (sup w) ++ replicate (S (respawns l)) (next_id (sup w), p)
             ∧ next_id (sup w') = S (next_id (sup w))
             ∧ launches (sup w') = tail (launches (sup w))
             ∧ modes (disk w')
               = (if on_windows w then modes (disk w)
                  else <[p := "755"]> (modes (disk w)))).
Proof.
  intros R N p l Hex Hans.
  destruct (startClient_via_install w serverBinaryName R N)
    as (w1 & E & Dd & Dh & Dn & Ds & Da & Dm).
  fold p in E.
  destruct (storage_ensured_frame rt w) as (Ff & Fm & Fu & _ & _ & _ & _ & Fd).
  assert (K1 : kept p w w1).
  { unfold kept. rewrite Dd, Dh, Dn, Ds, Da, Dm, Ff. repeat split; try done.
    - by exists 0%nat.
    - exists []. by rewrite app_nil_r.
    - exists []. by rewrite app_nil_r. }
  destruct (install_or_update_no_update p serverBinaryName w1)
    as (w2 & E2 & K2 & S2 & D2); [by rewrite Dd | by rewrite Da |].
  rewrite (stored_metadata_ext (disk w) (disk w1)), Dn in E2 by by rewrite Dd.
  assert (Hm : mode_settable w2 p = mode_settable w p).
  { apply mode_settable_ext; [|rewrite D2, Dd]; [|done].
    destruct K2 as (_ & _ & -> & _). done. }
  assert (Hw : on_windows w2 = on_windows w).
  { unfold on_windows. destruct K2 as (_ & _ & -> & _). by rewrite Dh. }
  pose proof (kept_trans p w w1 w2 K1 K2) as K02.
  destruct (update_check_throws _ _).
  { exists (Thrown "TypeError: Cannot convert object to primitive value"), w2.
    split; [by rewrite E, (bind_thrown _ _ _ _ _ E2)|]. split; [done|].
    split; [by rewrite D2, Dd|]. split; [|done].
    intros _. split; [by eexists | congruence]. }
  destruct (mode_settable w p) eqn:Hms.
  - destruct (launch_run p w2) as (w3 & E3 & F3 & M3 & C3 & P3 & I3 & L3);
      [right; by rewrite D2, Dd | done |].
    rewrite S2, Ds in E3, C3, P3, I3, L3. fold l in E3, C3, P3.
    exists (settled_outcome l), w3.
    split; [by rewrite E, (bind_returned _ _ _ _ _ E2)|].
    assert (K3 : kept p w2 w3).
    { pose proof (launch_kept p w2) as K. by rewrite E3 in K. }
    split; [by apply (kept_trans p w w2 w3)|].
    destruct F3 as (_ & Ld & _).
    split; [by rewrite Ld, D2, Dd|]. split; [by intros [?|?]|].
    intros _ _. rewrite M3, Hw, D2, Dd, Fm. done.
  - destruct (launch_throws p w2) as (e & E3).
    { unfold mode_settable in Hm. by apply orb_false_elim in Hm as [? _]. }
    { by right. }
    exists (Thrown e), w2.
    split; [by rewrite E, (bind_returned _ _ _ _ _ E2)|]. split; [done|].
    split; [by rewrite D2, Dd|]. split; [|done].
    intros _. split; [by eexists | congruence].
Qed.

(** The same when nothing stands in the way: the update check does not
    throw, the mode can be set and the launch succeeds. *)
Lemma startClient_launches w serverBinaryName :
  client_running (client (sup w)) = false →
  getServerBinaryName (host w) = Some serverBinaryName →
  let p := start_path rt serverBinaryName w in
  exists_path (disk (storage_ensured rt w)) p = true →
  Forall (λ a, a ≠ Some "Update") (answers (editor w)) →
  update_check_throws (stored_metadata (disk w) p)
    (latest_release (head (api_replies (net w))) serverBinaryName) = false →
  mode_settable w p = true →
  launch_succeeds w = true →
  ∃ w', startClient rt w = (Returned tt, w')
        ∧ files (disk w') = files (disk w)
        ∧ dirs (disk w') = dirs (disk (storage_ensured rt w))
        ∧ host w' = host w
        ∧ transfers (net w') = transfers (net w)
        ∧ download_requests (net w') = download_requests (net w)
        ∧ client (sup w')
          = Some {| client_id := next_id (sup w); command := p; state := Running |}
        ∧ spawned (sup w') = spawned (sup w) ++ [(next_id (sup w), p)]
        ∧ Forall (λ a, a ≠ Some "Update") (answers (editor w'))
        ∧ (∀ m, m ∈ messages (editor w) → m ∈ messages (editor w')).
Proof.
  intros R N p Hex Hans Ht Hm Hl.
  destruct (startClient_existing w serverBinaryName R N Hex Hans)
    as (o & w' & E & K & D & _ & H).
  destruct (H Ht Hm) as (Ho & C & P & _).
  fold p in K, C, P. unfold launch_succeeds in Hl.
  assert (Hs : settled_outcome (head (launches (sup w))) = Returned tt
               ∧ settled_state (head (launches (sup w))) = Running
               ∧ respawns (head (launches (sup w))) = 0%nat).
  { by destruct (head (launches (sup w))) as [[]|]. }
  destruct Hs as (Hs1 & Hs2 & Hs3). rewrite Hs1 in Ho. rewrite Hs2 in C. rewrite Hs3 in P.
  exists w'. split; [by rewrite E, Ho|].
  pose proof K as (Kf & _ & Kh & Kt & Kr & _).
  repeat split; try done.
  - by apply (kept_answers p w).
  - intros m. by apply (kept_message p w).
Qed.

Lemma showInformationMessage_kept p text w :
  ∃ w', showInformationMessage text w = (Returned tt, w') ∧ kept p w w'
        ∧ InformationMessage text ∈ messages (editor w') ∧ sup w' = sup w.
Proof.
  destruct (showInformationMessage_run text w) as (w' & E & S & M).
  exists w'. split; [done|]. split; [by apply (silent_kept p w w' _ S M)|].
  split; [|apply S]. rewrite M. apply elem_of_app. right. by left.
Qed.




(** The update command stops a running client first. *)
Lemma stop_for_update_frame w :
  ∃ w', (if client_running (client (sup w))
         then appendLine "Stopping LSP for update..." ;; client_stop ;;
              appendLine "LSP stopped."
         else mret tt) w = (Returned tt, w')
        ∧ disk w' = disk w ∧ host w' = host w ∧ net w' = net w
        ∧ messages (editor w') = messages (editor w)
        ∧ answers (editor w') = answers (editor w)
        ∧ next_id (sup w') = next_id (sup w) ∧ spawned (sup w') = spawned (sup w)
        ∧ launches (sup w') = launches (sup w)
        ∧ client_running (client (sup w')) = false
        ∧ (∀ c, client (sup w) = Some c → isRunning c = true →
             client (sup w')
             = Some {| client_id := client_id c; command := command c; state := Stopped |}).
Proof.
  destruct (client_running (client (sup w))) eqn:R.
  - unfold appendLine, client_stop. js_run. eexists. split; [reflexivity|].
    cbn. repeat split; [by destruct (client (sup w))|]. by intros c ->.
  - exists w. repeat split; try done. intros c Hc Hr.
    unfold client_running in R. rewrite Hc in R. congruence.
Qed.





End Override.



(** ** The start guard *)

Lemma slot_running w : slot (sup w) = SlotRunning → client_running (client (sup w)) = true.
Proof.
  unfold slot, client_running, isRunning.
  destruct (client (sup w)) as [c|]; [|done]. by destruct (state c).
Qed.

(** C5.  A start request while the client is running is a no-op: the
    whole world, and with it the client and the processes, is as
    before.  A start request while a first one is suspended in
    [client.start()] is not: from the world in which the first client
    is [Starting], with its one process, the second request creates
    another client and spawns a second process. *)
Theorem start_guard_misses_starting :
  (∀ rt w, slot (sup w) = SlotRunning → startClient rt w = (Returned tt, w))
  ∧ slot (sup first_start_suspended) = SlotStarting
  ∧ spawned (sup first_start_suspended) = [(0%nat, default_binary)]
  ∧ ∃ w', startClient node_posix first_start_suspended = (Returned tt, w')
          ∧ spawned (sup w') = [(0%nat, default_binary); (1%nat, default_binary)]
          ∧ client_id <$> client (sup w') = Some 1%nat.
Proof.
  split.
  - intros rt w H%slot_running. unfold startClient.
    by rewrite (bind_returned _ _ _ _ _ (startClient_provision_running rt w H)).
  - split; [vm_compute; reflexivity|]. split; [vm_compute; reflexivity|].
    eexists. split; [vm_compute; reflexivity|].
    split; vm_compute; reflexivity.
Qed.

(** ** Frames that hold of every run *)

Lemma always_ret {A} (R : World → World → Prop) `{!Reflexive R} (a : A) :
  always R (mret a).
Proof. intros w. apply reflexivity. Qed.

Lemma always_bind {A B} (R : World → World → Prop) `{!Transitive R}
    (m : JS A) (k : A → JS B) :
  always R m → (∀ a, always R (k a)) → always R (m ≫= k).
Proof.
  intros Hm Hk w. rewrite bind_run. specialize (Hm w).
  destruct (m w) as [[a|e|] w1]; [|done..].
  cbn [snd] in Hm. etrans; [exact Hm | apply Hk].
Qed.

Lemma always_try {A} (R : World → World → Prop) `{!Transitive R}
    (m : JS A) (h : string → JS A) :
  always R m → (∀ e, always R (h e)) → always R (try_catch m h).
Proof.
  intros Hm Hh w. unfold try_catch. specialize (Hm w).
  destruct (m w) as [[a|e|] w1]; [done| |done].
  cbn [snd] in Hm. etrans; [exact Hm | apply Hh].
Qed.

Lemma always_throw {A} (R : World → World → Prop) `{!Reflexive R} e :
  always R (@throw A e).
Proof. intros w. apply reflexivity. Qed.

Lemma always_pending {A} (R : World → World → Prop) `{!Reflexive R} :
  always R (@pending A).
Proof. intros w. apply reflexivity. Qed.

Lemma always_gets {A} (R : World → World → Prop) `{!Reflexive R} (f : World → A) :
  always R (gets f).
Proof. intros w. apply reflexivity. Qed.

Lemma always_silent {A} (R : World → World → Prop) (m : JS A) :
  (∀ w w', silent w w' → R w w') → always silent m → always R m.
Proof. intros H Hm w. apply H, Hm. Qed.

#[export] Instance silent_preorder : PreOrder silent.
Proof. split; [exact silent_refl | exact silent_trans]. Qed.

#[export] Instance quiet_preorder : PreOrder quiet.
Proof. split; [exact quiet_refl | exact quiet_trans]. Qed.

#[export] Instance provision_frame_preorder sp : PreOrder (provision_frame sp).
Proof.
  split.
  - intros w. by repeat split.
  - intros w1 w2 w3 (H1 & S1 & D1 & M1 & U1 & F1 & E1) (H2 & S2 & D2 & M2 & U2 & F2 & E2).
    repeat split; try congruence.
    + intros p Hp Hm. by rewrite F2, F1.
    + intros p Hp. by apply E2, E1.
Qed.

#[export] Instance launch_frame_preorder : PreOrder launch_frame.
Proof.
  split.
  - intros w. by repeat split.
  - intros w1 w2 w3 (?&?&?&?&?&?&?) (?&?&?&?&?&?&?). repeat split; congruence.
Qed.

Lemma quiet_provision_frame sp w w' : quiet w w' → provision_frame sp w w'.
Proof.
  intros (D & H & S & _). unfold provision_frame. rewrite D, H, S. by repeat split.
Qed.

Lemma silent_provision_frame sp w w' : silent w w' → provision_frame sp w w'.
Proof. intros H. by apply quiet_provision_frame, silent_quiet. Qed.

(** The steps of the host surface. *)

Lemma appendLine_silent line : always silent (appendLine line).
Proof. intros w. by repeat split. Qed.

Lemma console_log_silent line : always silent (console_log line).
Proof. intros w. by repeat split. Qed.

Lemma showErrorMessage_silent text : always silent (showErrorMessage text).
Proof. intros w. by repeat split. Qed.

Lemma showInformationMessage_silent text : always silent (showInformationMessage text).
Proof. intros w. by repeat split. Qed.

Lemma existsSync_silent p : always silent (existsSync p).
Proof. intros w. by repeat split. Qed.

Lemma readMetadata_silent binaryPath : always silent (readMetadata binaryPath).
Proof.
  intros w. destruct (readMetadata_run binaryPath w) as (w' & E & S & _). by rewrite E.
Qed.

Lemma getLatestReleaseInfo_quiet binaryName : always quiet (getLatestReleaseInfo binaryName).
Proof.
  intros w. destruct (getLatestReleaseInfo_run binaryName w) as (w' & E & Q & _).
  by rewrite E.
Qed.

Lemma askInformationMessage_frame sp text items :
  always (provision_frame sp) (askInformationMessage text items).
Proof. intros w. by repeat split. Qed.

Lemma axios_stream_frame sp url : always (provision_frame sp) (axios_stream url).
Proof.
  intros w. unfold axios_stream.
  destruct (head (transfers (net w))) as [[e|body]|]; by repeat split.
Qed.

Lemma store_frame sp p content w :
  p = sp ∨ p = getMetadataPath sp → provision_frame sp w (store p content w).
Proof.
  intros Hp. unfold provision_frame. cbn. repeat split; try done.
  - intros q H1 H2. apply lookup_insert_ne. by destruct Hp as [->| ->].
  - intros q Hq. destruct (decide (p = q)) as [->|Hne].
    + rewrite lookup_insert_eq. by eexists.
    + by rewrite lookup_insert_ne.
Qed.

Lemma pipe_to_file_frame sp response :
  always (provision_frame sp) (pipe_to_file response sp).
Proof.
  intros w. unfold pipe_to_file.
  destruct (can_open_for_writing (disk w) sp); [|apply reflexivity].
  destruct response; apply store_frame; by left.
Qed.

Lemma writeMetadata_frame sp metadata :
  always (provision_frame sp) (writeMetadata sp metadata).
Proof.
  intros w. unfold writeMetadata, try_catch, writeFileSync.
  destruct (can_open_for_writing (disk w) (getMetadataPath sp)).
  - apply store_frame. by right.
  - by repeat split.
Qed.

Create HintDb frames discriminated.

#[export] Hint Resolve appendLine_silent console_log_silent showErrorMessage_silent
  showInformationMessage_silent existsSync_silent readMetadata_silent
  getLatestReleaseInfo_quiet askInformationMessage_frame axios_stream_frame
  pipe_to_file_frame writeMetadata_frame : frames.

Lemma always_quiet {A} (R : World → World → Prop) (m : JS A) :
  (∀ w w', quiet w w' → R w w') → always quiet m → always R m.
Proof. intros H Hm w. apply H, Hm. Qed.

(** Decomposes a computation along its binds, handlers and branches;
    [known] closes the steps that have a frame lemma. *)
Ltac frame_steps R known :=
  repeat first
    [ solve [known]
    | apply (always_bind R); [|intros ?]
    | apply (always_try R); [|intros ?]
    | apply (always_ret R)
    | apply (always_throw R)
    | apply (always_pending R)
    | apply (always_gets R)
    | match goal with
      | |- always _ (if ?b then _ else _) => destruct b
      | |- always _ (match ?o with _ => _ end) => destruct o
      end ].

Ltac provision_known sp :=
  first
    [ solve [auto with frames]
    | apply (always_silent (provision_frame sp));
        [apply silent_provision_frame | solve [auto with frames]]
    | apply (always_quiet (provision_frame sp));
        [apply quiet_provision_frame | solve [auto with frames]]
    | intros ?; by repeat split ].

Lemma downloadBinary_frame filename destPath :
  always (provision_frame destPath) (downloadBinary filename destPath).
Proof.
  unfold downloadBinary, withProgress.
  frame_steps (provision_frame destPath) ltac:(provision_known destPath).
Qed.

Lemma bind_returned_inv {A B} (m : JS A) (k : A → JS B) w b w' :
  (m ≫= k) w = (Returned b, w') →
  ∃ a w1, m w = (Returned a, w1) ∧ k a w1 = (Returned b, w').
Proof.
  rewrite bind_run. destruct (m w) as [[a|e|] w1]; [|done..]. intros H. by exists a, w1.
Qed.

Lemma shouldUpdate_quiet rt binaryPath binaryName :
  always quiet (shouldUpdate rt binaryPath binaryName).
Proof.
  intros w. destruct (shouldUpdate_run rt binaryPath binaryName w) as (w' & E & Q & _).
  by rewrite E.
Qed.

#[export] Hint Resolve shouldUpdate_quiet downloadBinary_frame : frames.

Lemma install_or_update_frame rt serverBinaryName serverPath :
  always (provision_frame serverPath) (install_or_update rt serverBinaryName serverPath).
Proof.
  unfold install_or_update.
  frame_steps (provision_frame serverPath) ltac:(provision_known serverPath).
Qed.

(** ** What becomes of an install *)

Lemma downloadBinary_fate filename destPath w :
  match download_fate w destPath with
  | Installs body =>
      ∃ w', downloadBinary filename destPath w = (Returned tt, w')
            ∧ files (disk w')
              = installed_files (disk w) destPath body
                  (latest_release (head (api_replies (net w))) filename)
  | Rejects => ∃ e w', downloadBinary filename destPath w = (Thrown e, w')
  | Hangs => ∃ w', downloadBinary filename destPath w = (Pending, w')
  end.
Proof.
  unfold download_fate.
  destruct (head (transfers (net w))) as [[e|body]|] eqn:H.
  - destruct (downloadBinary_no_response filename destPath w) as (e' & w' & E & _);
      [by rewrite H | by eexists _, _].
  - destruct (can_open_for_writing (disk w) destPath) eqn:C.
    + destruct body as [body|written e|written].
      * destruct (downloadBinary_complete filename destPath w body H C)
          as (w' & E & _ & _ & _ & _ & _ & _ & F).
        exists w'. split; [done|]. rewrite F. unfold installed_files.
        by destruct (latest_release _ _).
      * rewrite (downloadBinary_writer_failed _ _ _ _ _ H C). by eexists _, _.
      * rewrite (downloadBinary_source_aborted _ _ _ _ H C). by eexists.
    + destruct (downloadBinary_cannot_open filename destPath w body H C)
        as (e' & w' & E & _). by eexists _, _.
  - destruct (downloadBinary_no_response filename destPath w) as (e' & w' & E & _);
      [by rewrite H | by eexists _, _].
Qed.


(** ** The metadata store *)

(** X1.  A sidecar that can be written reads back: after
    [writeMetadata], [readMetadata] returns an object whose [updated_at]
    and [tag_name] are the strings written, whatever characters they
    hold. *)
Theorem writeMetadata_then_readMetadata
    (binaryPath : string) (metadata : BinaryMetadata) (w : World) :
  can_open_for_writing (disk w) (getMetadataPath binaryPath) = true →
  ∃ w' v, writeMetadata binaryPath metadata w = (Returned tt, w')
          ∧ (readMetadata binaryPath w').1 = Returned v
          ∧ get_prop v "updated_at" = Some (JStr (updated_at metadata))
          ∧ get_prop v "tag_name" = Some (JStr (tag_name metadata)).
Proof.
  intros C.
  destruct (writeMetadata_run binaryPath metadata w)
    as (w' & E & _ & _ & _ & _ & _ & _ & _ & _ & F).
  rewrite C in F. exists w', (metadata_value metadata). split; [done|].
  split; [|done]. rewrite readMetadata_result. f_equal.
  apply stored_metadata_written. rewrite F. apply lookup_insert_eq.
Qed.

Lemma writeMetadata_then_readMetadata_witness :
  ∃ w' v, writeMetadata default_binary
            {| updated_at := "2024-03-01T12:00:00Z"; tag_name := String DQUOTE "quoted\tag" |}
            (installed_world offline []) = (Returned tt, w')
          ∧ (readMetadata default_binary w').1 = Returned v
          ∧ get_prop v "updated_at" = Some (JStr "2024-03-01T12:00:00Z")
          ∧ get_prop v "tag_name" = Some (JStr (String DQUOTE "quoted\tag")).
Proof.
  apply (writeMetadata_then_readMetadata default_binary
           {| updated_at := "2024-03-01T12:00:00Z"; tag_name := String DQUOTE "quoted\tag" |}
           (installed_world offline [])).
  vm_compute. reflexivity.
Defined.

(** X2.  [writeMetadata] never throws and writes nowhere but the
    sidecar: every other file, the binary among them, is as before;
    when the sidecar cannot be opened for writing the disk is unchanged
    and the failure is logged. *)
Theorem writeMetadata_only_touches_sidecar
    (binaryPath : string) (metadata : BinaryMetadata) (w : World) :
  ∃ w', writeMetadata binaryPath metadata w = (Returned tt, w')
        ∧ host w' = host w ∧ net w' = net w ∧ sup w' = sup w
        ∧ (∀ p, p ≠ getMetadataPath binaryPath →
                files (disk w') !! p = files (disk w) !! p)
        ∧ files (disk w') !! binaryPath = files (disk w) !! binaryPath
        ∧ (can_open_for_writing (disk w) (getMetadataPath binaryPath) = false →
             disk w' = disk w
             ∧ outputChannel (editor w')
               = outputChannel (editor w)
                 ++ ["Failed to write metadata: "
                     +:+ open_error (disk w) (getMetadataPath binaryPath)]).
Proof.
  unfold writeMetadata, try_catch, writeFileSync.
  destruct (can_open_for_writing (disk w) (getMetadataPath binaryPath)).
  - eexists. split; [reflexivity|]. cbn. repeat split; try done.
    + intros p Hp. by apply lookup_insert_ne.
    + apply lookup_insert_ne, getMetadataPath_ne.
  - eexists. split; [reflexivity|]. by repeat split.
Qed.

(** X3.  [readMetadata] never throws and changes nothing but the log: a
    missing sidecar, a directory in its place and content that is not
    JSON all read as [null], the last two with a log line; content
    that is JSON reads as its value. *)
Theorem readMetadata_never_throws (binaryPath : string) (w : World) :
  ∃ v w', readMetadata binaryPath w = (Returned v, w')
          ∧ disk w' = disk w ∧ host w' = host w ∧ net w' = net w ∧ sup w' = sup w
          ∧ (files (disk w) !! getMetadataPath binaryPath = None → v = JNull)
          ∧ (files (disk w) !! getMetadataPath binaryPath = None →
             getMetadataPath binaryPath ∈ dirs (disk w) →
             length (outputChannel (editor w')) = S (length (outputChannel (editor w))))
          ∧ (∀ content, files (disk w) !! getMetadataPath binaryPath = Some content →
               match JSON.parse content with
               | Some value => v = value ∧ editor w' = editor w
               | None =>
                   v = JNull
                   ∧ length (outputChannel (editor w'))
                     = S (length (outputChannel (editor w)))
               end).
Proof.
  unfold readMetadata. js_step. unfold exists_path.
  destruct (files (disk w) !! getMetadataPath binaryPath) as [content|] eqn:F.
  - cbn [negb]. unfold try_catch. rewrite bind_run. unfold readFileSync. rewrite F.
    unfold JSON_parse. destruct (JSON.parse content) as [value|] eqn:P.
    + eexists _, _. split; [reflexivity|]. repeat split; try done.
      intros c [= <-]. by rewrite P.
    + eexists _, _. split; [reflexivity|]. repeat split; try done.
      intros c [= <-]. rewrite P. split; [done|]. cbn. by rewrite length_app, Nat.add_1_r.
  - destruct (bool_decide (getMetadataPath binaryPath ∈ dirs (disk w))) eqn:D; cbn [negb].
    + unfold try_catch. rewrite bind_run. unfold readFileSync. rewrite F.
      eexists _, _. split; [reflexivity|]. cbn. repeat split; try done.
      intros _ _. by rewrite length_app, Nat.add_1_r.
    + eexists _, _. split; [reflexivity|]. repeat split; try done.
      intros _ Hd. apply bool_decide_eq_false in D. done.
Qed.

(** ** The update decision *)


(** ** [downloadBinary] in every outcome *)

#[export] Instance same_downloads_preorder : PreOrder same_downloads.
Proof.
  split.
  - intros w. by split.
  - intros w1 w2 w3 [??] [??]. split; congruence.
Qed.

Lemma quiet_same_downloads w w' : quiet w w' → same_downloads w w'.
Proof. intros (_ & _ & _ & _ & T & R). by split. Qed.

Lemma pipe_to_file_same_downloads response destPath :
  always same_downloads (pipe_to_file response destPath).
Proof.
  intros w. unfold pipe_to_file.
  destruct (can_open_for_writing (disk w) destPath); [|by split].
  by destruct response.
Qed.

Lemma writeMetadata_same_downloads binaryPath metadata :
  always same_downloads (writeMetadata binaryPath metadata).
Proof.
  intros w. destruct (writeMetadata_run binaryPath metadata w) as (w' & E & _ & N & _).
  rewrite E. cbn [snd]. unfold same_downloads. by rewrite N.
Qed.

Ltac downloads_known :=
  first
    [ apply pipe_to_file_same_downloads
    | apply writeMetadata_same_downloads
    | apply (always_quiet same_downloads);
        [apply quiet_same_downloads | solve [auto with frames]]
    | apply (always_silent same_downloads);
        [intros ???; by apply quiet_same_downloads, silent_quiet | solve [auto with frames]] ].

(** X5.  Whatever becomes of a download (success, rejection, a promise
    that never settles), [downloadBinary] sends exactly one request, for
    the artifact of that name, and on disk it can change only the
    destination and its sidecar: every other file is as before, no file
    disappears, and directories, modes, host and supervisor are
    untouched. *)
Theorem downloadBinary_scope (filename destPath : string) (w : World) :
  let w' := (downloadBinary filename destPath w).2 in
  download_requests (net w') = download_requests (net w) ++ [downloadUrl filename]
  ∧ transfers (net w') = tail (transfers (net w))
  ∧ host w' = host w ∧ sup w' = sup w
  ∧ dirs (disk w') = dirs (disk w) ∧ modes (disk w') = modes (disk w)
  ∧ (∀ p, p ≠ destPath → p ≠ getMetadataPath destPath →
          files (disk w') !! p = files (disk w) !! p)
  ∧ (∀ p, is_Some (files (disk w) !! p) → is_Some (files (disk w') !! p)).
Proof.
  intros w'.
  destruct (downloadBinary_frame filename destPath w) as (H & S & D & M & _ & F & E).
  fold w' in H, S, D, M, F, E.
  assert (Hd : download_requests (net w') = download_requests (net w) ++ [downloadUrl filename]
               ∧ transfers (net w') = tail (transfers (net w))).
  { subst w'. rewrite downloadBinary_unfold, bind_run.
    set (w0 := download_announced filename destPath w).
    assert (H0 : ∀ o w1, axios_stream (downloadUrl filename) w0 = (o, w1) →
                 download_requests (net w1) = download_requests (net w) ++ [downloadUrl filename]
                 ∧ transfers (net w1) = tail (transfers (net w))).
    { unfold axios_stream. intros o w1.
      destruct (head (transfers (net w0))) as [[e|body]|]; intros [= _ <-]; by split. }
    destruct (axios_stream (downloadUrl filename) w0) as [[body|e|] w1] eqn:E0;
      destruct (H0 _ _ eq_refl) as [R1 T1]; [|done..].
    match goal with
    | |- context [(?m ≫= ?k) w1] =>
        assert (Hk : always same_downloads (m ≫= k))
    end.
    { frame_steps same_downloads ltac:(downloads_known). }
    destruct (Hk w1) as [R2 T2]. split; congruence. }
  destruct Hd. by repeat split.
Qed.

(** X6.  [downloadBinary] resolves only after a complete transfer into a
    destination that could be opened, and then the destination holds
    exactly the body received. *)
Theorem downloadBinary_resolves_with_body (filename destPath : string) (w w' : World) :
  downloadBinary filename destPath w = (Returned tt, w') →
  ∃ body, head (transfers (net w)) = Some (Response (Complete body))
          ∧ can_open_for_writing (disk w) destPath = true
          ∧ files (disk w') !! destPath = Some body.
Proof.
  intros E.
  destruct (downloadBinary_returned filename destPath w w' E) as (body & H & C).
  exists body. split; [done|]. split; [done|].
  destruct (downloadBinary_complete filename destPath w body H C)
    as (w1 & E1 & _ & _ & _ & _ & _ & _ & F).
  rewrite E in E1. injection E1 as <-. rewrite F.
  assert (Hne : getMetadataPath destPath ≠ destPath) by apply getMetadataPath_ne.
  destruct (latest_release (head (api_replies (net w))) filename) as [info|];
    [destruct (can_open_for_writing (disk w) (getMetadataPath destPath))|].
  - rewrite lookup_insert_ne by done. apply lookup_insert_eq.
  - apply lookup_insert_eq.
  - apply lookup_insert_eq.
Qed.


Lemma downloadBinary_resolves_with_body_witness :
  ∃ body, head (transfers (net update_ready_world)) = Some (Response (Complete body))
          ∧ can_open_for_writing (disk update_ready_world) default_binary = true
          ∧ files (disk (downloadBinary "forgevsc-linux-x86_64" default_binary
                           update_ready_world).2) !! default_binary = Some body.
Proof.
  apply (downloadBinary_resolves_with_body "forgevsc-linux-x86_64" default_binary
           update_ready_world).
  vm_compute. reflexivity.
Defined.

(** X7.  When the request for the artifact fails, or the destination
    cannot be opened for writing, [downloadBinary] rejects with the disk
    exactly as before, and it does not query the release index. *)
Theorem downloadBinary_rejects_before_writing (filename destPath : string) (w : World) :
  (∀ body, head (transfers (net w)) ≠ Some (Response body))
  ∨ can_open_for_writing (disk w) destPath = false →
  ∃ e w', downloadBinary filename destPath w = (Thrown e, w')
          ∧ disk w' = disk w ∧ sup w' = sup w
          ∧ api_requests (net w') = api_requests (net w)
          ∧ api_replies (net w') = api_replies (net w).
Proof.
  intros Hfail. rewrite downloadBinary_unfold.
  destruct (download_requested_frame filename destPath w) as (D & _ & S & Rp & Rq & _).
  destruct (head (transfers (net w))) as [[e|body]|] eqn:H.
  - destruct (axios_stream_no_response filename destPath w) as (e' & E); [by rewrite H|].
    rewrite (bind_thrown _ _ _ _ _ E). by eexists _, _.
  - destruct Hfail as [Hno|C]; [by destruct (Hno body)|].
    rewrite (bind_returned _ _ _ _ _ (axios_stream_response filename destPath w body H)).
    rewrite bind_run. unfold pipe_to_file. rewrite D, C. by eexists _, _.
  - destruct (axios_stream_no_response filename destPath w) as (e' & E); [by rewrite H|].
    rewrite (bind_thrown _ _ _ _ _ E). by eexists _, _.
Qed.


Lemma downloadBinary_rejects_before_writing_witness :
  ∃ e w', downloadBinary "forgevsc-linux-x86_64" default_binary refused_download_world
            = (Thrown e, w')
          ∧ disk w' = disk refused_download_world ∧ sup w' = sup refused_download_world
          ∧ api_requests (net w') = api_requests (net refused_download_world)
          ∧ api_replies (net w') = api_replies (net refused_download_world).
Proof.
  apply downloadBinary_rejects_before_writing. left. intros body. discriminate.
Defined.

(** ** The install and update block, case by case *)

Lemma installed_files_binary d destPath body info :
  installed_files d destPath body info !! destPath = Some body.
Proof.
  unfold installed_files.
  assert (Hne : getMetadataPath destPath ≠ destPath) by apply getMetadataPath_ne.
  destruct info as [info|]; [destruct (can_open_for_writing d (getMetadataPath destPath))|].
  - rewrite lookup_insert_ne by done. apply lookup_insert_eq.
  - apply lookup_insert_eq.
  - apply lookup_insert_eq.
Qed.

Lemma provision_frame_exists sp w w' p :
  provision_frame sp w w' → exists_path (disk w) p = true → exists_path (disk w') p = true.
Proof.
  intros (_ & _ & D & _ & _ & _ & E). unfold exists_path. rewrite D.
  destruct (files (disk w) !! p) as [c|] eqn:F.
  - destruct (E p) as [c' ->]; [by eexists | done].
  - intros H. by destruct (files (disk w') !! p).
Qed.

Lemma download_fate_ext w w' destPath :
  transfers (net w') = transfers (net w) →
  dirs (disk w') = dirs (disk w) →
  unwritable (disk w') = unwritable (disk w) →
  download_fate w' destPath = download_fate w destPath.
Proof.
  intros T D U. unfold download_fate, can_open_for_writing. by rewrite T, D, U.
Qed.

Lemma download_fate_installs w destPath body :
  download_fate w destPath = Installs body →
  head (transfers (net w)) = Some (Response (Complete body))
  ∧ can_open_for_writing (disk w) destPath = true.
Proof.
  unfold download_fate.
  destruct (head (transfers (net w))) as [[e|[b|written e|written]]|]; try done;
    destruct (can_open_for_writing (disk w) destPath); try done.
  by intros [= ->].
Qed.

(** The mode of a file that can be opened for writing can be set. *)
Lemma mode_settable_of_open w w' p :
  can_open_for_writing (disk w) p = true →
  unwritable (disk w') = unwritable (disk w) →
  mode_settable w' p = true.
Proof.
  unfold can_open_for_writing, mode_settable. intros [_ H]%andb_prop U.
  rewrite U, H. apply orb_true_r.
Qed.

Section InstallOrUpdate.

Variable rt : Runtime.

(** When the block hands a path to the launch, it is the path it was
    given, and something exists there. *)
Lemma install_or_update_returns serverBinaryName serverPath w x w' :
  install_or_update rt serverBinaryName serverPath w = (Returned x, w') →
  x = None ∨ (x = Some serverPath ∧ exists_path (disk w') serverPath = true).
Proof.
  intros H.
  pose proof (install_or_update_frame rt serverBinaryName serverPath w) as Hf.
  rewrite H in Hf. cbn [snd] in Hf.
  unfold install_or_update in H. rewrite bind_run in H. cbn [existsSync gets] in H.
  destruct (exists_path (disk w) serverPath) eqn:Hex; cbn [negb] in H.
  - apply bind_returned_inv in H as (upd & w2 & _ & H).
    apply bind_returned_inv in H as ([] & w3 & _ & [= <- <-]).
    right. split; [done|]. by apply (provision_frame_exists serverPath w).
  - apply bind_returned_inv in H as (choice & w2 & _ & H).
    destruct (bool_decide (choice = Some "Download")); [|left; by injection H].
    unfold try_catch in H.
    match type of H with
    | context [match ?body w2 with _ => _ end] =>
        destruct (body w2) as [[y|e|] w3] eqn:Eb
    end.
    + injection H as <- <-.
      apply bind_returned_inv in Eb as ([] & w4 & Ed & Eb).
      apply bind_returned_inv in Eb as ([] & w5 & Es & [= <- <-]).
      right. split; [done|].
      destruct (downloadBinary_returned _ _ _ _ Ed) as (body & Ht & C).
      destruct (downloadBinary_complete serverBinaryName serverPath w2 body Ht C)
        as (w4' & E4 & _ & _ & _ & _ & _ & _ & F).
      rewrite Ed in E4. injection E4 as <-.
      destruct (showInformationMessage_run "ForgeLSP binary downloaded successfully." w4)
        as (w5' & E5 & (Sd & _) & _).
      rewrite Es in E5. injection E5 as <-. rewrite Sd.
      apply (exists_path_file _ _ body). rewrite F.
      exact (installed_files_binary (disk w2) serverPath body
               (latest_release (head (api_replies (net w2))) serverBinaryName)).
    + left.
      apply bind_returned_inv in H as ([] & w4 & _ & H).
      apply bind_returned_inv in H as ([] & w5 & _ & H). by injection H.
    + discriminate.
Qed.

(** The binary is missing and the user agrees to the download. *)
Lemma install_first_time serverBinaryName serverPath w :
  exists_path (disk w) serverPath = false →
  mjoin (head (answers (editor w))) = Some "Download" →
  ∃ w2, disk w2 = disk w ∧ host w2 = host w ∧ net w2 = net w ∧ sup w2 = sup w
        ∧ answers (editor w2) = tail (answers (editor w))
        ∧ install_or_update rt serverBinaryName serverPath w
          = try_catch
              (downloadBinary serverBinaryName serverPath ;;
               showInformationMessage "ForgeLSP binary downloaded successfully." ;;
               mret (Some serverPath))
              (λ error,
                 showErrorMessage ("ForgeLSP: Failed to download binary. " +:+ error) ;;
                 appendLine ("ForgeLSP: Failed to download binary. " +:+ error) ;;
                 mret None) w2.
Proof.
  intros Hex Hans. unfold install_or_update. js_step. rewrite Hex. cbn [negb].
  destruct (askInformationMessage_run
              ("ForgeLSP binary not found. Download " +:+ serverBinaryName +:+ "?")
              ["Download"; "Cancel"] w) as (w2 & E2 & Ad & Ah & An & As & Aa & Am).
  rewrite (bind_returned _ _ _ _ _ E2), Hans.
  rewrite bool_decide_eq_true_2 by done.
  exists w2. by repeat split.
Qed.

(** The binary is there, an update is available and the user accepts it. *)
Lemma install_update_accepted serverBinaryName serverPath w :
  exists_path (disk w) serverPath = true →
  update_available rt (stored_metadata (disk w) serverPath)
    (latest_release (head (api_replies (net w))) serverBinaryName) = true →
  mjoin (head (answers (editor w))) = Some "Update" →
  ∃ w2, disk w2 = disk w ∧ host w2 = host w ∧ sup w2 = sup w
        ∧ transfers (net w2) = transfers (net w)
        ∧ download_requests (net w2) = download_requests (net w)
        ∧ api_replies (net w2) = tail (api_replies (net w))
        ∧ answers (editor w2) = tail (answers (editor w))
        ∧ install_or_update rt serverBinaryName serverPath w
          = (try_catch
               (appendLine "Updating ForgeLSP binary..." ;;
                downloadBinary serverBinaryName serverPath ;;
                showInformationMessage "ForgeLSP binary updated successfully.")
               (λ error,
                  showErrorMessage ("ForgeLSP: Failed to update binary. " +:+ error) ;;
                  appendLine ("ForgeLSP: Failed to update binary. " +:+ error)) ;;
             mret (Some serverPath)) w2.
Proof.
  intros Hex Hup Hans. unfold install_or_update. js_step. rewrite Hex. cbn [negb].
  destruct (shouldUpdate_run rt serverPath serverBinaryName w)
    as (w1 & E1 & (Qd & Qh & Qs & Qa & Qt & Qr) & M1 & _).
  rewrite (update_available_no_throw _ _ _ Hup) in E1.
  rewrite (bind_returned _ _ _ _ _ E1), Hup.
  assert (Hrep : api_replies (net w1) = tail (api_replies (net w))).
  { unfold update_available in Hup. apply andb_prop in Hup as [Ht _].
    unfold shouldUpdate in E1.
    destruct (readMetadata_run serverPath w) as (wa & Ea & (_ & _ & _ & Na & _) & _).
    rewrite (bind_returned _ _ _ _ _ Ea), Ht in E1. cbn [negb] in E1.
    destruct (getLatestReleaseInfo_run serverBinaryName wa) as (wb & Eb & _ & Rb & _).
    rewrite (bind_returned _ _ _ _ _ Eb) in E1.
    assert (wb = w1) as <-.
    { destruct (latest_release (head (api_replies (net wa))) serverBinaryName);
        [|by injection E1].
      unfold new_Date in E1.
      destruct (Date_throws (get_prop (stored_metadata (disk w) serverPath) "updated_at"));
        by injection E1. }
    by rewrite Rb, Na. }
  destruct (askInformationMessage_run
              "A new version of ForgeLSP is available. Update now?"
              ["Update"; "Skip"] w1) as (w2 & E2 & Ad & Ah & An & As & Aa & Am).
  rewrite bind_run. rewrite (bind_returned _ _ _ _ _ E2).
  rewrite Qa, Hans. rewrite bool_decide_eq_true_2 by done.
  exists w2. rewrite <- bind_run. repeat split; congruence.
Qed.

End InstallOrUpdate.

(** ** Start requests from beginning to end *)

Section StartRequests.

Variable rt : Runtime.

(** X8.  A start request creates at most one client.  Either the
    supervisor is exactly as before, or the [client] variable holds a
    new client for a path that exists on disk, and every process the
    request has spawned is of that client and runs that path.  When
    the request returns, the client is [Running] and exactly one
    process has been spawned; a launch that succeeds makes it return.
    Only a launch that does not succeed leaves more processes: the
    error handler answers [Restart] each time the connection is
    closed.  On a host other than Windows the mode of the binary is
    755. *)
Theorem startClient_creates_at_most_one_client (w : World) :
  ∃ o w', startClient rt w = (o, w')
    ∧ (sup w' = sup w
       ∨ ∃ serverPath c k,
           client (sup w') = Some c
           ∧ client_id c = next_id (sup w) ∧ command c = serverPath
           ∧ spawned (sup w')
             = spawned (sup w) ++ replicate (S k) (next_id (sup w), serverPath)
           ∧ (o = Returned tt → state c = Running ∧ k = 0%nat)
           ∧ (launch_succeeds w = true → o = Returned tt)
           ∧ exists_path (disk w') serverPath = true
           ∧ (on_windows w = false → modes (disk w') !! serverPath = Some "755")).
Proof.
  destruct (client_running (client (sup w))) eqn:R.
  { exists (Returned tt), w. split; [|by left]. unfold startClient.
    by rewrite (bind_returned _ _ _ _ _ (startClient_provision_running rt w R)). }
  destruct (getServerBinaryName (host w)) as [n|] eqn:N; cycle 1.
  { eexists _, _. unfold startClient.
    rewrite (bind_returned _ _ _ _ _ (startClient_provision_unsupported rt w R N)).
    split; [reflexivity|]. by left. }
  destruct (startClient_via_install rt w n R N) as (w1 & E & Dd & Dh & Dn & Ds & Da & Dm).
  rewrite E, bind_run. set (sp := start_path rt n w).
  pose proof (install_or_update_frame rt n sp w1) as Hf.
  destruct (install_or_update rt n sp w1) as [[x|e|] w2] eqn:Ei; cbn [snd] in Hf;
    destruct Hf as (Fh & Fs & _).
  - destruct (install_or_update_returns rt n sp w1 x w2 Ei) as [->|[-> Hex]].
    + eexists _, _. split; [reflexivity|]. left. congruence.
    + destruct (chmod_unless_windows_cases sp w2) as [[Hwe Hm]|[W H]].
      * destruct (launch_run sp w2 Hwe Hm)
          as (w3 & E3 & (Lf & Ld & _) & Lm & Lc & Ls & _).
        rewrite E3. eexists _, _. split; [reflexivity|]. right.
        assert (Hw : on_windows w2 = on_windows w).
        { unfold on_windows. by rewrite Fh, Dh. }
        rewrite Fs, Ds in Lc, Ls |- *. rewrite Hw in Lm.
        eexists sp, _, _. split; [exact Lc|]. split; [done|]. split; [done|].
        split; [exact Ls|]. unfold launch_succeeds. split; [|split; [|split]].
        { by destruct (head (launches (sup w))) as [[]|]. }
        { by destruct (head (launches (sup w))) as [[]|]. }
        { unfold exists_path in *. by rewrite Lf, Ld. }
        intros W. rewrite Lm, W. apply lookup_insert_eq.
      * destruct (launch_throws sp w2 W H) as (e & E3). rewrite E3.
        eexists _, _. split; [reflexivity|]. left. congruence.
  - eexists _, _. split; [reflexivity|]. left. congruence.
  - eexists _, _. split; [reflexivity|]. left. congruence.
Qed.

(** X9.  Whatever a start request does and however it ends, on disk it
    can change only the binary it settles on and that binary's sidecar:
    every other file is as before, no file disappears, no directory
    disappears, and the host is untouched. *)
Theorem startClient_scope (w : World) (serverBinaryName : string) :
  getServerBinaryName (host w) = Some serverBinaryName →
  let w' := (startClient rt w).2 in
  let serverPath := start_path rt serverBinaryName w in
  host w' = host w
  ∧ (∀ p, p ≠ serverPath → p ≠ getMetadataPath serverPath →
          files (disk w') !! p = files (disk w) !! p)
  ∧ (∀ p, is_Some (files (disk w) !! p) → is_Some (files (disk w') !! p))
  ∧ dirs (disk w) ⊆ dirs (disk w').
Proof.
  intros N w' sp.
  destruct (client_running (client (sup w))) eqn:R.
  { subst w'. unfold startClient.
    rewrite (bind_returned _ _ _ _ _ (startClient_provision_running rt w R)). done. }
  destruct (startClient_via_install rt w serverBinaryName R N)
    as (w1 & E & Dd & Dh & _).
  destruct (storage_ensured_frame rt w) as (Ff & _ & _ & _ & _ & _ & _ & Fd).
  assert (H1 : host w1 = host w ∧ files (disk w1) = files (disk w)
               ∧ dirs (disk w) ⊆ dirs (disk w1)).
  { rewrite Dd. by repeat split. }
  destruct H1 as (H1h & H1f & H1d).
  assert (Hgoal : ∀ w2, provision_frame sp w1 w2 →
            host w2 = host w
            ∧ (∀ p, p ≠ sp → p ≠ getMetadataPath sp →
                    files (disk w2) !! p = files (disk w) !! p)
            ∧ (∀ p, is_Some (files (disk w) !! p) → is_Some (files (disk w2) !! p))
            ∧ dirs (disk w) ⊆ dirs (disk w2)).
  { intros w2 (Ph & _ & Pd & _ & _ & Pf & Pe). rewrite Ph, Pd, <- H1f.
    repeat split; try done. }
  subst w'. rewrite E, bind_run. fold sp.
  pose proof (install_or_update_frame rt serverBinaryName sp w1) as Hf.
  destruct (install_or_update rt serverBinaryName sp w1) as [[[x|]|e|] w2];
    cbn [snd] in Hf |- *; try by apply Hgoal.
  pose proof (launch_always_frame x w2) as (Lf & Ld & _ & Lh & _).
  destruct (Hgoal w2 Hf) as (G1 & G2 & G3 & G4).
  rewrite Lf, Ld, Lh. done.
Qed.

End StartRequests.

Lemma startClient_scope_witness :
  let w' := (startClient node_posix update_accepted_world).2 in
  host w' = host update_accepted_world
  ∧ (∀ p, p ≠ default_binary → p ≠ getMetadataPath default_binary →
          files (disk w') !! p = files (disk update_accepted_world) !! p)
  ∧ (∀ p, is_Some (files (disk update_accepted_world) !! p) →
          is_Some (files (disk w') !! p))
  ∧ dirs (disk update_accepted_world) ⊆ dirs (disk w').
Proof.
  apply (startClient_scope node_posix update_accepted_world "forgevsc-linux-x86_64").
  reflexivity.
Defined.


Section EndToEnd.

Variable rt : Runtime.

(** The world in which the download of a start request begins sees the
    same fate as the world once the storage directory is ensured. *)
Lemma download_fate_in_start w w1 w2 sp :
  disk w1 = disk (storage_ensured rt w) → net w1 = net w →
  disk w2 = disk w1 → transfers (net w2) = transfers (net w1) →
  download_fate w2 sp = download_fate (storage_ensured rt w) sp.
Proof.
  intros D1 N1 D2 T2.
  destruct (storage_ensured_frame rt w) as (_ & _ & _ & _ & Fn & _).
  apply download_fate_ext; congruence.
Qed.

(** X10.  A first install that completes ends with the server running:
    with no client running, a supported platform, nothing at the path
    the request settles on, the user answering Download, a transfer
    that completes into a destination that can be opened and a launch
    that succeeds, the start request returns; the binary holds the body
    received, the sidecar is written if the release index answers, the
    one process spawned runs the binary, and on a host other than
    Windows its mode is 755. *)
Theorem first_install_ends_running (w : World) (serverBinaryName body : string) :
  client_running (client (sup w)) = false →
  getServerBinaryName (host w) = Some serverBinaryName →
  exists_path (disk (storage_ensured rt w)) (start_path rt serverBinaryName w) = false →
  mjoin (head (answers (editor w))) = Some "Download" →
  download_fate (storage_ensured rt w) (start_path rt serverBinaryName w) = Installs body →
  launch_succeeds w = true →
  let serverPath := start_path rt serverBinaryName w in
  ∃ w', startClient rt w = (Returned tt, w')
        ∧ files (disk w') !! serverPath = Some body
        ∧ files (disk w')
          = installed_files (disk (storage_ensured rt w)) serverPath body
              (latest_release (head (api_replies (net w))) serverBinaryName)
        ∧ client (sup w')
          = Some {| client_id := next_id (sup w); command := serverPath; state := Running |}
        ∧ spawned (sup w') = spawned (sup w) ++ [(next_id (sup w), serverPath)]
        ∧ (on_windows w = false → modes (disk w') !! serverPath = Some "755").
Proof.
  intros R N Hmiss Hans Hfate Hlaunch sp.
  destruct (startClient_via_install rt w serverBinaryName R N)
    as (w1 & E & Dd & Dh & Dn & Ds & Da & Dm).
  fold sp in E, Hmiss, Hfate.
  destruct (install_first_time rt serverBinaryName sp w1)
    as (w2 & Ad & Ah & An & As & Aa & Ei); [by rewrite Dd | by rewrite Da |].
  pose proof (downloadBinary_fate serverBinaryName sp w2) as Hd.
  rewrite (download_fate_in_start w w1 w2 sp Dd Dn Ad (f_equal transfers An)), Hfate in Hd.
  destruct Hd as (w3 & Ed & F3).
  destruct (downloadBinary_frame serverBinaryName sp w2) as (Fh & Fs & _ & _ & Fu & _).
  rewrite Ed in Fh, Fs, Fu. cbn [snd] in Fh, Fs, Fu.
  destruct (download_fate_installs _ _ _ Hfate) as (_ & Co).
  destruct (showInformationMessage_run "ForgeLSP binary downloaded successfully." w3)
    as (w4 & E4 & (Sd & Sh & Ss & _) & _).
  assert (Ei' : install_or_update rt serverBinaryName sp w1 = (Returned (Some sp), w4)).
  { rewrite Ei. apply try_returned.
    rewrite (bind_returned _ _ _ _ _ Ed). by rewrite (bind_returned _ _ _ _ _ E4). }
  rewrite E, (bind_returned _ _ _ _ _ Ei').
  assert (F4 : files (disk w4)
               = installed_files (disk (storage_ensured rt w)) sp body
                   (latest_release (head (api_replies (net w))) serverBinaryName)).
  { rewrite Sd, F3, Ad, Dd, An, Dn. done. }
  assert (Hex : exists_path (disk w4) sp = true).
  { apply (exists_path_file _ _ body). rewrite F4. apply installed_files_binary. }
  assert (S4 : sup w4 = sup w) by congruence.
  assert (H4 : host w4 = host w) by congruence.
  assert (Hl : launch_succeeds w4 = true).
  { unfold launch_succeeds in *. by rewrite S4. }
  assert (Hm : mode_settable w4 sp = true).
  { apply (mode_settable_of_open (storage_ensured rt w)); [done|]. by rewrite Sd, Fu, Ad, Dd. }
  destruct (launch_spec sp w4) as (w5 & E5 & (Lf & _) & Lm & Lc & Ls & _);
    [by right | done | done |].
  assert (Hw : on_windows w4 = on_windows w).
  { unfold on_windows. by rewrite H4. }
  rewrite Hw in Lm. rewrite S4 in Lc, Ls.
  exists w5. split; [done|]. rewrite Lf, F4.
  split; [apply installed_files_binary|]. split; [done|]. split; [done|].
  split; [done|]. intros W. rewrite Lm, W. apply lookup_insert_eq.
Qed.

(** X11.  A first install that fails starts nothing: under the same
    conditions but with a download that is rejected (request refused,
    destination that cannot be opened, writer failing), the start
    request still returns normally, the failure is shown, and the
    supervisor is as before: no client, no process. *)
Theorem failed_first_install_starts_nothing (w : World) (serverBinaryName : string) :
  client_running (client (sup w)) = false →
  getServerBinaryName (host w) = Some serverBinaryName →
  exists_path (disk (storage_ensured rt w)) (start_path rt serverBinaryName w) = false →
  mjoin (head (answers (editor w))) = Some "Download" →
  download_fate (storage_ensured rt w) (start_path rt serverBinaryName w) = Rejects →
  ∃ w' e, startClient rt w = (Returned tt, w')
          ∧ sup w' = sup w
          ∧ ErrorMessage ("ForgeLSP: Failed to download binary. " +:+ e)
            ∈ messages (editor w').
Proof.
  intros R N Hmiss Hans Hfate.
  destruct (startClient_via_install rt w serverBinaryName R N)
    as (w1 & E & Dd & Dh & Dn & Ds & Da & Dm).
  set (sp := start_path rt serverBinaryName w) in *.
  destruct (install_first_time rt serverBinaryName sp w1)
    as (w2 & Ad & Ah & An & As & Aa & Ei); [by rewrite Dd | by rewrite Da |].
  pose proof (downloadBinary_fate serverBinaryName sp w2) as Hd.
  rewrite (download_fate_in_start w w1 w2 sp Dd Dn Ad (f_equal transfers An)), Hfate in Hd.
  destruct Hd as (e & w3 & Ed).
  destruct (downloadBinary_frame serverBinaryName sp w2) as (_ & Fs & _).
  rewrite Ed in Fs. cbn [snd] in Fs.
  destruct (showErrorMessage_run ("ForgeLSP: Failed to download binary. " +:+ e) w3)
    as (w4 & E4 & (_ & _ & S4 & _) & M4).
  destruct (appendLine_run ("ForgeLSP: Failed to download binary. " +:+ e) w4)
    as (w5 & E5 & (_ & _ & S5 & _) & M5).
  assert (Ei' : install_or_update rt serverBinaryName sp w1 = (Returned None, w5)).
  { rewrite Ei. erewrite try_thrown; [|by rewrite (bind_thrown _ _ _ _ _ Ed)].
    cbn beta. rewrite (bind_returned _ _ _ _ _ E4). by rewrite (bind_returned _ _ _ _ _ E5). }
  rewrite E, (bind_returned _ _ _ _ _ Ei').
  exists w5, e. split; [done|]. split; [congruence|].
  rewrite M5, M4. apply elem_of_app. right. by left.
Qed.

(** X12.  An accepted update that completes replaces the binary and
    ends with the server running: with the binary in place, an update
    available, the user answering Update, a transfer that completes and
    a launch that succeeds, the start request returns; the binary holds
    the body received, the process spawned runs it, and when the release
    index answers the query that follows the download and the sidecar
    can be written, [readMetadata] returns the metadata of that
    release. *)
Theorem accepted_update_replaces_binary (w : World) (serverBinaryName body : string) :
  client_running (client (sup w)) = false →
  getServerBinaryName (host w) = Some serverBinaryName →
  exists_path (disk (storage_ensured rt w)) (start_path rt serverBinaryName w) = true →
  update_available rt
    (stored_metadata (disk (storage_ensured rt w)) (start_path rt serverBinaryName w))
    (latest_release (head (api_replies (net w))) serverBinaryName) = true →
  mjoin (head (answers (editor w))) = Some "Update" →
  download_fate (storage_ensured rt w) (start_path rt serverBinaryName w) = Installs body →
  launch_succeeds w = true →
  let serverPath := start_path rt serverBinaryName w in
  ∃ w', startClient rt w = (Returned tt, w')
        ∧ files (disk w') !! serverPath = Some body
        ∧ client (sup w')
          = Some {| client_id := next_id (sup w); command := serverPath; state := Running |}
        ∧ spawned (sup w') = spawned (sup w) ++ [(next_id (sup w), serverPath)]
        ∧ (∀ info,
             latest_release (head (tail (api_replies (net w)))) serverBinaryName = Some info →
             can_open_for_writing (disk (storage_ensured rt w)) (getMetadataPath serverPath)
               = true →
             (readMetadata serverPath w').1 = Returned (metadata_value info)).
Proof.
  intros R N Hex Hup Hans Hfate Hlaunch sp.
  destruct (startClient_via_install rt w serverBinaryName R N)
    as (w1 & E & Dd & Dh & Dn & Ds & Da & Dm).
  fold sp in E, Hex, Hup, Hfate.
  destruct (install_update_accepted rt serverBinaryName sp w1)
    as (w2 & Ad & Ah & As & At & Ar & Ap & Aa & Ei);
    [by rewrite Dd | by rewrite Dd, Dn | by rewrite Da |].
  pose proof (downloadBinary_fate serverBinaryName sp) as Hd.
  destruct (appendLine_run "Updating ForgeLSP binary..." w2)
    as (w2' & E2' & (Ld & Lh & Ls & Ln & La) & _).
  specialize (Hd w2').
  rewrite (download_fate_in_start w w1 w2' sp Dd Dn) in Hd by congruence.
  rewrite Hfate in Hd. destruct Hd as (w3 & Ed & F3).
  destruct (downloadBinary_frame serverBinaryName sp w2') as (Fh & Fs & _ & _ & Fu & _).
  rewrite Ed in Fh, Fs, Fu. cbn [snd] in Fh, Fs, Fu.
  destruct (download_fate_installs _ _ _ Hfate) as (_ & Co).
  destruct (showInformationMessage_run "ForgeLSP binary updated successfully." w3)
    as (w4 & E4 & (Sd & Sh & Ss & _) & _).
  assert (Ei' : install_or_update rt serverBinaryName sp w1 = (Returned (Some sp), w4)).
  { rewrite Ei. rewrite bind_run. erewrite try_returned; [done|].
    rewrite (bind_returned _ _ _ _ _ E2'). rewrite (bind_returned _ _ _ _ _ Ed). exact E4. }
  rewrite E, (bind_returned _ _ _ _ _ Ei').
  assert (F4 : files (disk w4)
               = installed_files (disk (storage_ensured rt w)) sp body
                   (latest_release (head (tail (api_replies (net w)))) serverBinaryName)).
  { rewrite Sd, F3, Ld, Ad, Dd, Ln, Ap, Dn. done. }
  assert (Hex4 : exists_path (disk w4) sp = true).
  { apply (exists_path_file _ _ body). rewrite F4. apply installed_files_binary. }
  assert (S4 : sup w4 = sup w) by congruence.
  assert (Hl : launch_succeeds w4 = true).
  { unfold launch_succeeds in *. by rewrite S4. }
  assert (Hm : mode_settable w4 sp = true).
  { apply (mode_settable_of_open (storage_ensured rt w)); [done|].
    by rewrite Sd, Fu, Ld, Ad, Dd. }
  destruct (launch_spec sp w4) as (w5 & E5 & (Lf & _) & Lm & Lc & Lsp & _);
    [by right | done | done |].
  rewrite S4 in Lc, Lsp.
  exists w5. split; [done|]. rewrite Lf, F4.
  split; [apply installed_files_binary|]. split; [done|]. split; [done|].
  intros info Hinfo C. rewrite readMetadata_result. f_equal.
  apply stored_metadata_written. rewrite Lf, F4, Hinfo. unfold installed_files.
  rewrite C. apply lookup_insert_eq.
Qed.

(** X13.  An accepted update whose download is rejected before anything
    is written (request refused, destination that cannot be opened)
    goes on with the binary that is there: when the mode of the binary
    can be set and the launch succeeds, the start request returns, the
    failure is shown, every file is as before, and the one process
    spawned runs the existing binary. *)
Theorem refused_update_keeps_binary (w : World) (serverBinaryName : string) :
  client_running (client (sup w)) = false →
  getServerBinaryName (host w) = Some serverBinaryName →
  exists_path (disk (storage_ensured rt w)) (start_path rt serverBinaryName w) = true →
  update_available rt
    (stored_metadata (disk (storage_ensured rt w)) (start_path rt serverBinaryName w))
    (latest_release (head (api_replies (net w))) serverBinaryName) = true →
  mjoin (head (answers (editor w))) = Some "Update" →
  ((∀ body, head (transfers (net w)) ≠ Some (Response body))
   ∨ can_open_for_writing (disk (storage_ensured rt w)) (start_path rt serverBinaryName w)
     = false) →
  mode_settable w (start_path rt serverBinaryName w) = true →
  launch_succeeds w = true →
  let serverPath := start_path rt serverBinaryName w in
  ∃ w' e, startClient rt w = (Returned tt, w')
          ∧ files (disk w') = files (disk w)
          ∧ ErrorMessage ("ForgeLSP: Failed to update binary. " +:+ e)
            ∈ messages (editor w')
          ∧ client (sup w')
            = Some {| client_id := next_id (sup w); command := serverPath;
                      state := Running |}
          ∧ spawned (sup w') = spawned (sup w) ++ [(next_id (sup w), serverPath)].
Proof.
  intros R N Hex Hup Hans Hfail Hmode Hlaunch sp.
  destruct (startClient_via_install rt w serverBinaryName R N)
    as (w1 & E & Dd & Dh & Dn & Ds & Da & Dm).
  fold sp in E, Hex, Hup, Hfail, Hmode.
  destruct (storage_ensured_frame rt w) as (Ff & _ & Fu & _).
  destruct (install_update_accepted rt serverBinaryName sp w1)
    as (w2 & Ad & Ah & As & At & Ar & Ap & Aa & Ei);
    [by rewrite Dd | by rewrite Dd, Dn | by rewrite Da |].
  destruct (appendLine_run "Updating ForgeLSP binary..." w2)
    as (w2' & E2' & (Ld & Lh & Ls & Ln & La) & _).
  assert (Hd : ∃ e w3, downloadBinary serverBinaryName sp w2' = (Thrown e, w3)
                       ∧ disk w3 = disk w2').
  { destruct Hfail as [Hno|C].
    - apply downloadBinary_no_response. intros body. rewrite Ln, At, Dn. apply Hno.
    - destruct (head (transfers (net w2'))) as [[e|body]|] eqn:Ht.
      + apply downloadBinary_no_response. intros body. by rewrite Ht.
      + apply (downloadBinary_cannot_open _ _ _ body Ht).
        unfold can_open_for_writing in *. by rewrite Ld, Ad, Dd.
      + apply downloadBinary_no_response. intros body. by rewrite Ht. }
  destruct Hd as (e & w3 & Ed & D3).
  destruct (downloadBinary_frame serverBinaryName sp w2') as (Fh & Fs & _).
  rewrite Ed in Fh, Fs. cbn [snd] in Fh, Fs.
  destruct (showErrorMessage_run ("ForgeLSP: Failed to update binary. " +:+ e) w3)
    as (w4 & E4 & (S4d & S4h & S4s & _) & M4).
  destruct (appendLine_run ("ForgeLSP: Failed to update binary. " +:+ e) w4)
    as (w5 & E5 & (S5d & S5h & S5s & _) & M5).
  assert (Ei' : install_or_update rt serverBinaryName sp w1 = (Returned (Some sp), w5)).
  { rewrite Ei. rewrite bind_run. erewrite try_thrown; cycle 1.
    { rewrite (bind_returned _ _ _ _ _ E2'). by rewrite (bind_thrown _ _ _ _ _ Ed). }
    cbn beta. rewrite (bind_returned _ _ _ _ _ E4). by rewrite E5. }
  rewrite E, (bind_returned _ _ _ _ _ Ei').
  assert (D5 : disk w5 = disk (storage_ensured rt w)) by congruence.
  assert (S5 : sup w5 = sup w) by congruence.
  assert (H5 : host w5 = host w) by congruence.
  assert (Hl : launch_succeeds w5 = true).
  { unfold launch_succeeds in *. by rewrite S5. }
  assert (Hm : mode_settable w5 sp = true).
  { rewrite (mode_settable_ext w w5); [done | done | by rewrite D5]. }
  destruct (launch_spec sp w5)
    as (w6 & E6 & (Lf & _ & _ & _ & _ & Lmsg & _) & _ & Lc & Lsp & _);
    [right; by rewrite D5 | done | done |].
  rewrite S5 in Lc, Lsp.
  exists w6, e. split; [exact E6|].
  split; [by rewrite Lf, D5, Ff|]. split; [|done].
  rewrite Lmsg, M5, M4. apply elem_of_app. right. by left.
Qed.

End EndToEnd.

Lemma first_install_ends_running_witness :
  ∃ w', startClient node_posix first_install_world = (Returned tt, w')
        ∧ files (disk w') !! default_binary = Some "FIRST BINARY"
        ∧ files (disk w')
          = installed_files (disk (storage_ensured node_posix first_install_world))
              default_binary "FIRST BINARY"
              (Some {| updated_at := "2024-01-01T00:00:00Z"; tag_name := "v1" |})
        ∧ client (sup w')
          = Some {| client_id := 0; command := default_binary; state := Running |}
        ∧ spawned (sup w') = [(0%nat, default_binary)]
        ∧ (on_windows first_install_world = false →
           modes (disk w') !! default_binary = Some "755").
Proof.
  apply (first_install_ends_running node_posix first_install_world
           "forgevsc-linux-x86_64" "FIRST BINARY").
  - reflexivity.
  - reflexivity.
  - vm_compute. reflexivity.
  - reflexivity.
  - vm_compute. reflexivity.
  - reflexivity.
Defined.

Lemma failed_first_install_starts_nothing_witness :
  ∃ w' e, startClient node_posix first_install_refused_world = (Returned tt, w')
          ∧ sup w' = sup first_install_refused_world
          ∧ ErrorMessage ("ForgeLSP: Failed to download binary. " +:+ e)
            ∈ messages (editor w').
Proof.
  apply (failed_first_install_starts_nothing node_posix first_install_refused_world
           "forgevsc-linux-x86_64").
  - reflexivity.
  - reflexivity.
  - vm_compute. reflexivity.
  - reflexivity.
  - vm_compute. reflexivity.
Defined.

Lemma accepted_update_replaces_binary_witness :
  ∃ w', startClient node_posix update_accepted_world = (Returned tt, w')
        ∧ files (disk w') !! default_binary = Some "NEW BINARY"
        ∧ (readMetadata default_binary w').1
          = Returned (metadata_value
                        {| updated_at := "2024-01-02T00:00:00Z"; tag_name := "v2" |}).
Proof.
  destruct (accepted_update_replaces_binary node_posix update_accepted_world
              "forgevsc-linux-x86_64" "NEW BINARY")
    as (w' & E & F & _ & _ & H).
  - reflexivity.
  - reflexivity.
  - vm_compute. reflexivity.
  - vm_compute. reflexivity.
  - reflexivity.
  - vm_compute. reflexivity.
  - reflexivity.
  - exists w'. split; [exact E|]. split; [exact F|].
    apply H; vm_compute; reflexivity.
Defined.

Lemma refused_update_keeps_binary_witness :
  ∃ w' e, startClient node_posix update_refused_world = (Returned tt, w')
          ∧ files (disk w') = files (disk update_refused_world)
          ∧ ErrorMessage ("ForgeLSP: Failed to update binary. " +:+ e)
            ∈ messages (editor w')
          ∧ client (sup w')
            = Some {| client_id := 0; command := default_binary; state := Running |}
          ∧ spawned (sup w') = [(0%nat, default_binary)].
Proof.
  apply (refused_update_keeps_binary node_posix update_refused_world
           "forgevsc-linux-x86_64").
  - reflexivity.
  - reflexivity.
  - vm_compute. reflexivity.
  - vm_compute. reflexivity.
  - reflexivity.
  - left. intros body. discriminate.
  - vm_compute. reflexivity.
  - reflexivity.
Defined.
(** ** Restarts *)

Section Restarts.

Variable rt : Runtime.

(** Whatever a start request does, the host is untouched and what
    exists on disk goes on existing. *)
Lemma startClient_persists w :
  host (startClient rt w).2 = host w
  ∧ (∀ p, exists_path (disk w) p = true → exists_path (disk (startClient rt w).2) p = true).
Proof.
  destruct (client_running (client (sup w))) eqn:R.
  { unfold startClient.
    by rewrite (bind_returned _ _ _ _ _ (startClient_provision_running rt w R)). }
  destruct (getServerBinaryName (host w)) as [n|] eqn:N; cycle 1.
  { unfold startClient.
    by rewrite (bind_returned _ _ _ _ _ (startClient_provision_unsupported rt w R N)). }
  destruct (startClient_via_install rt w n R N) as (w1 & E & Dd & Dh & _).
  set (sp := start_path rt n w) in *.
  assert (H1 : ∀ p, exists_path (disk w) p = true → exists_path (disk w1) p = true).
  { intros p Hp. rewrite Dd. by apply exists_path_storage_ensured. }
  rewrite E, bind_run.
  pose proof (install_or_update_frame rt n sp w1) as Hf.
  destruct (install_or_update rt n sp w1) as [[[x|]|e|] w2];
    cbn [snd mret JS_ret js_ret] in Hf |- *;
    pose proof Hf as (Fh & _);
    try (split; [congruence|];
         intros p Hp; by apply (provision_frame_exists sp w1 w2 p Hf), H1).
  pose proof (launch_always_frame x w2) as (Lf & Ld & _ & Lh & _).
  split; [congruence|]. intros p Hp.
  pose proof (provision_frame_exists sp w1 w2 p Hf (H1 p Hp)) as H2.
  unfold exists_path in *. by rewrite Lf, Ld.
Qed.

End Restarts.

(** ** The update command without an override *)

#[export] Instance same_answers_preorder : PreOrder same_answers.
Proof. split; [by intros w | intros w1 w2 w3; unfold same_answers; congruence]. Qed.

Ltac answers_known :=
  first
    [ apply (always_quiet same_answers);
        [intros ?? (_ & _ & _ & ? & _); done | solve [auto with frames]]
    | apply (always_silent same_answers);
        [intros ?? (_ & _ & _ & _ & ?); done | solve [auto with frames]]
    | intros ?; unfold same_answers, axios_stream, pipe_to_file, writeMetadata,
        try_catch, writeFileSync;
      repeat case_match; reflexivity ].

Lemma downloadBinary_same_answers filename destPath :
  always same_answers (downloadBinary filename destPath).
Proof.
  unfold downloadBinary, withProgress.
  frame_steps same_answers ltac:(answers_known).
Qed.



Section UpdateCommand.

Variable rt : Runtime.

(** The update command up to its download, when no override is set. *)
Lemma updateLSP_to_download w serverBinaryName :
  getServerBinaryName (host w) = Some serverBinaryName →
  customBinaryPath (host w) = None →
  let serverPath := path_join rt (globalStoragePath (host w)) serverBinaryName in
  ∃ w3,
    disk w3 = disk (storage_ensured rt w) ∧ host w3 = host w ∧ net w3 = net w
    ∧ messages (editor w3) = messages (editor w)
    ∧ answers (editor w3) = answers (editor w)
    ∧ next_id (sup w3) = next_id (sup w) ∧ spawned (sup w3) = spawned (sup w)
    ∧ launches (sup w3) = launches (sup w)
    ∧ client_running (client (sup w3)) = false
    ∧ updateLSP rt w
      = try_catch
          ((downloadBinary serverBinaryName serverPath ;;
            chmod_unless_windows serverPath) ;;
           showInformationMessage "ForgeLSP binary updated successfully. Restarting LSP..." ;;
           startClient rt)
          (updateLSP_catch rt) w3.
Proof.
  intros N C sp. unfold updateLSP. js_step. rewrite N.
  rewrite (bind_returned _ _ _ _ _ (ensureStorage_run rt w)).
  destruct (resolveServerPath_run rt (globalStoragePath (host w)) serverBinaryName
              (storage_ensured rt w)) as (w1 & E1 & (S1d & S1h & S1s & S1n & S1a) & M1).
  rewrite (bind_returned _ _ _ _ _ E1).
  destruct (storage_ensured_frame rt w) as (_ & _ & _ & Fh & Fn & Fe & Fs & _).
  assert (Hsp : resolved_path rt (globalStoragePath (host w)) serverBinaryName
                  (storage_ensured rt w) = sp).
  { unfold resolved_path. by rewrite Fh, C. }
  rewrite Hsp.
  destruct (stop_for_update_frame w1)
    as (w2 & E2 & D2 & H2 & N2 & M2 & A2 & I2 & P2 & L2 & R2 & _).
  destruct (appendLine_run "Manual LSP update triggered..." w2)
    as (w3 & E3 & (S3d & S3h & S3s & S3n & S3a) & M3).
  exists w3.
  assert (U2 : custom_usable w2 = false).
  { unfold custom_usable. by rewrite H2, S1h, Fh, C. }
  repeat split; try congruence.
  apply try_catch_ext.
  rewrite bind_run. cbn [gets]. rewrite (bind_returned _ _ _ _ _ E2).
  rewrite bind_run. cbn [gets]. rewrite U2.
  rewrite (bind_run (appendLine _ ;; _)).
  rewrite (bind_returned _ _ _ _ _ E3).
  by rewrite <- bind_run.
Qed.


(** X15.  The update command, with no override set, whose download is
    rejected before anything is written, does not fail: it shows the
    failure, leaves every file as it was, and starts the server again
    from the binary that is there; when the update check of that
    restart does not throw, the mode of the binary can be set and the
    launch succeeds, it ends with a running client for that binary. *)
Theorem update_command_failure_restarts (w : World) (serverBinaryName : string) :
  getServerBinaryName (host w) = Some serverBinaryName →
  customBinaryPath (host w) = None →
  exists_path (disk (storage_ensured rt w))
    (path_join rt (globalStoragePath (host w)) serverBinaryName) = true →
  ((∀ body, head (transfers (net w)) ≠ Some (Response body))
   ∨ can_open_for_writing (disk (storage_ensured rt w))
       (path_join rt (globalStoragePath (host w)) serverBinaryName) = false) →
  Forall (λ a, a ≠ Some "Update") (answers (editor w)) →
  update_check_throws
    (stored_metadata (disk w) (path_join rt (globalStoragePath (host w)) serverBinaryName))
    (latest_release (head (api_replies (net w))) serverBinaryName) = false →
  mode_settable w (path_join rt (globalStoragePath (host w)) serverBinaryName) = true →
  launch_succeeds w = true →
  let serverPath := path_join rt (globalStoragePath (host w)) serverBinaryName in
  ∃ e w', updateLSP rt w = (Returned tt, w')
          ∧ files (disk w') = files (disk w)
          ∧ ErrorMessage ("ForgeLSP: Failed to update binary. " +:+ e)
            ∈ messages (editor w')
          ∧ client (sup w')
            = Some {| client_id := next_id (sup w); command := serverPath;
                      state := Running |}
          ∧ spawned (sup w') = spawned (sup w) ++ [(next_id (sup w), serverPath)].
Proof.
  intros N C Hex Hfail Hans Hthrow Hmode Hlaunch sp.
  pose proof (updateLSP_to_download w serverBinaryName N C) as H.
  cbv zeta in H. fold sp in H, Hex, Hfail, Hthrow, Hmode.
  destruct H as (w3 & D3 & H3 & N3 & M3 & A3 & I3 & P3 & L3 & R3 & E).
  rewrite E. clear E.
  destruct (storage_ensured_frame rt w) as (Ff & _ & Fu & _).
  assert (Hd : ∃ e w4, downloadBinary serverBinaryName sp w3 = (Thrown e, w4)
                       ∧ disk w4 = disk w3 ∧ sup w4 = sup w3
                       ∧ api_replies (net w4) = api_replies (net w3)).
  { rewrite downloadBinary_unfold.
    destruct (download_requested_frame serverBinaryName sp w3) as (D & _ & S & Rp & _).
    destruct (head (transfers (net w3))) as [[e|body]|] eqn:Ht.
    - destruct (axios_stream_no_response serverBinaryName sp w3) as (e' & E');
        [by rewrite Ht|].
      rewrite (bind_thrown _ _ _ _ _ E'). by eexists _, _.
    - destruct Hfail as [Hno|Co]; [destruct (Hno body); by rewrite <- N3|].
      rewrite <- D3 in Co.
      rewrite (bind_returned _ _ _ _ _ (axios_stream_response serverBinaryName sp w3 body Ht)).
      rewrite bind_run. unfold pipe_to_file. rewrite D, Co. by eexists _, _.
    - destruct (axios_stream_no_response serverBinaryName sp w3) as (e' & E');
        [by rewrite Ht|].
      rewrite (bind_thrown _ _ _ _ _ E'). by eexists _, _. }
  destruct Hd as (e & w4 & E4 & D4 & S4 & Rp4).
  destruct (downloadBinary_frame serverBinaryName sp w3) as (Fh & _).
  pose proof (downloadBinary_same_answers serverBinaryName sp w3) as Fa.
  unfold same_answers in Fa. rewrite E4 in Fh, Fa. cbn [snd] in Fh, Fa.
  unfold updateLSP_catch. cbn zeta.
  destruct (showErrorMessage_run ("ForgeLSP: Failed to update binary. " +:+ e) w4)
    as (w5 & E5 & (S5d & S5h & S5s & S5n & S5a) & M5).
  destruct (appendLine_run ("ForgeLSP: Failed to update binary. " +:+ e) w5)
    as (w6 & E6 & (S6d & S6h & S6s & S6n & S6a) & M6).
  assert (Hh : host w6 = host w) by congruence.
  assert (Hs : sup w6 = sup w3) by congruence.
  assert (Hdk : disk w6 = disk (storage_ensured rt w)) by congruence.
  assert (Hidle : storage_ensured rt w6 = w6).
  { apply storage_ensured_idle. rewrite Hdk, Hh. apply storage_ensured_exists. }
  assert (Hsp : start_path rt serverBinaryName w6 = sp).
  { rewrite start_path_default by by rewrite Hh. by rewrite Hh. }
  destruct (startClient_launches rt w6 serverBinaryName)
    as (w7 & E7 & F7 & _ & _ & _ & _ & C7 & P7 & _ & M7).
  { by rewrite Hs. }
  { by rewrite Hh. }
  { by rewrite Hidle, Hsp, Hdk. }
  { by rewrite S6a, S5a, Fa, A3. }
  { rewrite Hsp, (stored_metadata_ext (disk w)) by by rewrite Hdk.
    by rewrite S6n, S5n, Rp4, N3. }
  { rewrite Hsp. rewrite (mode_settable_ext w w6); [done | done | by rewrite Hdk]. }
  { unfold launch_succeeds in *. by rewrite Hs, L3. }
  rewrite Hsp, Hs, I3 in C7. rewrite Hsp, Hs, I3, P3 in P7.
  exists e, w7. split.
  { erewrite try_thrown; cycle 1.
    { apply bind_thrown. apply bind_thrown. exact E4. }
    rewrite (bind_returned _ _ _ _ _ E5), (bind_returned _ _ _ _ _ E6).
    rewrite bind_run. cbn [gets]. rewrite Hs, R3. cbn [negb].
    by rewrite (try_returned _ _ _ _ _ E7). }
  split; [by rewrite F7, Hdk, Ff|]. split; [|done].
  apply M7. rewrite M6, M5. apply elem_of_app. right. by left.
Qed.

End UpdateCommand.


Lemma update_command_failure_restarts_witness :
  ∃ e w', updateLSP node_posix refused_download_world = (Returned tt, w')
          ∧ files (disk w') = files (disk refused_download_world)
          ∧ ErrorMessage ("ForgeLSP: Failed to update binary. " +:+ e)
            ∈ messages (editor w')
          ∧ client (sup w')
            = Some {| client_id := 0; command := default_binary; state := Running |}
          ∧ spawned (sup w') = [(0%nat, default_binary)].
Proof.
  apply (update_command_failure_restarts node_posix refused_download_world
           "forgevsc-linux-x86_64").
  - reflexivity.
  - reflexivity.
  - vm_compute. reflexivity.
  - left. intros body. vm_compute. discriminate.
  - constructor.
  - vm_compute. reflexivity.
  - vm_compute. reflexivity.
  - reflexivity.
Defined.

(** ** The commands that change the binary path *)

Section PathCommands.

Variable rt : Runtime.

Lemma restart_if_running_idle w :
  client_running (client (sup w)) = false → restart_if_running rt w = (Returned tt, w).
Proof. intros R. unfold restart_if_running. js_step. by rewrite R. Qed.




(** X18.  While no client is running, neither path command starts one:
    both return with the disk, the network and the client record as
    they were, and only the stored override is changed (to the first
    selected path, or cleared; a cancelled or empty selection leaves it
    as it was). *)
Theorem path_commands_start_nothing_when_idle (w : World) (fileUri : option (list string)) :
  client_running (client (sup w)) = false →
  (∃ w', useCustomBinary rt fileUri w = (Returned tt, w')
         ∧ disk w' = disk w ∧ net w' = net w ∧ sup w' = sup w
         ∧ customBinaryPath (host w')
           = match fileUri with
             | Some (selectedPath :: _) => Some selectedPath
             | _ => customBinaryPath (host w)
             end)
  ∧ (∃ w', resetLspPath rt w = (Returned tt, w')
           ∧ disk w' = disk w ∧ net w' = net w ∧ sup w' = sup w
           ∧ customBinaryPath (host w') = None).
Proof.
  intros R. split.
  - unfold useCustomBinary, globalState_update_customBinaryPath.
    destruct fileUri as [[|selectedPath others]|].
    + destruct (showInformationMessage_run "ForgeLSP: No binary selected." w)
        as (w' & E & (Sd & Sh & Ss & Sn & _) & _).
      exists w'. by rewrite Sh.
    + js_step. set (w1 := with_host _ w).
      destruct (showInformationMessage_run
                  ("ForgeLSP: Custom binary set to " +:+ selectedPath) w1)
        as (w2 & E2 & (S2d & S2h & S2s & S2n & _) & _).
      rewrite (bind_returned _ _ _ _ _ E2).
      rewrite restart_if_running_idle by by rewrite S2s.
      exists w2. by rewrite S2d, S2h, S2s, S2n.
    + destruct (showInformationMessage_run "ForgeLSP: No binary selected." w)
        as (w' & E & (Sd & Sh & Ss & Sn & _) & _).
      exists w'. by rewrite Sh.
  - unfold resetLspPath, globalState_update_customBinaryPath.
    js_step. set (w1 := with_host _ w).
    destruct (showInformationMessage_run "ForgeLSP: Reset to default binary path." w1)
      as (w2 & E2 & (S2d & S2h & S2s & S2n & _) & _).
    rewrite (bind_returned _ _ _ _ _ E2).
    rewrite restart_if_running_idle by by rewrite S2s.
    exists w2. by rewrite S2d, S2h, S2s, S2n.
Qed.

End PathCommands.



Lemma path_commands_start_nothing_when_idle_witness :
  (∃ w', useCustomBinary node_posix (Some [custom_binary]) override_world
           = (Returned tt, w')
         ∧ disk w' = disk override_world ∧ net w' = net override_world
         ∧ sup w' = sup override_world
         ∧ customBinaryPath (host w') = Some custom_binary)
  ∧ (∃ w', resetLspPath node_posix override_world = (Returned tt, w')
           ∧ disk w' = disk override_world ∧ net w' = net override_world
           ∧ sup w' = sup override_world
           ∧ customBinaryPath (host w') = None).
Proof.
  apply (path_commands_start_nothing_when_idle node_posix override_world
           (Some [custom_binary])).
  reflexivity.
Defined.

(** ** Creating the configuration file, and activation *)

(** The text written by [createConfig] is the JSON of [defaultConfig]. *)
Lemma defaultConfig_text_parses : JSON.parse defaultConfig_text = Some defaultConfig.
Proof. vm_compute. reflexivity. Qed.

Section Configuration.

Variable rt : Runtime.

Lemma createConfig_present w root others :
  exists_path (disk w) (path_join rt root "forgeconfig.json") = true →
  ∃ w', createConfig rt (Some (root :: others)) w = (Returned tt, w')
        ∧ silent w w'
        ∧ messages (editor w')
          = messages (editor w)
            ++ [InformationMessage "ForgeLSP: forgeconfig.json already exists."].
Proof.
  intros Hex. unfold createConfig. cbn [first_folder]. js_step. js_step.
  rewrite Hex. apply showInformationMessage_run.
Qed.

Lemma createConfig_absent w root others :
  exists_path (disk w) (path_join rt root "forgeconfig.json") = false →
  can_open_for_writing (disk w) (path_join rt root "forgeconfig.json") = true →
  ∃ w1, createConfig rt (Some (root :: others)) w
        = (match client (sup w) with None => startClient rt | Some _ => mret tt end) w1
        ∧ files (disk w1)
          = <[path_join rt root "forgeconfig.json" := defaultConfig_text]> (files (disk w))
        ∧ dirs (disk w1) = dirs (disk w)
        ∧ host w1 = host w ∧ net w1 = net w ∧ sup w1 = sup w
        ∧ answers (editor w1) = answers (editor w).
Proof.
  intros Hex Hw. unfold createConfig. cbn [first_folder]. js_step. js_step.
  rewrite Hex. rewrite bind_run. unfold writeFileSync at 1. rewrite Hw.
  set (w0 := store _ _ w).
  destruct (showInformationMessage_run
              "ForgeLSP: forgeconfig.json created. Please reload window to activate the extension fully if it hasn't already."
              w0) as (w1 & E1 & (Sd & Sh & Ss & Sn & Sa) & _).
  rewrite (bind_returned _ _ _ _ _ E1). js_step.
  exists w1. rewrite Ss. split; [done|]. by rewrite Sd, Sh, Sn, Sa.
Qed.

(** X19.  Creating the configuration a second time creates nothing:
    once [createConfig] has written forgeconfig.json, whatever the
    start of the server that follows did, the file exists, and the
    command invoked again only reports that it already exists. *)
Theorem createConfig_second_time_reports (w : World) (root : string) (others : list string) :
  exists_path (disk w) (path_join rt root "forgeconfig.json") = false →
  can_open_for_writing (disk w) (path_join rt root "forgeconfig.json") = true →
  let w1 := (createConfig rt (Some (root :: others)) w).2 in
  exists_path (disk w1) (path_join rt root "forgeconfig.json") = true
  ∧ ∃ w2, createConfig rt (Some (root :: others)) w1 = (Returned tt, w2)
          ∧ silent w1 w2
          ∧ messages (editor w2)
            = messages (editor w1)
              ++ [InformationMessage "ForgeLSP: forgeconfig.json already exists."].
Proof.
  intros Hex Hw w1.
  assert (H1 : exists_path (disk w1) (path_join rt root "forgeconfig.json") = true).
  { subst w1.
    destruct (createConfig_absent w root others Hex Hw) as (w0 & -> & F & _).
    assert (H0 : exists_path (disk w0) (path_join rt root "forgeconfig.json") = true).
    { apply (exists_path_file _ _ defaultConfig_text). rewrite F. apply lookup_insert_eq. }
    destruct (client (sup w)); [done|].
    by apply (startClient_persists rt w0). }
  split; [done|]. by apply createConfig_present.
Qed.

(** X20.  [createConfig] never starts a second client: when a client
    object exists, in whatever state, the command leaves the client
    record, the network, the host and the directories as they were, and
    no file other than forgeconfig.json of the first workspace folder
    changes; when that file is missing and can be written, the command
    returns having written the default configuration there. *)
Theorem createConfig_leaves_existing_client
    (w : World) (workspaceFolders : option (list string)) (c : LanguageClient) :
  client (sup w) = Some c →
  let w' := (createConfig rt workspaceFolders w).2 in
  sup w' = sup w ∧ net w' = net w ∧ host w' = host w ∧ dirs (disk w') = dirs (disk w)
  ∧ (∀ p, (∀ root others, workspaceFolders = Some (root :: others) →
             p ≠ path_join rt root "forgeconfig.json") →
          files (disk w') !! p = files (disk w) !! p)
  ∧ (∀ root others, workspaceFolders = Some (root :: others) →
       exists_path (disk w) (path_join rt root "forgeconfig.json") = false →
       can_open_for_writing (disk w) (path_join rt root "forgeconfig.json") = true →
       (createConfig rt workspaceFolders w).1 = Returned tt
       ∧ files (disk w') !! path_join rt root "forgeconfig.json" = Some defaultConfig_text).
Proof.
  intros Hc w'. subst w'.
  destruct workspaceFolders as [[|root others]|].
  - cbn. do 5 (split; [done|]). by intros root others [=].
  - destruct (exists_path (disk w) (path_join rt root "forgeconfig.json")) eqn:Hex.
    { destruct (createConfig_present w root others Hex)
        as (w' & -> & (Sd & Sh & Ss & Sn & _) & _).
      cbn [snd fst]. rewrite Sd. do 5 (split; [done|]).
      intros r o [= <- <-]. by rewrite Hex. }
    destruct (can_open_for_writing (disk w) (path_join rt root "forgeconfig.json")) eqn:Hw.
    + destruct (createConfig_absent w root others Hex Hw)
        as (w1 & -> & F & D & Hh & Hn & Hs & _).
      rewrite Hc. cbn [snd fst mret JS_ret js_ret].
      do 4 (split; [done|]). split.
      * intros p Hp. rewrite F. apply lookup_insert_ne. intros <-.
        by apply (Hp root others).
      * intros r o [= <- <-] _ _. split; [done|]. rewrite F. apply lookup_insert_eq.
    + unfold createConfig. cbn [first_folder]. js_step. js_step. rewrite Hex.
      rewrite bind_run. unfold writeFileSync. rewrite Hw. cbn [snd fst].
      do 5 (split; [done|]). intros r o [= <- <-]. by rewrite Hw.
  - cbn. do 5 (split; [done|]). by intros root others [=].
Qed.

(** X21.  Activation starts the server exactly when forgeconfig.json
    exists in the first workspace folder.  With the binary in place, no
    update accepted, an update check that does not throw, a binary
    whose mode can be set and a launch that succeeds, activation ends
    with a running client for the resolved path when the file exists,
    and with the client record, the disk and the network as they were
    when it does not. *)
Theorem activate_auto_start
    (w : World) (root : string) (others : list string) (serverBinaryName : string) :
  client_running (client (sup w)) = false →
  getServerBinaryName (host w) = Some serverBinaryName →
  exists_path (disk (storage_ensured rt w)) (start_path rt serverBinaryName w) = true →
  Forall (λ a, a ≠ Some "Update") (answers (editor w)) →
  update_check_throws (stored_metadata (disk w) (start_path rt serverBinaryName w))
    (latest_release (head (api_replies (net w))) serverBinaryName) = false →
  mode_settable w (start_path rt serverBinaryName w) = true →
  launch_succeeds w = true →
  ∃ w', activate rt (Some (root :: others)) w = (Returned tt, w')
        ∧ files (disk w') = files (disk w)
        ∧ download_requests (net w') = download_requests (net w)
        ∧ if exists_path (disk w) (path_join rt root "forgeconfig.json") then
            client (sup w')
            = Some {| client_id := next_id (sup w);
                      command := start_path rt serverBinaryName w;
                      state := Running |}
            ∧ spawned (sup w')
              = spawned (sup w) ++ [(next_id (sup w), start_path rt serverBinaryName w)]
          else
            disk w' = disk w ∧ net w' = net w ∧ sup w' = sup w.
Proof.
  intros R N Hex Hans Ht Hm Hl. unfold activate, createOutputChannel.
  js_step. set (w1 := with_editor _ w).
  destruct (appendLine_run "ForgeLSP extension activating..." w1)
    as (w2 & E2 & (S2d & S2h & S2s & S2n & S2a) & _).
  rewrite (bind_returned _ _ _ _ _ E2). cbn [first_folder]. js_step. js_step.
  rewrite S2d. change (disk w1) with (disk w).
  destruct (exists_path (disk w) (path_join rt root "forgeconfig.json")).
  - destruct (start_path_ext rt serverBinaryName w w2) as (Hsp & Hse); [done | done |].
    destruct (startClient_launches rt w2 serverBinaryName)
      as (w3 & E3 & F3 & _ & _ & _ & Q3 & C3 & P3 & _).
    { by rewrite S2s. }
    { by rewrite S2h. }
    { by rewrite Hsp, Hse. }
    { by rewrite S2a. }
    { by rewrite Hsp, S2d, S2n. }
    { rewrite Hsp. rewrite (mode_settable_ext w w2); [done | done | by rewrite S2d]. }
    { unfold launch_succeeds in *. by rewrite S2s. }
    rewrite Hsp, S2s in C3, P3.
    exists w3. split; [done|]. split; [by rewrite F3, S2d|].
    split; [by rewrite Q3, S2n|]. done.
  - destruct (appendLine_run
                "forgeconfig.json not found. Waiting for command or file creation." w2)
      as (w3 & E3 & (S3d & S3h & S3s & S3n & _) & _).
    exists w3. split; [done|]. split; [by rewrite S3d, S2d|].
    split; [by rewrite S3n, S2n|].
    split; [by rewrite S3d, S2d|]. split; [by rewrite S3n, S2n|].
    by rewrite S3s, S2s.
Qed.

End Configuration.

Lemma createConfig_second_time_reports_witness :
  let w1 := (createConfig node_posix (Some [workspace_root]) (installed_world offline [])).2 in
  exists_path (disk w1) workspace_config = true
  ∧ ∃ w2, createConfig node_posix (Some [workspace_root]) w1 = (Returned tt, w2)
          ∧ silent w1 w2
          ∧ messages (editor w2)
            = messages (editor w1)
              ++ [InformationMessage "ForgeLSP: forgeconfig.json already exists."].
Proof.
  apply (createConfig_second_time_reports node_posix (installed_world offline [])
           workspace_root []).
  - vm_compute. reflexivity.
  - vm_compute. reflexivity.
Defined.

Lemma createConfig_leaves_existing_client_witness :
  let w' := (createConfig node_posix (Some [workspace_root]) (running_world None)).2 in
  sup w' = sup (running_world None) ∧ net w' = net (running_world None)
  ∧ host w' = host (running_world None)
  ∧ dirs (disk w') = dirs (disk (running_world None))
  ∧ files (disk w') !! default_binary = files (disk (running_world None)) !! default_binary
  ∧ (createConfig node_posix (Some [workspace_root]) (running_world None)).1 = Returned tt
  ∧ files (disk w') !! workspace_config = Some defaultConfig_text.
Proof.
  destruct (createConfig_leaves_existing_client node_posix (running_world None)
              (Some [workspace_root])
              {| client_id := 0; command := default_binary; state := Running |})
    as (Hs & Hn & Hh & Hd & Hf & Hw).
  - reflexivity.
  - split; [exact Hs|]. split; [exact Hn|]. split; [exact Hh|]. split; [exact Hd|].
    split.
    + apply Hf. intros root others [= <- <-]. vm_compute. discriminate.
    + apply (Hw workspace_root []); [reflexivity | vm_compute; reflexivity
                                      | vm_compute; reflexivity].
Defined.

Lemma activate_auto_start_witness :
  ∃ w', activate node_posix (Some [workspace_root]) configured_world = (Returned tt, w')
        ∧ files (disk w') = files (disk configured_world)
        ∧ download_requests (net w') = []
        ∧ client (sup w')
          = Some {| client_id := 0; command := default_binary; state := Running |}
        ∧ spawned (sup w') = [(0%nat, default_binary)].
Proof.
  apply (activate_auto_start node_posix configured_world workspace_root []
           "forgevsc-linux-x86_64").
  - reflexivity.
  - reflexivity.
  - vm_compute. reflexivity.
  - constructor.
  - vm_compute. reflexivity.
  - vm_compute. reflexivity.
  - reflexivity.
Defined.

(** ** Where a start request stops short *)

(** [new Date] throws on the [updated_at] of such a sidecar: the update
    check throws, and with it the start request, before any launch. *)
Example unconvertible_timestamp_stops_the_start :
  let w := unconvertible_sidecar_world
             (online [Reply 200 (Some (release_of "v2" "2024-01-02T00:00:00Z"))] []) in
  JSON.parse unconvertible_sidecar
  = Some (JObj [("updated_at", JObj [("toString", JNull)]); ("tag_name", JStr "v1")])
  ∧ (shouldUpdate node_posix default_binary "forgevsc-linux-x86_64" w).1
    = Thrown "TypeError: Cannot convert object to primitive value"
  ∧ (startClient node_posix w).1
    = Thrown "TypeError: Cannot convert object to primitive value"
  ∧ sup (startClient node_posix w).2 = sup w.
Proof. repeat split; vm_compute; reflexivity. Qed.

(** The update command on such a sidecar, when the release index does
    not answer the query that follows the download: the new binary is
    installed, the old sidecar stays, both restarts throw in the update
    check, and the command returns with no client. *)
Example update_command_with_unconvertible_sidecar :
  let w := unconvertible_sidecar_world
             (online [NetworkError "Error: getaddrinfo EAI_AGAIN api.github.com";
                      Reply 200 (Some (release_of "v2" "2024-01-02T00:00:00Z"));
                      Reply 200 (Some (release_of "v2" "2024-01-02T00:00:00Z"))]
                     [Response (Complete "NEW BINARY")]) in
  download_fate (storage_ensured node_posix w) default_binary = Installs "NEW BINARY"
  ∧ launch_succeeds w = true
  ∧ (updateLSP node_posix w).1 = Returned tt
  ∧ files (disk (updateLSP node_posix w).2) !! default_binary = Some "NEW BINARY"
  ∧ client (sup (updateLSP node_posix w).2) = None
  ∧ spawned (sup (updateLSP node_posix w).2) = [].
Proof. repeat split; vm_compute; reflexivity. Qed.

(** A binary whose mode the user may not set is not launched:
    [chmodSync] throws and the start request with it. *)
Example foreign_binary_is_not_launched :
  (startClient node_posix foreign_binary_world).1
  = Thrown ("Error: EPERM: operation not permitted, chmod '" +:+ default_binary +:+ "'")
  ∧ sup (startClient node_posix foreign_binary_world).2 = sup foreign_binary_world.
Proof. split; vm_compute; reflexivity. Qed.

(** A server that exits is spawned again, the error handler answering
    [Restart]: when [client.start()] rejects there are two processes. *)
Example failing_launch_is_respawned :
  let w := launch_world (Failed [ConnectionClosed]) in
  (startClient node_posix w).1 = Thrown "Error: Launching server failed"
  ∧ spawned (sup (startClient node_posix w).2)
    = [(0%nat, default_binary); (0%nat, default_binary)]
  ∧ "LSP Connection Closed." ∈ outputChannel (editor (startClient node_posix w).2).
Proof.
  split; [vm_compute; reflexivity|]. split; [vm_compute; reflexivity|].
  apply (bool_decide_unpack _). vm_compute. exact I.
Qed.

(** A server that never answers leaves the start request pending, with
    the client [Starting]. *)
Example unanswered_launch_never_settles :
  let w := launch_world Unanswered in
  (startClient node_posix w).1 = Pending
  ∧ slot (sup (startClient node_posix w).2) = SlotStarting.
Proof. split; vm_compute; reflexivity. Qed.
